(** * HybridAssembly: the pipeline orchestrator of [hybrid_assembly.py]

    A shallow embedding of the script: the path arithmetic ([os.path.join]
    and the derived intermediate names), a tree model of the file system
    for the library calls the script makes ([os.path.isfile],
    [os.makedirs], [shutil.move], [glob.glob], [os.remove],
    [shutil.rmtree], [open(..., 'a+')]), a state-and-exception monad for
    the control flow, and [run_cmd], the three stage adapters,
    [file_check] and [main] themselves.  The three external tools are an
    arbitrary function of the command line and the file system. *)

From Stdlib Require Import ZArith Ascii String List.
From stdpp Require Import base option list sorting strings pretty gmap fin_maps.

Local Open Scope string_scope.
Local Open Scope list_scope.

(** ** Python strings *)

Module Str.

(** [s.startswith('/')] *)
Definition startswith_sep (s : string) : bool :=
  match s with
  | String c _ => bool_decide (c = "/"%char)
  | EmptyString => false
  end.

(** [s.endswith('/')] *)
Fixpoint endswith_sep (s : string) : bool :=
  match s with
  | EmptyString => false
  | String c EmptyString => bool_decide (c = "/"%char)
  | String _ s' => endswith_sep s'
  end.

(** [s.endswith(suffix)] *)
Fixpoint endswith (s suffix : string) : bool :=
  bool_decide (s = suffix) ||
  match s with
  | EmptyString => false
  | String _ s' => endswith s' suffix
  end.

(** [c in s] *)
Fixpoint contains (c : ascii) (s : string) : bool :=
  match s with
  | EmptyString => false
  | String c' s' => bool_decide (c' = c) || contains c s'
  end.

End Str.

(** ** [os.path] (posixpath) *)

(** [os.path.join(a, b)]: an absolute second component replaces the
    first; otherwise the two are glued with exactly one separator, none
    if the first is empty or already ends with one. *)
Definition os_path_join (a b : string) : string :=
  if Str.startswith_sep b then b
  else if bool_decide (a = "") || Str.endswith_sep a then a ++ b
  else a ++ "/" ++ b.

(** ** The run configuration: the parameters of [main] *)

Record config := Config {
  forward_illumina : string;
  reverse_illumina : string;
  pacbio : string;
  output_dir : string;
  assembly_name : string;
  threads : Z;
  logfile : option string;
  keep_files : bool
}.

(** The four intermediate read paths, lines 79 to 82 of [main]. *)
Definition trimmed_forward (output_dir assembly_name : string) : string :=
  os_path_join output_dir (assembly_name ++ "_trimmed_R1.fastq.gz").
Definition trimmed_reverse (output_dir assembly_name : string) : string :=
  os_path_join output_dir (assembly_name ++ "_trimmed_R2.fastq.gz").
Definition corrected_forward (output_dir assembly_name : string) : string :=
  os_path_join output_dir (assembly_name ++ "_corrected_R1.fastq.gz").
Definition corrected_reverse (output_dir assembly_name : string) : string :=
  os_path_join output_dir (assembly_name ++ "_corrected_R2.fastq.gz").

(** The derived paths of a run, in the order [main] binds them. *)
Definition derived_paths (c : config) : list string :=
  [ trimmed_forward (output_dir c) (assembly_name c);
    trimmed_reverse (output_dir c) (assembly_name c);
    corrected_forward (output_dir c) (assembly_name c);
    corrected_reverse (output_dir c) (assembly_name c) ].

(** What each stage is handed by [main]: the paths it reads and the
    derived paths it writes (lines 84 to 104). *)
Record stage_io := StageIO {
  stage_inputs : list string;
  stage_outputs : list string
}.

Definition trim_io (c : config) : stage_io :=
  {| stage_inputs := [forward_illumina c; reverse_illumina c];
     stage_outputs := [trimmed_forward (output_dir c) (assembly_name c);
                       trimmed_reverse (output_dir c) (assembly_name c)] |}.

Definition correct_io (c : config) : stage_io :=
  {| stage_inputs := [trimmed_forward (output_dir c) (assembly_name c);
                      trimmed_reverse (output_dir c) (assembly_name c)];
     stage_outputs := [corrected_forward (output_dir c) (assembly_name c);
                       corrected_reverse (output_dir c) (assembly_name c)] |}.

(** Outputs of a stage that are also among its inputs. *)
Definition io_collisions (io : stage_io) : list string :=
  filter (λ p, p ∈ stage_inputs io) (stage_outputs io).

(** No output of the stage is one of its inputs. *)
Definition io_disjoint (io : stage_io) : Prop :=
  ∀ p, p ∈ stage_outputs io → p ∉ stage_inputs io.

(** ** The file system

    A tree: a regular file with its contents, or a directory with named
    entries.  There are no symbolic links, permissions or devices.  A
    location is the list of entry names leading from the root. *)

#[warnings="-register-all"]
Inductive node :=
  | File (data : string)
  | Dir (entries : gmap string node).

Definition loc := list string.

Inductive errno := ENOENT | EEXIST | ENOTDIR | EISDIR | ENOTEMPTY | EINVAL.

(** Python exceptions: [OSError] with its errno and the offending path
    ([FileNotFoundError] is [OSError ENOENT], and so on), and
    [shutil.Error]. *)
Inductive exn :=
  | OSError (e : errno) (path : string)
  | ShutilError (msg : string).

Module FS.

Fixpoint lookup (l : loc) (t : node) : option node :=
  match l with
  | [] => Some t
  | n :: l' =>
      match t with
      | Dir es => es !! n ≫= lookup l'
      | File _ => None
      end
  end.

(** Apply [f] to the node at [l]; nothing changes if [l] is absent. *)
Fixpoint alter_at (f : node → node) (l : loc) (t : node) : node :=
  match l with
  | [] => f t
  | n :: l' =>
      match t with
      | Dir es => Dir (alter (alter_at f l') n es)
      | File _ => t
      end
  end.

Definition on_entries (g : gmap string node → gmap string node)
    (t : node) : node :=
  match t with
  | Dir es => Dir (g es)
  | File _ => t
  end.

Definition is_file (o : option node) : bool :=
  match o with Some (File _) => true | _ => false end.
Definition is_dir (o : option node) : bool :=
  match o with Some (Dir _) => true | _ => false end.

(** Parent location and entry name; the root has neither. *)
Fixpoint unsnoc (l : loc) : option (loc * string) :=
  match l with
  | [] => None
  | [n] => Some ([], n)
  | n :: l' => prod_map (cons n) id <$> unsnoc l'
  end.

(** Bind the entry [n] of the directory at [d] to [x]. *)
Definition put (d : loc) (n : string) (x : node) (t : node) : node :=
  alter_at (on_entries <[n := x]>) d t.

(** Drop the entry [n] of the directory at [d], with all below it. *)
Definition drop (d : loc) (n : string) (t : node) : node :=
  alter_at (on_entries (delete n)) d t.



(** Is [p] an initial segment of [l]? *)
Fixpoint is_prefix (p l : loc) : bool :=
  match p, l with
  | [], _ => true
  | a :: p', b :: l' => bool_decide (a = b) && is_prefix p' l'
  | _ :: _, [] => false
  end.

End FS.

(** ** Path names

    A path string is resolved the way the kernel resolves it, component
    by component against the file system as it is: from the root when
    the string starts with a separator, from the working directory
    otherwise.  Before a component is taken, the place reached so far
    must be an existing directory: if nothing is there the walk fails
    with [ENOENT], if a regular file is there with [ENOTDIR].  That goes
    for the empty component behind a trailing separator and for [.] and
    [..] as well, so that [file/] and [missing/..] name nothing.  The
    place the last component leads to need not exist.  There are no
    symbolic links.  The empty string names nothing. *)

Definition next_location (acc : loc) (c : string) : loc :=
  if bool_decide (c = "") || bool_decide (c = ".") then acc
  else if bool_decide (c = "..") then removelast acc
  else acc ++ [c].

Definition step_component (root : node) (acc : errno + loc) (c : string) :
    errno + loc :=
  match acc with
  | inl e => inl e
  | inr l =>
      match FS.lookup l root with
      | Some (Dir _) => inr (next_location l c)
      | Some (File _) => inl ENOTDIR
      | None => inl ENOENT
      end
  end.

(** Scan [s] from the left; [cur] is the component read so far. *)
Fixpoint walk (root : node) (s : string) (cur : string) (acc : errno + loc) :
    errno + loc :=
  match s with
  | EmptyString => step_component root acc cur
  | String c s' =>
      if bool_decide (c = "/"%char)
      then walk root s' "" (step_component root acc cur)
      else walk root s' (cur ++ String c "") acc
  end.

Definition namei (cwd : loc) (root : node) (path : string) : errno + loc :=
  if bool_decide (path = "") then inl ENOENT
  else walk root path "" (inr (if Str.startswith_sep path then [] else cwd)).

(** The place a path names, if the walk gets there. *)
Definition resolve (cwd : loc) (root : node) (path : string) : option loc :=
  match namei cwd root path with
  | inr l => Some l
  | inl _ => None
  end.

(** [os.path.abspath]: the working directory joined with the path and
    normalised by the letters alone, whatever exists: empty components
    and [.] are dropped and [..] cancels the component before it. *)
Fixpoint normpath_walk (s : string) (cur : string) (acc : loc) : loc :=
  match s with
  | EmptyString => next_location acc cur
  | String c s' =>
      if bool_decide (c = "/"%char)
      then normpath_walk s' "" (next_location acc cur)
      else normpath_walk s' (cur ++ String c "") acc
  end.

Definition os_path_abspath (cwd : loc) (path : string) : loc :=
  normpath_walk path "" (if Str.startswith_sep path then [] else cwd).

(** A name that a directory entry can have. *)
Definition valid_name (n : string) : bool :=
  negb (bool_decide (n = "")) && negb (bool_decide (n = "."))
  && negb (bool_decide (n = "..")) && negb (Str.contains "/" n).

(** [s.rstrip('/')] *)
Fixpoint rstrip_sep (s : string) : string :=
  match s with
  | EmptyString => ""
  | String c s' =>
      match rstrip_sep s' with
      | EmptyString => if bool_decide (c = "/"%char) then "" else String c ""
      | r => String c r
      end
  end.

(** [p[:i], p[i:]] for [i = p.rfind('/') + 1], when there is a separator. *)
Fixpoint rsplit_sep (p : string) : option (string * string) :=
  match p with
  | EmptyString => None
  | String c p' =>
      match rsplit_sep p' with
      | Some (h, t) => Some (String c h, t)
      | None => if bool_decide (c = "/"%char) then Some ("/", p') else None
      end
  end.

(** [os.path.split]: the head loses its trailing separators unless it
    consists of separators only. *)
Definition os_path_split (p : string) : string * string :=
  match rsplit_sep p with
  | None => ("", p)
  | Some (h, t) => (if bool_decide (rstrip_sep h = "") then h else rstrip_sep h, t)
  end.

(** [os.path.basename(p.rstrip('/'))], the [_basename] of [shutil]. *)
Definition shutil_basename (p : string) : string :=
  snd (os_path_split (rstrip_sep p)).

(** ** [fnmatch] and [glob] patterns *)

(** [glob.has_magic]: does the string contain one of the wildcard
    characters? *)
Definition has_magic (s : string) : bool :=
  Str.contains "*" s || Str.contains "?" s || Str.contains "[" s.

(** [fnmatch.fnmatch] for patterns built from literal characters, [*]
    and [?].  Bracket expressions are not interpreted; the script's
    patterns, [*.gfa] and [*.fastq.gz], have none. *)
Fixpoint match_pattern (pat : string) : string → bool :=
  match pat with
  | EmptyString => λ s, bool_decide (s = "")
  | String p pat' =>
      if bool_decide (p = "*"%char) then
        fix star (s : string) : bool :=
          match_pattern pat' s ||
          match s with
          | EmptyString => false
          | String _ s' => star s'
          end
      else if bool_decide (p = "?"%char) then
        λ s, match s with
             | String _ s' => match_pattern pat' s'
             | EmptyString => false
             end
      else
        λ s, match s with
             | String c s' => bool_decide (c = p) && match_pattern pat' s'
             | EmptyString => false
             end
  end.

Definition fnmatch (name pat : string) : bool := match_pattern pat name.

(** [glob._ishidden] *)
Definition ishidden (name : string) : bool :=
  match name with
  | String c _ => bool_decide (c = "."%char)
  | EmptyString => false
  end.

(** ** The world and the monad of the script

    The world a run sees and changes: the working directory, the file
    system, what reached the terminal (log records of the [logging]
    module, the output of tools run without a log file, and the
    traceback the interpreter prints for an exception that nothing
    catches), and the command lines handed to the shell so far. *)

Inductive level := ERROR | INFO.

Inductive event :=
  | Logged (lv : level) (msg : string)
  | Printed (out : string)
  | Traceback (e : exn).

Record world := World {
  w_cwd : loc;
  w_root : node;
  w_console : list event;
  w_invoked : list string
}.

Definition set_root (t : node) (w : world) : world :=
  {| w_cwd := w_cwd w; w_root := t;
     w_console := w_console w; w_invoked := w_invoked w |}.

Definition emit (e : event) (w : world) : world :=
  {| w_cwd := w_cwd w; w_root := w_root w;
     w_console := w_console w ++ [e]; w_invoked := w_invoked w |}.

Definition record_invocation (cmd : string) (w : world) : world :=
  {| w_cwd := w_cwd w; w_root := w_root w;
     w_console := w_console w; w_invoked := w_invoked w ++ [cmd] |}.

(** How a computation ends: with a value, by [sys.exit], or with an
    exception that nothing catches. *)
Inductive outcome (A : Type) :=
  | Returned (a : A)
  | SysExit (status : Z)
  | Raised (e : exn).
Arguments Returned {A} a.
Arguments SysExit {A} status.
Arguments Raised {A} e.

Definition M (A : Type) : Type := world → outcome A * world.

Definition ret {A} (a : A) : M A := λ w, (Returned a, w).

Definition bind {A B} (m : M A) (k : A → M B) : M B :=
  λ w, match m w with
       | (Returned a, w') => k a w'
       | (SysExit s, w') => (SysExit s, w')
       | (Raised e, w') => (Raised e, w')
       end.

Definition sys_exit {A} (status : Z) : M A := λ w, (SysExit status, w).
Definition get_world : M world := λ w, (Returned w, w).
Definition modify (f : world → world) : M unit := λ w, (Returned tt, f w).

Declare Scope prog_scope.
Delimit Scope prog_scope with prog.
Notation "'let*' x ':=' m 'in' k" := (bind m (λ x, k))
  (at level 10, x name, m at level 100, k at level 200) : prog_scope.
Notation "m ;; k" := (bind m (λ _, k))
  (at level 100, k at level 200, right associativity) : prog_scope.
Local Open Scope prog_scope.

(** [for item in items: body(item)] *)
Fixpoint for_each {A} (items : list A) (body : A → M unit) : M unit :=
  match items with
  | [] => ret tt
  | x :: rest => body x ;; for_each rest body
  end.

(** ** The library calls *)

Definition stat (path : string) (w : world) : option node :=
  resolve (w_cwd w) (w_root w) path ≫= λ l, FS.lookup l (w_root w).

Definition os_path_isfile (path : string) (w : world) : bool :=
  FS.is_file (stat path w).
Definition os_path_isdir (path : string) (w : world) : bool :=
  FS.is_dir (stat path w).
Definition os_path_exists (path : string) (w : world) : bool :=
  bool_decide (is_Some (stat path w)).

Definition logging_error (msg : string) : M unit := modify (emit (Logged ERROR msg)).
Definition logging_info (msg : string) : M unit := modify (emit (Logged INFO msg)).

(** [os.mkdir(path)]: separators at the end of the path are not
    counted; the directory the new one is to be in must exist and the
    name must be free. *)
Definition os_mkdir (path : string) : M unit :=
  λ w,
    if bool_decide (path = "") then (Raised (OSError ENOENT path), w)
    else if bool_decide (rstrip_sep path = "") then
      (Raised (OSError EEXIST path), w)
    else
      match namei (w_cwd w) (w_root w) (rstrip_sep path) with
      | inl e => (Raised (OSError e path), w)
      | inr l =>
          match FS.lookup l (w_root w), FS.unsnoc l with
          | None, Some (d, n) =>
              (Returned tt, set_root (FS.put d n (Dir ∅) (w_root w)) w)
          | _, _ => (Raised (OSError EEXIST path), w)
          end
      end.

(** [os.makedirs(name)], as the library has it:
<<
    head, tail = path.split(name)
    if not tail:
        head, tail = path.split(head)
    if head and tail and not path.exists(head):
        try:
            makedirs(head, exist_ok=exist_ok)
        except FileExistsError:
            pass
        if tail == curdir:
            return
    mkdir(name, mode)
>>
    The call on [head] is a call on a shorter string, so that the length
    of the name is fuel enough ([makedirs_fuel_enough]). *)
Fixpoint makedirs_fuel (fuel : nat) (name : string) : M unit :=
  λ w,
    let '(head, tail) := os_path_split name in
    let '(head, tail) :=
      if bool_decide (tail = "") then os_path_split head else (head, tail) in
    if negb (bool_decide (head = "")) && negb (bool_decide (tail = ""))
       && negb (os_path_exists head w)
    then
      match fuel with
      | 0 => os_mkdir name w
      | S fuel' =>
          match makedirs_fuel fuel' head w with
          | (Returned _, w') | (Raised (OSError EEXIST _), w') =>
              if bool_decide (tail = ".") then (Returned tt, w')
              else os_mkdir name w'
          | (o, w') => (o, w')
          end
      end
    else os_mkdir name w.

Definition os_makedirs (name : string) : M unit :=
  makedirs_fuel (String.length name) name.

(** [os.remove(path)]: unlinks a regular file. *)
Definition os_remove (path : string) : M unit :=
  λ w, match namei (w_cwd w) (w_root w) path with
       | inl e => (Raised (OSError e path), w)
       | inr l =>
           match FS.lookup l (w_root w), FS.unsnoc l with
           | None, _ => (Raised (OSError ENOENT path), w)
           | Some (Dir _), _ | Some (File _), None => (Raised (OSError EISDIR path), w)
           | Some (File _), Some (d, n) => (Returned tt, set_root (FS.drop d n (w_root w)) w)
           end
       end.

(** [shutil.rmtree(path)]: removes a directory and all below it; a
    missing path or a regular file is an error.  (The script calls it
    with a path that ends in a name.) *)
Definition shutil_rmtree (path : string) : M unit :=
  λ w, match namei (w_cwd w) (w_root w) path with
       | inl e => (Raised (OSError e path), w)
       | inr l =>
           match FS.lookup l (w_root w), FS.unsnoc l with
           | None, _ => (Raised (OSError ENOENT path), w)
           | Some (File _), _ => (Raised (OSError ENOTDIR path), w)
           | Some (Dir _), None => (Raised (OSError EINVAL path), w)
           | Some (Dir _), Some (d, n) => (Returned tt, set_root (FS.drop d n (w_root w)) w)
           end
       end.

(** [os.rename(src, dst)] on locations.  A missing source, a missing
    destination directory, a regular file onto a directory, a directory
    onto a regular file or a non-empty directory, and a directory into
    itself are errors; renaming a path to itself does nothing. *)
Definition os_rename (s d : loc) (t : node) : errno + node :=
  match FS.lookup s t with
  | None => inl ENOENT
  | Some x =>
      if bool_decide (s = d) then inr t
      else
        match FS.unsnoc s, FS.unsnoc d with
        | Some (sd, sn), Some (dd, dn) =>
            if negb (FS.is_dir (FS.lookup dd t)) then inl ENOENT
            else if FS.is_prefix s d then inl EINVAL
            else
              match x, FS.lookup d t with
              | File _, Some (Dir _) => inl EISDIR
              | Dir _, Some (File _) => inl ENOTDIR
              | Dir _, Some (Dir es) =>
                  if bool_decide (es = ∅)
                  then inr (FS.put dd dn x (FS.drop sd sn t))
                  else inl ENOTEMPTY
              | _, _ => inr (FS.put dd dn x (FS.drop sd sn t))
              end
        | _, _ => inl EINVAL
        end
  end.

(** What [shutil.move] does when [os.rename] has failed with [e]: a
    directory source [x] at [s] is copied with [copytree] (which makes
    the destination with [os.makedirs]) and then removed, unless the
    destination lies inside it by the letters of the two paths; for any
    other source the copy fails as the rename did. *)
Definition move_by_copy (src dst real_dst : string) (s : loc) (x : node)
    (e : errno) : M unit :=
  λ w,
    match x, FS.unsnoc s with
    | Dir es, Some (sd, sn) =>
        if FS.is_prefix (os_path_abspath (w_cwd w) src)
                        (os_path_abspath (w_cwd w) dst)
        then (Raised (ShutilError src), w)
        else
          match os_makedirs real_dst w with
          | (Returned _, w') =>
              match resolve (w_cwd w') (w_root w') real_dst with
              | Some d =>
                  (Returned tt,
                   set_root (FS.drop sd sn
                               (FS.alter_at (λ _, Dir es) d (w_root w'))) w')
              | None => (Raised (OSError ENOENT real_dst), w')
              end
          | (o, w') => (o, w')
          end
    | _, _ => (Raised (OSError e real_dst), w)
    end.

(** [shutil.move(src, dst)].  A destination that is a directory receives
    the source under the source's base name, which must be free (moving
    a directory onto itself does nothing).  Then the source is renamed,
    or copied when the rename fails. *)
Definition shutil_move (src dst : string) : M unit :=
  λ w,
    let real_dst :=
      if os_path_isdir dst w then os_path_join dst (shutil_basename src)
      else dst in
    if os_path_isdir dst w
       && bool_decide (resolve (w_cwd w) (w_root w) src
                       = resolve (w_cwd w) (w_root w) dst)
    then (Returned tt, w)
    else if os_path_isdir dst w && os_path_exists real_dst w then
      (Raised (ShutilError real_dst), w)
    else
      match namei (w_cwd w) (w_root w) src with
      | inl e => (Raised (OSError e src), w)
      | inr s =>
          match FS.lookup s (w_root w), namei (w_cwd w) (w_root w) real_dst with
          | None, _ => (Raised (OSError ENOENT src), w)
          | Some x, inr d =>
              match os_rename s d (w_root w) with
              | inr t => (Returned tt, set_root t w)
              | inl e => move_by_copy src dst real_dst s x e w
              end
          | Some x, inl e => move_by_copy src dst real_dst s x e w
          end
      end.

(** The names [os.listdir] reports for the directory at [l]; none if
    there is no such directory. *)
Definition listdir (l : loc) (t : node) : list string :=
  match FS.lookup l t with
  | Some (Dir es) => filter (λ n, valid_name n = true) (map_to_list es).*1
  | _ => []
  end.

(** [glob._glob1]: the entries of [dirname] that match [pattern]; hidden
    entries only if the pattern is hidden itself. *)
Definition glob1 (dirname pattern : string) (w : world) : list string :=
  match resolve (w_cwd w) (w_root w)
          (if bool_decide (dirname = "") then "." else dirname) with
  | None => []
  | Some l =>
      filter (λ n, fnmatch n pattern = true)
        (filter (λ n, ishidden pattern || negb (ishidden n) = true)
           (listdir l (w_root w)))
  end.

(** [glob._glob0]: a pattern without wildcards names at most itself. *)
Definition glob0 (dirname basename : string) (w : world) : list string :=
  if bool_decide (basename = "") then
    if os_path_isdir dirname w then [basename] else []
  else if os_path_exists (os_path_join dirname basename) w then [basename]
  else [].

(** The text [file_check] logs for a missing file. *)
Definition missing_file_message (file_path : string) : string :=
  "Your specified input file(s) could not be found! "
  +:+ "Missing file(s) were: " +:+ file_path.

(** The required inputs of a run, in the order [main] checks them, and
    those among them that do not name an existing regular file. *)
Definition required_inputs (c : config) : list string :=
  [forward_illumina c; reverse_illumina c; pacbio c].

Definition missing_inputs (c : config) (w : world) : list string :=
  filter (λ p, os_path_isfile p w = false) (required_inputs c).

(** ** Buffered text files

    [open(path, 'a+')] creates the file if it is missing and positions
    every write at its end.  The file object buffers: text written with
    [f.write] stays in the object until a chunk is full or the file is
    flushed or closed, whereas a child process that inherits the
    descriptor writes to the file directly. *)

Record file_object := FileObject {
  f_loc : loc;
  f_pending : string
}.

(** The chunk size of a text file object, in bytes. *)
Definition chunk_size : N := 8192.

(** A write through the descriptor: appended to the file it names. *)
Definition fd_write (l : loc) (s : string) (t : node) : node :=
  FS.alter_at (λ x, match x with File d => File (d ++ s) | Dir _ => x end) l t.

(** [open(path, 'a+')].  A path that ends with a separator is refused
    as a directory once the places in front of its last name are
    resolved. *)
Definition open_append (path : string) : M file_object :=
  λ w,
    if Str.endswith_sep path then
      match namei (w_cwd w) (w_root w) (rstrip_sep path) with
      | inl e =>
          (Raised (OSError (if bool_decide (rstrip_sep path = "") then EISDIR
                            else e) path), w)
      | inr _ => (Raised (OSError EISDIR path), w)
      end
    else
      match namei (w_cwd w) (w_root w) path with
      | inl e => (Raised (OSError e path), w)
      | inr l =>
          match FS.lookup l (w_root w), FS.unsnoc l with
          | Some (File _), _ => (Returned (FileObject l ""), w)
          | Some (Dir _), _ => (Raised (OSError EISDIR path), w)
          | None, None => (Raised (OSError ENOENT path), w)
          | None, Some (d, n) =>
              (Returned (FileObject l ""),
               set_root (FS.put d n (File "") (w_root w)) w)
          end
      end.

(** [f.write(s)].  The text is taken to be text that the encoding of
    the file can hold, so that the write returns. *)
Definition file_write (f : file_object) (s : string) : M file_object :=
  λ w, if bool_decide (N.of_nat (String.length (f_pending f ++ s)) < chunk_size)%N then
         (Returned (FileObject (f_loc f) (f_pending f ++ s)), w)
       else
         (Returned (FileObject (f_loc f) ""),
          set_root (fd_write (f_loc f) (f_pending f ++ s) (w_root w)) w).

(** Leaving the [with] block: the pending text is flushed. *)
Definition file_close (f : file_object) : M unit :=
  modify (λ w, set_root (fd_write (f_loc f) (f_pending f) (w_root w)) w).

Section Pipeline.

(** The shell with the three external tools behind it: what running a
    command line does to the file system, what the command prints on
    its standard output and error, and its exit status. *)
Variable shell : string → node → node * string * Z.

(** The directories [glob] finds for a directory pattern that has
    wildcards of its own. *)
Variable glob_magic_dirs : string → world → list string.

(** [glob.glob(pathname)] *)
Definition glob_glob (pathname : string) : M (list string) :=
  λ w,
    let '(dirname, basename) := os_path_split pathname in
    let found :=
      if negb (has_magic pathname) then
        if bool_decide (basename = "") then
          if os_path_isdir dirname w then [pathname] else []
        else if os_path_exists pathname w then [pathname] else []
      else if bool_decide (dirname = "") then glob1 "" basename w
      else
        let dirs :=
          if negb (bool_decide (dirname = pathname)) && has_magic dirname
          then glob_magic_dirs dirname w
          else [dirname] in
        let glob_in_dir := if has_magic basename then glob1 else glob0 in
        flat_map (λ d, map (os_path_join d) (glob_in_dir d basename w)) dirs in
    (Returned found, w).

(** [subprocess.call(cmd, shell=True)], with the child's standard
    output and error on the terminal or, given a file object, on its
    descriptor.  The result is the exit status.  The command line is
    taken to hold no NUL character and a shell to be there to start, so
    that the call returns whatever the command does. *)
Definition subprocess_call (cmd : string) (f : option file_object) : M Z :=
  λ w,
    let '(t, out, status) := shell cmd (w_root w) in
    let w1 := record_invocation cmd (set_root t w) in
    (Returned status,
     match f with
     | None => emit (Printed out) w1
     | Some f => set_root (fd_write (f_loc f) out (w_root w1)) w1
     end).

Definition run_cmd (cmd : string) (logfile : option string) : M unit :=
  match logfile with
  | None =>
      subprocess_call cmd None ;; ret tt
  | Some logfile =>
      let* f := open_append logfile in
      let* f := file_write f cmd in
      subprocess_call cmd (Some f) ;;
      file_close f
  end.

(** The three command lines: the format strings of the adapters, filled
    in. *)
Definition trim_cmd (forward_in reverse_in forward_trimmed reverse_trimmed : string)
    (threads : Z) : string :=
  "bbduk.sh in=" +:+ forward_in +:+ " in2=" +:+ reverse_in
  +:+ " out=" +:+ forward_trimmed +:+ " out2=" +:+ reverse_trimmed
  +:+ " ref=adapters trimq=10 qtrim=w minlength=50 threads="
  +:+ pretty threads.

Definition correct_cmd (forward_in reverse_in forward_corrected reverse_corrected : string)
    (threads : Z) : string :=
  "tadpole.sh in=" +:+ forward_in +:+ " in2=" +:+ reverse_in
  +:+ " out=" +:+ forward_corrected +:+ " out2=" +:+ reverse_corrected
  +:+ " mode=correct threads=" +:+ pretty threads.

Definition assemble_cmd (forward_illumina reverse_illumina pacbio output_dir : string)
    (threads : Z) : string :=
  "unicycler -1 " +:+ forward_illumina +:+ " -2 " +:+ reverse_illumina
  +:+ " -l " +:+ pacbio +:+ " -o " +:+ output_dir
  +:+ " --no_correct -t " +:+ pretty threads.

Definition trim_reads (forward_in reverse_in forward_trimmed reverse_trimmed : string)
    (threads : Z) (logfile : option string) : M unit :=
  let cmd := trim_cmd forward_in reverse_in forward_trimmed reverse_trimmed threads in
  run_cmd cmd logfile.

Definition correct_reads (forward_in reverse_in forward_corrected reverse_corrected : string)
    (threads : Z) (logfile : option string) : M unit :=
  let cmd := correct_cmd forward_in reverse_in forward_corrected reverse_corrected
               threads in
  run_cmd cmd logfile.

Definition assemble (forward_illumina reverse_illumina pacbio output_dir : string)
    (threads : Z) (logfile : option string) : M unit :=
  let cmd := assemble_cmd forward_illumina reverse_illumina pacbio output_dir
               threads in
  run_cmd cmd logfile.

Definition file_check (file_path : string) : M bool :=
  let* w := get_world in
  if negb (os_path_isfile file_path w) then
    logging_error (missing_file_message file_path) ;;
    ret false
  else ret true.

(** *** [main], block by block

    The body of [main] in the order it is written, cut at the
    comments of the source into the steps of the orchestrator. *)

(** Lines 68 to 73: the three checks all run, then the gate. *)
Definition validate (c : config) : M unit :=
  let* p1 := file_check (forward_illumina c) in
  let* p2 := file_check (reverse_illumina c) in
  let* p3 := file_check (pacbio c) in
  let file_presence := [p1; p2; p3] in
  if bool_decide (false ∈ file_presence) then sys_exit 1 else ret tt.

(** Lines 75 and 76. *)
Definition ensure_output_dir (output_dir : string) : M unit :=
  let* w := get_world in
  if negb (os_path_isdir output_dir w) then os_makedirs output_dir
  else ret tt.

(** Lines 79 to 104: trim, correct, assemble. *)
Definition run_stages (c : config) : M unit :=
  let trimmed_forward := trimmed_forward (output_dir c) (assembly_name c) in
  let trimmed_reverse := trimmed_reverse (output_dir c) (assembly_name c) in
  let corrected_forward := corrected_forward (output_dir c) (assembly_name c) in
  let corrected_reverse := corrected_reverse (output_dir c) (assembly_name c) in
  logging_info "Trimming Illumina reads..." ;;
  trim_reads (forward_illumina c) (reverse_illumina c)
    trimmed_forward trimmed_reverse (threads c) (logfile c) ;;
  logging_info "Correcting Illumina reads..." ;;
  correct_reads trimmed_forward trimmed_reverse
    corrected_forward corrected_reverse (threads c) (logfile c) ;;
  logging_info "Assembling using Unicycler. This will take quite a while..." ;;
  assemble corrected_forward corrected_reverse (pacbio c) (output_dir c)
    (threads c) (logfile c).

(** Line 108. *)
Definition finalize (c : config) : M unit :=
  shutil_move (os_path_join (output_dir c) "assembly.fasta")
              (os_path_join (output_dir c) (assembly_name c +:+ ".fasta")).

(** Lines 109 to 115. *)
Definition clean_or_keep (c : config) : M unit :=
  if negb (keep_files c) then
    logging_info "Cleaning up Unicycler output files..." ;;
    let* gfa := glob_glob (os_path_join (output_dir c) "*.gfa") in
    let* fastq := glob_glob (os_path_join (output_dir c) "*.fastq.gz") in
    let files_to_remove := gfa ++ fastq in
    for_each files_to_remove os_remove ;;
    shutil_rmtree (os_path_join (output_dir c) "pilon_polish")
  else ret tt.

(** Line 116. *)
Definition report_done (c : config) : M unit :=
  logging_info ("Hybrid Assembly complete. Assembly file is "
                +:+ os_path_join (output_dir c) (assembly_name c +:+ ".fasta")).

(** [main].  The call of [logging.basicConfig] that opens it fixes the
    format and the level (INFO) of the records; the records themselves
    are kept without their time stamp. *)
Definition main (c : config) : M unit :=
  validate c ;;
  ensure_output_dir (output_dir c) ;;
  run_stages c ;;
  finalize c ;;
  clean_or_keep c ;;
  report_done c.

(** The run up to and including the assemble stage. *)
Definition through_assemble (c : config) : M unit :=
  validate c ;;
  ensure_output_dir (output_dir c) ;;
  run_stages c.

End Pipeline.

(** ** What the cleanup removes *)

(** The entry names that [glob] reports for [pattern] in a directory
    with the entries [es]: [glob1] on [listdir]. *)
Definition matching_names (pattern : string) (es : gmap string node) :
    list string :=
  filter (λ n, fnmatch n pattern = true)
    (filter (λ n, ishidden pattern || negb (ishidden n) = true)
       (filter (λ n, valid_name n = true) (map_to_list es).*1)).

(** Does one of the two patterns of the cleanup pick the entry name? *)
Definition doomed (n : string) : bool :=
  valid_name n && negb (ishidden n)
  && (fnmatch n "*.gfa" || fnmatch n "*.fastq.gz").

(** The entries [es] without those named in [names]. *)
Definition delete_all (names : list string) (es : gmap string node) :
    gmap string node :=
  foldl (λ m n, delete n m) es names.

(** The entries the loop over [files_to_remove] leaves, and the entries
    the whole cleanup leaves. *)
Definition swept (es : gmap string node) : gmap string node :=
  filter (λ kv, doomed kv.1 = false) es.

Definition cleaned (es : gmap string node) : gmap string node :=
  delete "pilon_polish" (swept es).

(** The command lines of a run, in stage order. *)
Definition stage_commands (c : config) : list string :=
  [ trim_cmd (forward_illumina c) (reverse_illumina c)
      (trimmed_forward (output_dir c) (assembly_name c))
      (trimmed_reverse (output_dir c) (assembly_name c)) (threads c);
    correct_cmd (trimmed_forward (output_dir c) (assembly_name c))
      (trimmed_reverse (output_dir c) (assembly_name c))
      (corrected_forward (output_dir c) (assembly_name c))
      (corrected_reverse (output_dir c) (assembly_name c)) (threads c);
    assemble_cmd (corrected_forward (output_dir c) (assembly_name c))
      (corrected_reverse (output_dir c) (assembly_name c))
      (pacbio c) (output_dir c) (threads c) ].

(** A shell that does to the file system and prints what [shell] does,
    with the exit statuses replaced by those [status] gives. *)
Definition with_status (status : string → node → Z)
    (shell : string → node → node * string * Z) :
    string → node → node * string * Z :=
  λ cmd t, (fst (shell cmd t), status cmd t).

(** ** A concrete run, for the examples

    A working directory [/work] holding the three read files, and a shell
    whose tools behave as their conventions say: the trimmer and the
    corrector write their two outputs into [/work/out], the assembler
    leaves [assembly.fasta], a graph file and the polishing directory
    there.  Any other command is not found. *)

Module Demo.

Definition out : loc := ["work"; "out"].

Definition tools (cmd : string) (t : node) : node * string * Z :=
  if String.prefix "bbduk.sh " cmd then
    (FS.put out "test_trimmed_R2.fastq.gz" (File "trimmed reverse")
       (FS.put out "test_trimmed_R1.fastq.gz" (File "trimmed forward") t),
     "bbduk: done.", 0%Z)
  else if String.prefix "tadpole.sh " cmd then
    (FS.put out "test_corrected_R2.fastq.gz" (File "corrected reverse")
       (FS.put out "test_corrected_R1.fastq.gz" (File "corrected forward") t),
     "tadpole: done.", 0%Z)
  else if String.prefix "unicycler " cmd then
    (FS.put out "pilon_polish" (Dir {[ "round1.fasta" := File "polished" ]})
       (FS.put out "assembly.gfa" (File "graph")
          (FS.put out "assembly.fasta" (File ">contig")  t)),
     "unicycler: done.", 0%Z)
  else (t, "sh: command not found", 127%Z).

(** A machine on which none of the tools is installed. *)
Definition absent_tools (cmd : string) (t : node) : node * string * Z :=
  (t, "sh: command not found", 127%Z).

Definition no_magic_dirs (pattern : string) (w : world) : list string := [].

Definition reads : gmap string node :=
  {[ "r1.fastq.gz" := File "forward reads";
     "r2.fastq.gz" := File "reverse reads";
     "pb.fastq.gz" := File "long reads" ]}.

Definition start (work : gmap string node) : world :=
  {| w_cwd := ["work"];
     w_root := Dir {[ "work" := Dir work ]};
     w_console := [];
     w_invoked := [] |}.

Definition cfg (log : option string) (keep : bool) : config :=
  {| forward_illumina := "r1.fastq.gz";
     reverse_illumina := "r2.fastq.gz";
     pacbio := "pb.fastq.gz";
     output_dir := "out";
     assembly_name := "test";
     threads := 4;
     logfile := log;
     keep_files := keep |}.

(** A run whose forward reads already carry the name [main] derives
    for the trimmed forward reads. *)
Definition colliding_cfg : config :=
  {| forward_illumina := "out/test_trimmed_R1.fastq.gz";
     reverse_illumina := "r2.fastq.gz";
     pacbio := "pb.fastq.gz";
     output_dir := "out";
     assembly_name := "test";
     threads := 4;
     logfile := None;
     keep_files := false |}.

(** An assembler that leaves no polishing directory. *)
Definition tools_without_polish (cmd : string) (t : node) : node * string * Z :=
  let '(t', printed, status) := tools cmd t in
  (FS.drop out "pilon_polish" t', printed, status).

(** An output directory that is in use before the run: it holds a copy
    of the forward reads, an old graph, a reference sequence, and a
    polishing directory. *)
Definition used_out : gmap string node :=
  {[ "r1.fastq.gz" := File "forward reads";
     "old.gfa" := File "old graph";
     "reference.fasta" := File ">reference";
     "pilon_polish" := Dir ∅ ]}.

Definition start_used : world :=
  start (<["out" := Dir used_out]> reads).

(** The entries of the output directory. *)
Definition out_entries (w : world) : gmap string node :=
  match FS.lookup out (w_root w) with
  | Some (Dir es) => es
  | _ => ∅
  end.

(** The names in the output directory, sorted. *)
Definition out_names (w : world) : list string :=
  match FS.lookup out (w_root w) with
  | Some (Dir es) => merge_sort String.le (map_to_list es).*1
  | _ => []
  end.

Definition file_data (l : loc) (w : world) : option string :=
  match FS.lookup l (w_root w) with
  | Some (File d) => Some d
  | _ => None
  end.

End Demo.

(** ** Steps that run no command *)

Definition is_logged (e : event) : bool :=
  match e with
  | Logged _ _ => true
  | Printed _ | Traceback _ => false
  end.

(** A step that leaves the working directory and the list of commands
    alone, puts nothing but log records on the terminal, and never
    exits. *)
Definition runs_nothing {A} (m : M A) : Prop :=
  ∀ w o w',
    m w = (o, w') →
    w_cwd w' = w_cwd w
    ∧ w_invoked w' = w_invoked w
    ∧ (∃ evs, w_console w' = w_console w ++ evs
              ∧ Forall (λ e, is_logged e = true) evs)
    ∧ ∀ s, o ≠ SysExit s.

(** A step that changes nothing but the file system, and never exits. *)
Definition fs_only {A} (m : M A) : Prop :=
  ∀ w o w',
    m w = (o, w') →
    w_cwd w' = w_cwd w ∧ w_console w' = w_console w
    ∧ w_invoked w' = w_invoked w ∧ ∀ s, o ≠ SysExit s.

(** ** The command line (lines 119 to 179)

    What [argparse] hands over for a command line it accepts: the four
    required paths, and for each optional argument either the value given
    or nothing.  The defaults are computed when the parser is built: the
    number of processors, and a log file name made from the time. *)

Record arguments := Arguments {
  arg_pacbio : string;
  arg_forward : string;
  arg_reverse : string;
  arg_output_dir : string;
  arg_name : option string;
  arg_threads : option Z;
  arg_logfile : option string;
  arg_keep_files : bool
}.

(** The fields of [datetime.datetime.now()] that matter. *)
Record datetime := DateTime {
  dt_year : Z;
  dt_month : Z;
  dt_day : Z;
  dt_hour : Z;
  dt_minute : Z;
  dt_second : Z
}.

(** The decimal digit for [n mod 10]. *)
Definition digit (n : Z) : ascii := ascii_of_nat (48 + Z.to_nat (n mod 10)).

(** Zero-padded decimals of two and four digits, as [%m], [%d], [%H],
    [%S] and, for the years 1000 to 9999, [%Y] print them. *)
Definition two_digits (n : Z) : string :=
  String (digit (n / 10)) (String (digit n) "").

Definition four_digits (n : Z) : string :=
  String (digit (n / 1000)) (String (digit (n / 100)) (two_digits n)).

(** [now.strftime('%Y%m%d-%H%m%S')], line 153: the format has [%m], the
    month, between the hour and the second. *)
Definition strftime_logfile (now : datetime) : string :=
  four_digits (dt_year now) +:+ two_digits (dt_month now)
  +:+ two_digits (dt_day now) +:+ "-" +:+ two_digits (dt_hour now)
  +:+ two_digits (dt_month now) +:+ two_digits (dt_second now).

Definition default_logfile (now : datetime) : string :=
  strftime_logfile now +:+ "_log.txt".

(** Lines 163 to 170: the parameters of [main], read off the parsed
    arguments with the defaults filled in. *)
Definition config_of_arguments (cpu_count : Z) (now : datetime)
    (a : arguments) : config :=
  {| forward_illumina := arg_forward a;
     reverse_illumina := arg_reverse a;
     pacbio := arg_pacbio a;
     output_dir := arg_output_dir a;
     assembly_name := default "hybrid_assembly" (arg_name a);
     threads := default cpu_count (arg_threads a);
     logfile := Some (default (default_logfile now) (arg_logfile a));
     keep_files := arg_keep_files a |}.

(** The script run from the command line: the parsed arguments go to
    [main].  The result is the exit status of the process: that of
    [sys.exit], 1 after an exception that nothing catches, for which the
    interpreter prints the traceback on the terminal, and 0 otherwise. *)
Definition script (shell : string → node → node * string * Z)
    (glob_magic_dirs : string → world → list string)
    (cpu_count : Z) (now : datetime) (a : arguments) (w : world) : Z * world :=
  match main shell glob_magic_dirs (config_of_arguments cpu_count now a) w with
  | (Returned _, w') => (0%Z, w')
  | (SysExit status, w') => (status, w')
  | (Raised e, w') => (1%Z, emit (Traceback e) w')
  end.

(** A date and time as [datetime] has them, from the year 1000 on. *)
Definition valid_datetime (t : datetime) : Prop :=
  (1000 ≤ dt_year t ≤ 9999 ∧ 1 ≤ dt_month t ≤ 12 ∧ 1 ≤ dt_day t ≤ 31
   ∧ 0 ≤ dt_hour t ≤ 23 ∧ 0 ≤ dt_minute t ≤ 59 ∧ 0 ≤ dt_second t ≤ 59)%Z.

(** ** The same run with another output directory *)

Definition with_output_dir (o : string) (c : config) : config :=
  {| forward_illumina := forward_illumina c;
     reverse_illumina := reverse_illumina c;
     pacbio := pacbio c;
     output_dir := o;
     assembly_name := assembly_name c;
     threads := threads c;
     logfile := logfile c;
     keep_files := keep_files c |}.

(** The path that leads from [base] down through [names]: each name
    joined to what is in front of it. *)
Definition descend (base : string) (names : list string) : string :=
  foldl os_path_join base names.

(** The directory that a path like [descend base names] starts from:
    the working directory when [base] is empty. *)
Definition base_directory (base : string) (w : world) : option loc :=
  if bool_decide (base = "") then Some (w_cwd w)
  else resolve (w_cwd w) (w_root w) base.

(** The endings [main] gives the four intermediate read files. *)
Definition derived_suffixes : list string :=
  ["_trimmed_R1.fastq.gz"; "_trimmed_R2.fastq.gz";
   "_corrected_R1.fastq.gz"; "_corrected_R2.fastq.gz"].

(** * Properties *)

(** ** Strings *)

Section Strings.

Implicit Types (s : string) (c : ascii).

Lemma append_nil_l s : "" +:+ s = s.
Proof. reflexivity. Qed.

Lemma append_cons c s1 s2 : String c s1 +:+ s2 = String c (s1 +:+ s2).
Proof. reflexivity. Qed.

Lemma append_assoc s1 s2 s3 : (s1 +:+ s2) +:+ s3 = s1 +:+ (s2 +:+ s3).
Proof.
  induction s1 as [|c s1 IH]; [done|]. rewrite !append_cons. by f_equal.
Qed.

Lemma append_nil_r s : s +:+ "" = s.
Proof.
  induction s as [|c s IH]; [done|]. rewrite append_cons. by f_equal.
Qed.

Lemma contains_app c s1 s2 :
  Str.contains c (s1 +:+ s2) = Str.contains c s1 || Str.contains c s2.
Proof.
  induction s1 as [|c' s1 IH]; [done|]. rewrite append_cons. simpl.
  by rewrite IH, orb_assoc.
Qed.

Lemma length_app s (t : string) :
  String.length (s +:+ t) = (String.length s + String.length t)%nat.
Proof.
  induction s as [|c s IH]; [done|]. rewrite append_cons. simpl. by rewrite IH.
Qed.

End Strings.

(** ** Derived path names *)

Section DerivedPaths.

Lemma startswith_sep_app_underscore n s :
  Str.startswith_sep (n +:+ String "_" s) = Str.startswith_sep n.
Proof. by destruct n. Qed.

Lemma startswith_sep_app_dot n s :
  Str.startswith_sep (n +:+ String "." s) = Str.startswith_sep n.
Proof. by destruct n. Qed.

(** Joining is injective in what follows a common stem, as long as the
    stem decides whether the second component is absolute. *)
Lemma os_path_join_stem_inj o n s1 s2 :
  Str.startswith_sep (n +:+ s1) = Str.startswith_sep (n +:+ s2) →
  os_path_join o (n +:+ s1) = os_path_join o (n +:+ s2) →
  s1 = s2.
Proof.
  unfold os_path_join. intros ->.
  destruct (Str.startswith_sep (n +:+ s2));
    [|destruct (bool_decide (o = "") || Str.endswith_sep o)];
    intros H; repeat apply (inj (String.app _)) in H; done.
Qed.

Lemma derived_suffix_inj o n s1 s2 :
  os_path_join o (n +:+ String "_" s1) = os_path_join o (n +:+ String "_" s2) →
  s1 = s2.
Proof.
  intros H. apply os_path_join_stem_inj in H; [congruence|].
  by rewrite !startswith_sep_app_underscore.
Qed.

Lemma derived_paths_NoDup c : NoDup (derived_paths c).
Proof.
  unfold derived_paths, trimmed_forward, trimmed_reverse,
    corrected_forward, corrected_reverse.
  repeat (apply NoDup_cons; split);
    [ | | | | apply NoDup_nil_2];
    rewrite ?elem_of_cons, ?elem_of_nil;
    intros H; repeat (destruct H as [H|H]); try done;
    apply derived_suffix_inj in H; discriminate.
Qed.

End DerivedPaths.

(** C7. The four derived read paths depend on the output directory and
    the assembly name only: two runs that agree on these two derive the
    same list of paths, whatever their other parameters.  The four
    paths are pairwise distinct. *)
Theorem derived_paths_deterministic_distinct (c1 c2 : config) :
  output_dir c1 = output_dir c2 →
  assembly_name c1 = assembly_name c2 →
  derived_paths c1 = derived_paths c2 ∧ NoDup (derived_paths c1).
Proof.
  intros Ho Hn. split; [|apply derived_paths_NoDup].
  unfold derived_paths. by rewrite Ho, Hn.
Qed.

Lemma derived_paths_deterministic_distinct_witness :
  derived_paths (Demo.cfg None false) = derived_paths (Demo.cfg (Some "log.txt") true)
  ∧ NoDup (derived_paths (Demo.cfg None false)).
Proof.
  apply (derived_paths_deterministic_distinct
           (Demo.cfg None false) (Demo.cfg (Some "log.txt") true));
    reflexivity.
Defined.

(** ** Stage inputs and outputs *)

(** C5, as stated, fails: a forward read path that is already the
    derived trimmed path makes the trim stage write onto its own input. *)
Lemma trim_io_collision :
  io_collisions (trim_io Demo.colliding_cfg) = ["out/test_trimmed_R1.fastq.gz"]
  ∧ ¬ io_disjoint (trim_io Demo.colliding_cfg).
Proof.
  split; [by vm_compute|].
  intros H. apply (H "out/test_trimmed_R1.fastq.gz"); vm_compute; by left.
Qed.

(** C5, amended.  The derived outputs of the trim and the correct stage
    are pairwise distinct, so no two stages derive the same path, and the
    outputs of the correct stage differ from its inputs.  The outputs of
    the trim stage differ from its inputs exactly when neither of the two
    read paths the user supplied is a derived trimmed path; [main] does
    not check this. *)
Theorem stage_outputs_distinct (c : config) :
  NoDup (stage_outputs (trim_io c) ++ stage_outputs (correct_io c))
  ∧ io_disjoint (correct_io c)
  ∧ (io_disjoint (trim_io c) ↔
       (forward_illumina c ∉ stage_outputs (trim_io c))
       ∧ (reverse_illumina c ∉ stage_outputs (trim_io c))).
Proof.
  pose proof (derived_paths_NoDup c) as Hnd.
  split; [exact Hnd|]. split.
  - intros p Hout Hin. simpl in Hout, Hin.
    change (derived_paths c) with
      (stage_inputs (correct_io c) ++ stage_outputs (correct_io c)) in Hnd.
    apply NoDup_app in Hnd as (_ & Hdisj & _). by apply (Hdisj p).
  - unfold io_disjoint. simpl. split.
    + intros H. split; intros Hin; apply (H _ Hin);
        rewrite !elem_of_cons; tauto.
    + intros [Hf Hr] p Hout Hin.
      apply elem_of_cons in Hin as [->|Hin]; [done|].
      apply elem_of_cons in Hin as [->|Hin]; [done|].
      by apply elem_of_nil in Hin.
Qed.

(** ** The validation gate *)

Section Validation.

Variable shell : string → node → node * string * Z.
Variable glob_magic_dirs : string → world → list string.

Lemma stat_emit p e w : stat p (emit e w) = stat p w.
Proof. reflexivity. Qed.

Lemma os_path_isfile_emit p e w :
  os_path_isfile p (emit e w) = os_path_isfile p w.
Proof. reflexivity. Qed.

(** [file_check] returns whether the file is there and, if it is not,
    logs one error that names the path; it changes nothing else. *)
Lemma file_check_spec p w :
  file_check p w =
    (Returned (os_path_isfile p w),
     if os_path_isfile p w then w
     else emit (Logged ERROR (missing_file_message p)) w).
Proof.
  unfold file_check, bind, get_world, logging_error, modify, ret.
  by destruct (os_path_isfile p w).
Qed.

Lemma emit_emit_console e1 e2 w :
  w_console (emit e2 (emit e1 w)) = w_console w ++ [e1; e2].
Proof. simpl. by rewrite <- app_assoc. Qed.

(** The gate: all three checks run; the result is an exit with status 1
    as soon as one of them failed, and a plain return otherwise.  In both
    cases only the terminal has changed, by one error per missing file. *)
Lemma validate_spec c w :
  ∃ w',
    validate c w =
      (if bool_decide (missing_inputs c w = []) then Returned tt else SysExit 1, w')
    ∧ w_cwd w' = w_cwd w
    ∧ w_root w' = w_root w
    ∧ w_invoked w' = w_invoked w
    ∧ w_console w' =
        w_console w
        ++ map (λ p, Logged ERROR (missing_file_message p)) (missing_inputs c w).
Proof.
  unfold validate, bind, missing_inputs, required_inputs.
  rewrite file_check_spec.
  destruct (os_path_isfile (forward_illumina c) w) eqn:Hf;
    rewrite file_check_spec, ?os_path_isfile_emit;
    destruct (os_path_isfile (reverse_illumina c) w) eqn:Hr;
    rewrite file_check_spec, ?os_path_isfile_emit;
    destruct (os_path_isfile (pacbio c) w) eqn:Hp;
    rewrite !filter_cons, ?filter_nil, ?Hf, ?Hr, ?Hp; simpl;
    eexists; (split; [reflexivity|]); simpl;
    rewrite <- ?app_assoc, ?app_nil_r; done.
Qed.

End Validation.

(** C1. If at least one of the three required paths does not name an
    existing file, [main] ends by [sys.exit(1)]; the file system is as it
    was, so no output directory has been made; no command has been handed
    to the shell; and the terminal has received, in the order of the
    checks, one error for every missing path (all three are checked),
    each naming its path. *)
Theorem missing_input_aborts shell glob_magic_dirs (c : config) (w : world) :
  missing_inputs c w ≠ [] →
  ∃ w',
    main shell glob_magic_dirs c w = (SysExit 1, w')
    ∧ w_root w' = w_root w
    ∧ w_invoked w' = w_invoked w
    ∧ w_console w' =
        w_console w
        ++ map (λ p, Logged ERROR
                       ("Your specified input file(s) could not be found! "
                        +:+ "Missing file(s) were: " +:+ p))
             (missing_inputs c w).
Proof.
  intros Hmiss.
  destruct (validate_spec c w) as (w' & Hv & _ & Hroot & Hinv & Hcons).
  rewrite bool_decide_eq_false_2 in Hv by done.
  exists w'. unfold main, bind at 1. rewrite Hv.
  split; [done|]. split; [done|]. split; [done|]. exact Hcons.
Qed.

Lemma missing_input_aborts_witness :
  ∃ w',
    main Demo.tools Demo.no_magic_dirs (Demo.cfg None false)
      (Demo.start (delete "r2.fastq.gz" Demo.reads)) = (SysExit 1, w')
    ∧ w_root w' = w_root (Demo.start (delete "r2.fastq.gz" Demo.reads))
    ∧ w_invoked w' = w_invoked (Demo.start (delete "r2.fastq.gz" Demo.reads))
    ∧ w_console w' =
        w_console (Demo.start (delete "r2.fastq.gz" Demo.reads))
        ++ map (λ p, Logged ERROR
                       ("Your specified input file(s) could not be found! "
                        +:+ "Missing file(s) were: " +:+ p))
             (missing_inputs (Demo.cfg None false)
                (Demo.start (delete "r2.fastq.gz" Demo.reads))).
Proof.
  apply (missing_input_aborts Demo.tools Demo.no_magic_dirs
           (Demo.cfg None false) (Demo.start (delete "r2.fastq.gz" Demo.reads))).
  by vm_compute.
Defined.

(** A path with a separator behind the name of a regular file names no
    file: with [r1.fastq.gz/] for the forward reads and nothing under the
    name given for the reverse reads, both are reported, in this order. *)
Example trailing_separator_is_missing :
  missing_inputs
    (Config "r1.fastq.gz/" "nonexistent" "pb.fastq.gz" "out" "test" 4 None false)
    (Demo.start Demo.reads)
  = ["r1.fastq.gz/"; "nonexistent"].
Proof. reflexivity. Qed.

(** ** The process runner *)

Section Runner.

Lemma bind_ext_l {A B} (m1 m2 : M A) (k : A → M B) w :
  m1 w = m2 w → bind m1 k w = bind m2 k w.
Proof. unfold bind. by intros ->. Qed.

Lemma bind_ext_r {A B} (m : M A) (k1 k2 : A → M B) w :
  (∀ a w', k1 a w' = k2 a w') → bind m k1 w = bind m k2 w.
Proof. unfold bind. intros H. by destruct (m w) as [[a|s|e] w']. Qed.

Lemma bind_ext {A B} (m1 m2 : M A) (k1 k2 : A → M B) w :
  (∀ w', m1 w' = m2 w') → (∀ a w', k1 a w' = k2 a w') →
  bind m1 k1 w = bind m2 k2 w.
Proof.
  intros Hm Hk. rewrite (bind_ext_l m1 m2) by apply Hm. by apply bind_ext_r.
Qed.

Variable shell : string → node → node * string * Z.
Variable glob_magic_dirs : string → world → list string.

(** What a call of the shell leaves behind does not depend on the exit
    status of the command. *)
Lemma subprocess_call_with_status status cmd f w :
  snd (subprocess_call (with_status status shell) cmd f w)
  = snd (subprocess_call shell cmd f w).
Proof.
  unfold subprocess_call, with_status.
  by destruct (shell cmd (w_root w)) as [[t out] st].
Qed.

Lemma subprocess_call_returns cmd f w :
  ∃ status, fst (subprocess_call shell cmd f w) = Returned status.
Proof.
  unfold subprocess_call.
  destruct (shell cmd (w_root w)) as [[t out] st]. by exists st.
Qed.

(** The exit status is dropped by whatever follows the call. *)
Lemma subprocess_call_then_with_status {B} status cmd f (k : M B) w :
  (subprocess_call (with_status status shell) cmd f ;; k) w
  = (subprocess_call shell cmd f ;; k) w.
Proof.
  unfold bind, subprocess_call, with_status.
  by destruct (shell cmd (w_root w)) as [[t out] st].
Qed.

Lemma run_cmd_with_status status cmd logfile w :
  run_cmd (with_status status shell) cmd logfile w = run_cmd shell cmd logfile w.
Proof.
  destruct logfile as [l|]; unfold run_cmd.
  - apply bind_ext_r. intros f w1. apply bind_ext_r. intros f' w2.
    apply subprocess_call_then_with_status.
  - apply subprocess_call_then_with_status.
Qed.

Lemma run_stages_with_status status c w :
  run_stages (with_status status shell) c w = run_stages shell c w.
Proof.
  unfold run_stages, trim_reads, correct_reads, assemble.
  repeat (apply bind_ext; [try done; intros; apply run_cmd_with_status|intros ? ?]).
  apply run_cmd_with_status.
Qed.

Lemma main_with_status status c w :
  main (with_status status shell) glob_magic_dirs c w
  = main shell glob_magic_dirs c w.
Proof.
  unfold main.
  apply bind_ext_r. intros _ w1. apply bind_ext_r. intros _ w2.
  apply bind_ext_l. apply run_stages_with_status.
Qed.

Lemma open_append_cases path w :
  (∃ f w1, open_append path w = (Returned f, w1)
           ∧ w_invoked w1 = w_invoked w ∧ w_console w1 = w_console w
           ∧ w_cwd w1 = w_cwd w)
  ∨ (∃ e, open_append path w = (Raised (OSError e path), w)).
Proof.
  unfold open_append. repeat case_match; eauto 10.
Qed.

(** [run_cmd] either hands the command to the shell and returns, or
    fails before that because the log file cannot be opened.  Nothing in
    it depends on how the command ends. *)
Lemma run_cmd_outcome cmd logfile w :
  (∃ w', run_cmd shell cmd logfile w = (Returned tt, w')
         ∧ w_invoked w' = w_invoked w ++ [cmd]
         ∧ w_cwd w' = w_cwd w)
  ∨ (∃ e p, logfile = Some p
            ∧ run_cmd shell cmd logfile w = (Raised (OSError e p), w)).
Proof.
  destruct logfile as [l|]; unfold run_cmd, bind.
  - destruct (open_append_cases l w) as [(f & w1 & -> & Hi & _ & Hc)|[e ->]];
      [left|by right; eauto].
    unfold file_write. case_bool_decide; simpl;
      unfold subprocess_call; simpl;
      destruct (shell cmd _) as [[t out] st]; simpl;
      eexists; (split; [reflexivity|]); simpl; by rewrite Hi, Hc.
  - left. unfold subprocess_call.
    destruct (shell cmd (w_root w)) as [[t out] st]. simpl. eauto.
Qed.

(** The three stages run one after the other, each whatever became of
    the one before; the only way not to reach the end is a log file that
    cannot be opened. *)
Lemma run_stages_outcome c w :
  (∃ w', run_stages shell c w = (Returned tt, w')
         ∧ w_invoked w' = w_invoked w ++ stage_commands c)
  ∨ (∃ e p w', logfile c = Some p
               ∧ run_stages shell c w = (Raised (OSError e p), w')).
Proof.
  unfold run_stages, trim_reads, correct_reads, assemble, stage_commands.
  unfold bind, logging_info, modify. cbv beta iota zeta.
  destruct (run_cmd_outcome (trim_cmd (forward_illumina c) (reverse_illumina c)
              (trimmed_forward (output_dir c) (assembly_name c))
              (trimmed_reverse (output_dir c) (assembly_name c)) (threads c))
              (logfile c) (emit (Logged INFO "Trimming Illumina reads...") w))
    as [(w1 & -> & Hi1 & _)|(e & p & Hp & ->)];
    [|right; exists e, p; eexists; split; [exact Hp|reflexivity]].
  cbv beta iota zeta.
  destruct (run_cmd_outcome (correct_cmd
              (trimmed_forward (output_dir c) (assembly_name c))
              (trimmed_reverse (output_dir c) (assembly_name c))
              (corrected_forward (output_dir c) (assembly_name c))
              (corrected_reverse (output_dir c) (assembly_name c)) (threads c))
              (logfile c) (emit (Logged INFO "Correcting Illumina reads...") w1))
    as [(w2 & -> & Hi2 & _)|(e & p & Hp & ->)];
    [|right; exists e, p; eexists; split; [exact Hp|reflexivity]].
  cbv beta iota zeta.
  destruct (run_cmd_outcome (assemble_cmd
              (corrected_forward (output_dir c) (assembly_name c))
              (corrected_reverse (output_dir c) (assembly_name c))
              (pacbio c) (output_dir c) (threads c))
              (logfile c)
              (emit (Logged INFO
                 "Assembling using Unicycler. This will take quite a while...") w2))
    as [(w3 & -> & Hi3 & _)|(e & p & Hp & ->)];
    [|right; exists e, p; eexists; split; [exact Hp|reflexivity]].
  left. eexists. split; [reflexivity|].
  rewrite Hi3. simpl. rewrite Hi2. simpl. rewrite Hi1. simpl.
  by rewrite <- !app_assoc.
Qed.

End Runner.

(** C4.  [run_cmd] does not look at the exit status: with the statuses
    of the shell replaced by any others, [run_cmd] and the whole of
    [main] return the same result and leave the same world.  The three
    stages follow each other unconditionally: either all three command
    lines have been handed to the shell, in stage order, or the log file
    could not be opened; no exit status stops the run. *)
Theorem exit_status_ignored
    (shell : string → node → node * string * Z)
    (status : string → node → Z)
    (glob_magic_dirs : string → world → list string)
    (cmd : string) (log : option string) (c : config) (w : world) :
  run_cmd (with_status status shell) cmd log w = run_cmd shell cmd log w
  ∧ main (with_status status shell) glob_magic_dirs c w
    = main shell glob_magic_dirs c w
  ∧ ((∃ w', run_stages shell c w = (Returned tt, w')
            ∧ w_invoked w' = w_invoked w ++ stage_commands c)
     ∨ (∃ e p w', logfile c = Some p
                  ∧ run_stages shell c w = (Raised (OSError e p), w'))).
Proof.
  split; [apply run_cmd_with_status|].
  split; [apply main_with_status|apply run_stages_outcome].
Qed.

(** ** The file system tree *)

Section Tree.

Implicit Types (l q r : loc) (t x : node) (f g : node → node).

Lemma lookup_app l r t :
  FS.lookup (l ++ r) t = FS.lookup l t ≫= FS.lookup r.
Proof.
  revert t. induction l as [|n l IH]; intros t; simpl; [done|].
  destruct t as [d|es]; [done|].
  destruct (es !! n) as [c|]; simpl; [apply IH|done].
Qed.

Lemma lookup_snoc l n t :
  FS.lookup (l ++ [n]) t =
    FS.lookup l t ≫= λ x, match x with Dir es => es !! n | File _ => None end.
Proof.
  rewrite lookup_app. destruct (FS.lookup l t) as [[d|es]|]; simpl; try done.
  by destruct (es !! n).
Qed.

(** Altering at [l] shows at [l] and below. *)
Lemma lookup_alter_at_below f l r t :
  FS.lookup (l ++ r) (FS.alter_at f l t) =
    FS.lookup l t ≫= λ x, FS.lookup r (f x).
Proof.
  revert t. induction l as [|n l IH]; intros t; simpl; [done|].
  destruct t as [d|es]; simpl; [done|].
  rewrite lookup_alter_eq.
  destruct (es !! n) as [c|]; simpl; [apply IH|done].
Qed.

Lemma lookup_alter_at f l t :
  FS.lookup l (FS.alter_at f l t) = f <$> FS.lookup l t.
Proof.
  rewrite <- (app_nil_r l) at 1. rewrite lookup_alter_at_below.
  by destruct (FS.lookup l t).
Qed.

(** Elsewhere, except on the way to [l], nothing shows. *)
Lemma lookup_alter_at_off f l q t :
  FS.is_prefix l q = false → FS.is_prefix q l = false →
  FS.lookup q (FS.alter_at f l t) = FS.lookup q t.
Proof.
  revert q t. induction l as [|n l IH]; intros q t; [done|].
  destruct q as [|m q]; [done|]. simpl.
  destruct t as [d|es]; [done|]. simpl.
  case_bool_decide as Hnm; simpl.
  - subst m. rewrite bool_decide_eq_true_2 by done. simpl.
    intros H1 H2. rewrite lookup_alter_eq.
    destruct (es !! n) as [c|]; simpl; [by apply IH|done].
  - intros _ _. rewrite lookup_alter_ne by done. done.
Qed.

Lemma alter_at_compose f g l t :
  FS.alter_at f l (FS.alter_at g l t) = FS.alter_at (f ∘ g) l t.
Proof.
  revert t. induction l as [|n l IH]; intros t; simpl; [done|].
  destruct t as [d|es]; simpl; [done|]. f_equal.
  apply map_eq. intros k.
  destruct (decide (n = k)) as [<-|Hne];
    [rewrite !lookup_alter_eq|by rewrite !lookup_alter_ne].
  destruct (es !! n) as [c|]; simpl; [f_equal; apply IH|done].
Qed.



Lemma unsnoc_snoc l n : FS.unsnoc (l ++ [n]) = Some (l, n).
Proof.
  induction l as [|m l IH]; [done|]. simpl. rewrite IH.
  by destruct l.
Qed.

Lemma unsnoc_Some l d n : FS.unsnoc l = Some (d, n) → l = d ++ [n].
Proof.
  revert d. induction l as [|m l IH]; intros d; [done|].
  destruct l as [|m' l]; [by intros [= <- <-]|].
  change (FS.unsnoc (m :: m' :: l))
    with (prod_map (cons m) id <$> FS.unsnoc (m' :: l)).
  destruct (FS.unsnoc (m' :: l)) as [[d' n']|]; [|done].
  intros [= <- <-]. simpl. f_equal. by apply IH.
Qed.

End Tree.

(** ** Resolving path names *)

Section Resolve.

Implicit Types (root : node) (s a b n h cur : string) (acc : errno + loc)
  (l cwd D : loc).

Lemma walk_inl root s cur e : walk root s cur (inl e) = inl e.
Proof.
  revert cur. induction s as [|c s IH]; intros cur; simpl; [done|].
  case_bool_decide; apply IH.
Qed.

Lemma step_component_inr root acc c l :
  step_component root acc c = inr l ↔
    ∃ l0, acc = inr l0 ∧ FS.is_dir (FS.lookup l0 root) = true
          ∧ l = next_location l0 c.
Proof.
  destruct acc as [e|l0]; simpl.
  { split; [done|]. by intros (? & ? & _). }
  destruct (FS.lookup l0 root) as [[?|?]|] eqn:H; simpl; split; try done.
  - intros (? & [= <-] & Hd & _). by rewrite H in Hd.
  - intros [= <-]. exists l0. by rewrite H.
  - intros (? & [= <-] & _ & ->). done.
  - intros (? & [= <-] & Hd & _). by rewrite H in Hd.
Qed.

Lemma step_component_dir root l c :
  FS.is_dir (FS.lookup l root) = true →
  step_component root (inr l) c = inr (next_location l c).
Proof. intros H. apply step_component_inr. eauto. Qed.

(** The check made for an empty component is the check made for any
    component. *)
Lemma step_step_empty root acc c :
  step_component root (step_component root acc "") c = step_component root acc c.
Proof.
  destruct acc as [e|l]; [done|]. simpl.
  destruct (FS.lookup l root) as [[?|?]|] eqn:H; simpl; [done| |done].
  change (next_location l "") with l. by rewrite H.
Qed.

Lemma next_location_valid l n : valid_name n = true → next_location l n = l ++ [n].
Proof.
  unfold valid_name, next_location.
  repeat case_bool_decide; simpl; done.
Qed.

Lemma walk_app_sep root a b cur acc :
  walk root (a +:+ String "/" b) cur acc = walk root b "" (walk root a cur acc).
Proof.
  revert cur acc. induction a as [|c a IH]; intros cur acc.
  - by rewrite append_nil_l.
  - rewrite append_cons. simpl. case_bool_decide; apply IH.
Qed.

Lemma walk_no_sep root n cur acc :
  Str.contains "/" n = false →
  walk root n cur acc = step_component root acc (cur +:+ n).
Proof.
  revert cur. induction n as [|c n IH]; intros cur; simpl.
  { by rewrite append_nil_r. }
  intros [Hc Hn]%orb_false_elim. rewrite Hc.
  rewrite IH by done. by rewrite append_assoc.
Qed.

Lemma walk_trailing_sep root a cur acc :
  walk root (a +:+ "/") cur acc = step_component root (walk root a cur acc) "".
Proof. by rewrite walk_app_sep. Qed.

(** Separators at the end of a path add nothing but the check that the
    path names a directory. *)
Lemma walk_rstrip_sep root h cur acc :
  step_component root (walk root (rstrip_sep h) cur acc) ""
  = step_component root (walk root h cur acc) "".
Proof.
  revert cur acc. induction h as [|c h IH]; intros cur acc; [done|]. simpl.
  destruct (rstrip_sep h) as [|c' r] eqn:Hr.
  - case_bool_decide as Hc; simpl.
    + rewrite <- IH. simpl. by rewrite step_step_empty.
    + rewrite bool_decide_eq_false_2 by done. rewrite <- IH. done.
  - simpl (walk root (String c _) _ _). case_bool_decide; by rewrite <- IH.
Qed.

Lemma valid_name_no_sep n : valid_name n = true → Str.contains "/" n = false.
Proof.
  unfold valid_name. intros H.
  repeat (apply andb_prop in H as [H ?]). by apply negb_true_iff.
Qed.

Lemma no_sep_startswith n : Str.contains "/" n = false → Str.startswith_sep n = false.
Proof. destruct n as [|c n]; simpl; [done|]. by intros [? ?]%orb_false_elim. Qed.

(** A string that ends with a separator is another string and the
    separator. *)
Lemma endswith_sep_app s :
  Str.endswith_sep s = true → ∃ s', s = s' +:+ "/".
Proof.
  induction s as [|c s IH]; [done|]. simpl.
  destruct s as [|c' s].
  - intros ->%bool_decide_eq_true. by exists "".
  - intros H. destruct (IH H) as [s' ->]. by exists (String c s').
Qed.

Lemma endswith_sep_snoc s : Str.endswith_sep (s +:+ "/") = true.
Proof.
  induction s as [|a s IH]; [done|]. rewrite append_cons.
  simpl. destruct (s +:+ "/") eqn:E; [|done].
  by destruct s.
Qed.

Lemma endswith_sep_app_no_sep s n :
  n ≠ "" → Str.contains "/" n = false → Str.endswith_sep (s +:+ n) = false.
Proof.
  intros Hn Hsep. induction s as [|a s IH].
  - rewrite append_nil_l. clear Hn.
    induction n as [|c n IHn]; [done|]. simpl in *.
    apply orb_false_elim in Hsep as [Hc Hsep].
    destruct n; [done|]. by apply IHn.
  - rewrite append_cons. simpl. destruct (s +:+ n) eqn:E; [|done].
    by destruct s, n.
Qed.

Lemma startswith_sep_app a b :
  a ≠ "" → Str.startswith_sep (a +:+ b) = Str.startswith_sep a.
Proof. by destruct a. Qed.

Lemma append_eq_nil a b : a +:+ b = "" → a = "" ∧ b = "".
Proof. destruct a; [by rewrite append_nil_l|done]. Qed.

Lemma resolve_Some root cwd path l :
  resolve cwd root path = Some l ↔ namei cwd root path = inr l.
Proof.
  unfold resolve. destruct (namei cwd root path); split; congruence.
Qed.

Lemma resolve_Some_nonempty root cwd path l :
  resolve cwd root path = Some l → path ≠ "".
Proof. rewrite resolve_Some. unfold namei. by case_bool_decide. Qed.

(** Joining a name to a path is one more step of the walk. *)
Lemma namei_join root cwd out n :
  out ≠ "" → Str.contains "/" n = false →
  namei cwd root (os_path_join out n) = step_component root (namei cwd root out) n.
Proof.
  intros Hout Hn. unfold os_path_join.
  rewrite (no_sep_startswith n), bool_decide_eq_false_2 by done. simpl.
  unfold namei. rewrite (bool_decide_eq_false_2 (out = "")) by done.
  destruct (Str.endswith_sep out) eqn:Hend.
  - destruct (endswith_sep_app _ Hend) as [o' ->].
    rewrite bool_decide_eq_false_2 by (intros [[? ?]%append_eq_nil ?]%append_eq_nil; done).
    rewrite !startswith_sep_app by done.
    rewrite append_assoc, append_cons, append_nil_l.
    rewrite walk_app_sep, walk_trailing_sep, walk_no_sep by done.
    by rewrite append_nil_l, step_step_empty.
  - rewrite bool_decide_eq_false_2 by (intros [? ?]%append_eq_nil; done).
    rewrite startswith_sep_app by done.
    rewrite append_cons, append_nil_l.
    rewrite walk_app_sep, walk_no_sep by done.
    by rewrite append_nil_l.
Qed.

(** Joining an entry name to the path of a directory names that entry
    of the directory. *)
Lemma resolve_join root cwd out n D :
  resolve cwd root out = Some D →
  FS.is_dir (FS.lookup D root) = true →
  valid_name n = true →
  resolve cwd root (os_path_join out n) = Some (D ++ [n]).
Proof.
  intros HD Hdir Hn. pose proof (resolve_Some_nonempty _ _ _ _ HD) as Hout.
  apply resolve_Some. apply resolve_Some in HD.
  rewrite namei_join, HD by (try done; by apply valid_name_no_sep).
  by rewrite step_component_dir, next_location_valid.
Qed.

(** Below what does not resolve, or is no directory, nothing resolves. *)
Lemma resolve_join_None root cwd out n :
  out ≠ "" → Str.contains "/" n = false →
  match resolve cwd root out with
  | Some D => FS.is_dir (FS.lookup D root) = false
  | None => True
  end →
  resolve cwd root (os_path_join out n) = None.
Proof.
  intros Hout Hn. unfold resolve. rewrite namei_join by done.
  destruct (namei cwd root out) as [e|D]; [done|]. simpl.
  by destruct (FS.lookup D root) as [[?|?]|].
Qed.

(** A path that ends with a separator names a directory or nothing. *)
Lemma namei_endswith_sep root cwd path l :
  Str.endswith_sep path = true → namei cwd root path = inr l →
  FS.is_dir (FS.lookup l root) = true.
Proof.
  intros [a ->]%endswith_sep_app. unfold namei. case_bool_decide; [done|].
  rewrite walk_trailing_sep.
  intros (l0 & _ & Hd & ->)%step_component_inr. done.
Qed.

Lemma resolve_endswith_sep root cwd path l :
  Str.endswith_sep path = true → resolve cwd root path = Some l →
  FS.is_dir (FS.lookup l root) = true.
Proof. rewrite resolve_Some. apply namei_endswith_sep. Qed.

Lemma startswith_rstrip_sep h :
  rstrip_sep h ≠ "" → Str.startswith_sep (rstrip_sep h) = Str.startswith_sep h.
Proof.
  destruct h as [|c h]; [done|]. simpl.
  destruct (rstrip_sep h); [|done].
  case_bool_decide; [done|]. simpl. by rewrite bool_decide_eq_false_2.
Qed.

Lemma namei_rstrip_sep root cwd h :
  rstrip_sep h ≠ "" →
  step_component root (namei cwd root (rstrip_sep h)) ""
  = step_component root (namei cwd root h) "".
Proof.
  intros Hr. unfold namei.
  rewrite bool_decide_eq_false_2 by done.
  rewrite (bool_decide_eq_false_2 (h = "")) by by intros ->.
  by rewrite walk_rstrip_sep, startswith_rstrip_sep.
Qed.

Lemma namei_trailing_sep root cwd a :
  a ≠ "" → namei cwd root (a +:+ "/") = step_component root (namei cwd root a) "".
Proof.
  intros Ha. unfold namei.
  rewrite bool_decide_eq_false_2 by (by intros [? ?]%append_eq_nil).
  rewrite (bool_decide_eq_false_2 (a = "")) by done.
  by rewrite walk_trailing_sep, startswith_sep_app.
Qed.

(** What resolves keeps resolving, to the same place, when every
    directory stays a directory. *)
Lemma walk_mono root root' s cur acc l :
  (∀ q, FS.is_dir (FS.lookup q root) = true → FS.is_dir (FS.lookup q root') = true) →
  walk root s cur acc = inr l → walk root' s cur acc = inr l.
Proof.
  intros Hmono.
  assert (∀ acc c l, step_component root acc c = inr l →
                     step_component root' acc c = inr l) as Hstep.
  { intros acc' c l' (l0 & -> & Hd & ->)%step_component_inr.
    apply step_component_dir. by apply Hmono. }
  revert cur acc. induction s as [|c s IH]; intros cur acc; simpl; [apply Hstep|].
  case_bool_decide; [|apply IH].
  destruct (step_component root acc cur) as [e|l1] eqn:H1.
  - by rewrite walk_inl.
  - rewrite (Hstep _ _ _ H1). apply IH.
Qed.

Lemma resolve_mono root root' cwd path l :
  (∀ q, FS.is_dir (FS.lookup q root) = true → FS.is_dir (FS.lookup q root') = true) →
  resolve cwd root path = Some l → resolve cwd root' path = Some l.
Proof.
  intros Hmono. rewrite !resolve_Some. unfold namei. case_bool_decide; [done|].
  by apply walk_mono.
Qed.

Lemma resolve_ext root root' cwd path :
  (∀ q, FS.is_dir (FS.lookup q root') = FS.is_dir (FS.lookup q root)) →
  resolve cwd root' path = resolve cwd root path.
Proof.
  intros Hsame.
  destruct (resolve cwd root path) as [l|] eqn:H.
  { apply (resolve_mono root); [|done]. intros q. by rewrite Hsame. }
  destruct (resolve cwd root' path) as [l|] eqn:H'; [|done].
  apply (resolve_mono root' root) in H'; [congruence|].
  intros q. by rewrite Hsame.
Qed.

End Resolve.

(** ** Entries of one directory *)

Section Entries.

Implicit Types (D : loc) (t : node) (es : gmap string node) (n : string).

Lemma lookup_entry D n t es :
  FS.lookup D t = Some (Dir es) → FS.lookup (D ++ [n]) t = es !! n.
Proof. intros H. rewrite lookup_snoc, H. done. Qed.

Lemma lookup_on_entries D g t es :
  FS.lookup D t = Some (Dir es) →
  FS.lookup D (FS.alter_at (FS.on_entries g) D t) = Some (Dir (g es)).
Proof. intros H. by rewrite lookup_alter_at, H. Qed.

Lemma alter_at_id f D t x :
  FS.lookup D t = Some x → f x = x → FS.alter_at f D t = t.
Proof.
  revert t. induction D as [|n D IH]; intros t; simpl.
  { by intros [= ->]. }
  destruct t as [d|es]; [done|].
  destruct (es !! n) as [c|] eqn:Hn; simpl; [|done].
  intros Hc Hf. f_equal. apply map_eq. intros k.
  destruct (decide (n = k)) as [<-|Hne].
  - rewrite lookup_alter_eq, Hn. simpl. f_equal. by apply IH.
  - by rewrite lookup_alter_ne.
Qed.

Lemma on_entries_compose g1 g2 x :
  FS.on_entries g1 (FS.on_entries g2 x) = FS.on_entries (g1 ∘ g2) x.
Proof. by destruct x. Qed.

Lemma alter_at_ext f g D t :
  (∀ x, f x = g x) → FS.alter_at f D t = FS.alter_at g D t.
Proof.
  intros H. revert t. induction D as [|n D IH]; intros t; simpl; [done|].
  destruct t as [d|es]; [done|]. f_equal.
  apply alter_ext. intros c _. apply IH.
Qed.

Lemma alter_at_ext_lookup f g D t x :
  FS.lookup D t = Some x → f x = g x → FS.alter_at f D t = FS.alter_at g D t.
Proof.
  revert t. induction D as [|n D IH]; intros t; simpl.
  { by intros [= ->]. }
  destruct t as [d|es]; [done|].
  destruct (es !! n) as [c|] eqn:Hn; simpl; [|done].
  intros Hc Hf. f_equal. apply alter_ext. intros y Hy.
  rewrite Hn in Hy. injection Hy as <-. by apply IH.
Qed.

(** Putting after dropping, in one directory, is one change of its
    entries. *)
Lemma put_drop D n m x t :
  FS.put D n x (FS.drop D m t)
  = FS.alter_at (FS.on_entries (λ es, <[n := x]> (delete m es))) D t.
Proof.
  unfold FS.put, FS.drop. rewrite alter_at_compose.
  apply alter_at_ext. intros y. apply on_entries_compose.
Qed.

Lemma is_prefix_snoc_ne D n m :
  n ≠ m → FS.is_prefix (D ++ [n]) (D ++ [m]) = false.
Proof.
  intros H. induction D as [|k D IH]; simpl.
  - by rewrite bool_decide_eq_false_2.
  - by rewrite IH, andb_false_r.
Qed.

Lemma is_prefix_snoc_self D n : FS.is_prefix (D ++ [n]) D = false.
Proof.
  induction D as [|k D IH]; simpl; [done|]. by rewrite IH, andb_false_r.
Qed.

Lemma valid_name_fasta name :
  Str.contains "/" name = false → valid_name (name +:+ ".fasta") = true.
Proof.
  intros H. unfold valid_name. rewrite contains_app, H. simpl.
  destruct name as [|c1 [|c2 [|c3 name]]];
    repeat case_bool_decide; simpl; done.
Qed.

End Entries.

(** ** Splitting a joined path *)

Section Split.

Implicit Types (s a b h cur : string) (cwd : loc) (root : node) (x : ascii).

Lemma rsplit_sep_no_sep b : Str.contains "/" b = false → rsplit_sep b = None.
Proof.
  induction b as [|c b IH]; [done|]. simpl.
  intros [Hc Hb]%orb_false_elim. by rewrite IH, Hc.
Qed.

Lemma rsplit_sep_app a b :
  Str.contains "/" b = false →
  rsplit_sep (a +:+ String "/" b) = Some (a +:+ "/", b).
Proof.
  intros Hb. induction a as [|c a IH].
  - rewrite !append_nil_l. simpl. by rewrite rsplit_sep_no_sep.
  - rewrite !append_cons. simpl. by rewrite IH.
Qed.

Lemma rstrip_sep_snoc a : rstrip_sep (a +:+ "/") = rstrip_sep a.
Proof.
  induction a as [|c a IH]; [done|]. rewrite append_cons. simpl. by rewrite IH.
Qed.

Lemma rstrip_sep_id a : Str.endswith_sep a = false → rstrip_sep a = a.
Proof.
  induction a as [|c a IH]; [done|]. simpl.
  destruct a as [|c' a].
  - simpl. by intros ->.
  - intros H. by rewrite (IH H).
Qed.

Lemma contains_rstrip_sep x h :
  Str.contains x h = false → Str.contains x (rstrip_sep h) = false.
Proof.
  induction h as [|c h IH]; [done|]. simpl.
  intros [Hc Hh]%orb_false_elim.
  destruct (rstrip_sep h) as [|c' r].
  - destruct (bool_decide (c = "/"%char)); simpl; [done|]. by rewrite Hc.
  - simpl. rewrite Hc. simpl. by apply IH.
Qed.

Lemma has_magic_false s :
  has_magic s = false ↔
    Str.contains "*" s = false ∧ Str.contains "?" s = false
    ∧ Str.contains "[" s = false.
Proof.
  unfold has_magic. rewrite !orb_false_iff. tauto.
Qed.

(** The head [os.path.split] gives for a name joined to a directory path
    is the same for every name: the path without the separators at its
    end.  It names a directory exactly when the path does, the same one,
    and has no wildcard the path did not have. *)
Lemma os_path_split_join out :
  out ≠ "" →
  ∃ dirname,
    dirname ≠ ""
    ∧ (∀ cwd root,
         step_component root (namei cwd root dirname) ""
         = step_component root (namei cwd root out) "")
    ∧ (has_magic out = false → has_magic dirname = false)
    ∧ (Str.endswith_sep out = false → dirname = out)
    ∧ ∀ b, Str.contains "/" b = false →
           os_path_split (os_path_join out b) = (dirname, b).
Proof.
  intros Hout.
  assert (∃ a, (∀ cwd root,
                  step_component root (namei cwd root (a +:+ "/")) ""
                  = step_component root (namei cwd root out) "")
               ∧ (has_magic out = false → has_magic (a +:+ "/") = false)
               ∧ (Str.endswith_sep out = false → a = out)
               ∧ ∀ b, Str.contains "/" b = false →
                      os_path_join out b = a +:+ String "/" b)
    as (a & Hres & Hmag & Hid & Hjoin).
  { destruct (Str.endswith_sep out) eqn:Hend.
    - destruct (endswith_sep_app _ Hend) as [a ->]. exists a.
      repeat split; try done. intros b Hb. unfold os_path_join.
      rewrite no_sep_startswith, Hend, orb_true_r by done.
      by rewrite append_assoc.
    - exists out. split; [|split; [|split; [done|]]].
      + intros cwd root. by rewrite namei_trailing_sep, step_step_empty.
      + rewrite !has_magic_false, !contains_app. simpl.
        rewrite !orb_false_r. tauto.
      + intros b Hb. unfold os_path_join.
        rewrite no_sep_startswith, Hend by done.
        by rewrite bool_decide_eq_false_2. }
  assert (a +:+ "/" ≠ "") as Hne by (by intros [? ?]%append_eq_nil).
  exists (if bool_decide (rstrip_sep (a +:+ "/") = "") then a +:+ "/"
          else rstrip_sep (a +:+ "/")).
  split; [by case_bool_decide|]. split; [|split; [|split]].
  - intros cwd root. case_bool_decide; [done|].
    by rewrite namei_rstrip_sep.
  - intros Hm. specialize (Hmag Hm). case_bool_decide; [done|].
    revert Hmag. rewrite !has_magic_false. intros (? & ? & ?).
    by rewrite !contains_rstrip_sep.
  - intros Hend. rewrite (Hid Hend), rstrip_sep_snoc, rstrip_sep_id by done.
    by rewrite bool_decide_eq_false_2.
  - intros b Hb. unfold os_path_split.
    by rewrite Hjoin, rsplit_sep_app.
Qed.

(** The head names the directory that the path names. *)
Lemma same_directory root cwd a b D :
  step_component root (namei cwd root a) "" = step_component root (namei cwd root b) "" →
  resolve cwd root b = Some D → FS.is_dir (FS.lookup D root) = true →
  resolve cwd root a = Some D.
Proof.
  intros Heq Hb%resolve_Some Hd. rewrite Hb, (step_component_dir _ _ _ Hd) in Heq.
  change (next_location D "") with D in Heq.
  apply step_component_inr in Heq as (l0 & Ha & _ & Hl).
  change (next_location l0 "") with l0 in Hl. subst l0.
  by apply resolve_Some.
Qed.

Lemma os_path_split_name n :
  Str.contains "/" n = false → os_path_split n = ("", n).
Proof. intros H. unfold os_path_split. by rewrite rsplit_sep_no_sep. Qed.

End Split.

(** ** Changes that keep the directories *)

Section Changes.

Implicit Types (D L q r : loc) (t x : node) (es : gmap string node)
  (n : string) (f : node → node) (g : gmap string node → gmap string node).




(** Below what is no directory there is no directory. *)
Lemma is_dir_below (o : option node) r :
  FS.is_dir o = false → FS.is_dir (o ≫= FS.lookup r) = false.
Proof.
  destruct o as [[d|es]|]; simpl; try done. intros _. by destruct r.
Qed.

Lemma is_dir_alter_at f D t :
  (∀ x r, FS.lookup D t = Some x →
          FS.is_dir (FS.lookup r (f x)) = FS.is_dir (FS.lookup r x)) →
  ∀ q, FS.is_dir (FS.lookup q (FS.alter_at f D t)) = FS.is_dir (FS.lookup q t).
Proof.
  revert t. induction D as [|n D IH]; intros t Hf q; simpl.
  { by apply Hf. }
  destruct t as [d|es]; [done|].
  destruct q as [|m q]; [done|]. simpl.
  destruct (decide (n = m)) as [<-|Hne].
  - rewrite lookup_alter_eq. destruct (es !! n) as [c|] eqn:Hn; simpl; [|done].
    apply IH. intros x r Hx. apply Hf. simpl. by rewrite Hn.
  - by rewrite lookup_alter_ne.
Qed.

(** A change of the entries of one directory that leaves every entry
    alone or trades what is no directory for what is no directory keeps
    the directories of the whole tree. *)
Lemma is_dir_on_entries D g t es :
  FS.lookup D t = Some (Dir es) →
  (∀ k, g es !! k = es !! k
        ∨ (FS.is_dir (g es !! k) = false ∧ FS.is_dir (es !! k) = false)) →
  ∀ q, FS.is_dir (FS.lookup q (FS.alter_at (FS.on_entries g) D t))
       = FS.is_dir (FS.lookup q t).
Proof.
  intros Hes Hg. apply is_dir_alter_at. intros x r Hx.
  rewrite Hes in Hx. injection Hx as <-. simpl.
  destruct r as [|k r]; [done|]. simpl.
  destruct (Hg k) as [->|[H1 H2]]; [done|].
  by rewrite !is_dir_below.
Qed.






(** A removed entry that was no directory takes no directory away. *)
Lemma is_dir_drop D n t es :
  FS.lookup D t = Some (Dir es) → FS.is_dir (es !! n) = false →
  ∀ q, FS.is_dir (FS.lookup q (FS.drop D n t)) = FS.is_dir (FS.lookup q t).
Proof.
  intros Hes Hn. unfold FS.drop. apply (is_dir_on_entries _ _ _ es); [done|].
  intros k. destruct (decide (n = k)) as [<-|Hne].
  - right. by rewrite lookup_delete_eq.
  - left. by rewrite lookup_delete_ne.
Qed.







End Changes.

(** ** The log file *)

Section LogFile.

Variable shell : string → node → node * string * Z.

Lemma lookup_fd_write l s t d :
  FS.lookup l t = Some (File d) →
  FS.lookup l (fd_write l s t) = Some (File (d +:+ s)).
Proof. intros H. unfold fd_write. by rewrite lookup_alter_at, H. Qed.

(** With an existing log file and a command line shorter than a chunk,
    [run_cmd] leaves the file holding what it held after the command ran,
    then the output of the command, then the command line: the line
    written first reaches the file only when the file is closed. *)
Lemma run_cmd_log_order cmd path w l d0 t out st d1 :
  resolve (w_cwd w) (w_root w) path = Some l →
  FS.lookup l (w_root w) = Some (File d0) →
  (N.of_nat (String.length cmd) < chunk_size)%N →
  shell cmd (w_root w) = (t, out, st) →
  FS.lookup l t = Some (File d1) →
  ∃ w', run_cmd shell cmd (Some path) w = (Returned tt, w')
        ∧ FS.lookup l (w_root w') = Some (File (d1 +:+ out +:+ cmd)).
Proof.
  intros Hl H0 Hlen Hsh H1.
  unfold run_cmd, bind, open_append.
  destruct (Str.endswith_sep path) eqn:Hend.
  { pose proof (resolve_endswith_sep _ _ _ _ Hend Hl) as Hd.
    by rewrite H0 in Hd. }
  apply resolve_Some in Hl. rewrite Hl, H0.
  unfold file_write. simpl. rewrite bool_decide_eq_true_2 by done.
  unfold subprocess_call. rewrite Hsh. simpl.
  eexists. split; [reflexivity|]. simpl.
  erewrite lookup_fd_write by (by apply lookup_fd_write).
  by rewrite append_assoc.
Qed.

End LogFile.

(** C6, on a concrete run.  One call of [run_cmd] with a log file leaves
    the output of the command in front of the command line; a second call
    appends in the same way and truncates nothing.  Over a whole run with
    a log file, the three command lines are in the log in stage order,
    each behind the output of its own command. *)
Theorem log_holds_output_before_command :
  Demo.file_data ["work"; "log.txt"]
    (snd (run_cmd Demo.tools "bbduk.sh in=a" (Some "log.txt")
            (Demo.start Demo.reads)))
  = Some ("bbduk: done." +:+ "bbduk.sh in=a")
  ∧ Demo.file_data ["work"; "log.txt"]
      (snd (run_cmd Demo.tools "tadpole.sh in=a" (Some "log.txt")
              (snd (run_cmd Demo.tools "bbduk.sh in=a" (Some "log.txt")
                      (Demo.start Demo.reads)))))
    = Some ("bbduk: done." +:+ "bbduk.sh in=a"
            +:+ "tadpole: done." +:+ "tadpole.sh in=a")
  ∧ Demo.file_data ["work"; "log.txt"]
      (snd (main Demo.tools Demo.no_magic_dirs
              (Demo.cfg (Some "log.txt") true) (Demo.start Demo.reads)))
    = match stage_commands (Demo.cfg (Some "log.txt") true) with
      | [trim; correct; assemble] =>
          Some ("bbduk: done." +:+ trim
                +:+ "tadpole: done." +:+ correct
                +:+ "unicycler: done." +:+ assemble)
      | _ => None
      end.
Proof. by vm_compute. Qed.

(** ** Making the output directory *)

Section MakeDirs.

Implicit Types (base n m path : string) (names rest : list string)
  (w : world) (D : loc) (es : gmap string node).

Lemma makedirs_fuel_unfold fuel name w :
  makedirs_fuel fuel name w =
    let '(head, tail) := os_path_split name in
    let '(head, tail) :=
      if bool_decide (tail = "") then os_path_split head else (head, tail) in
    if negb (bool_decide (head = "")) && negb (bool_decide (tail = ""))
       && negb (os_path_exists head w)
    then
      match fuel with
      | 0 => os_mkdir name w
      | S fuel' =>
          match makedirs_fuel fuel' head w with
          | (Returned _, w') | (Raised (OSError EEXIST _), w') =>
              if bool_decide (tail = ".") then (Returned tt, w')
              else os_mkdir name w'
          | (o, w') => (o, w')
          end
      end
    else os_mkdir name w.
Proof. by destruct fuel. Qed.

(** *** The length of the name is fuel enough *)

Lemma rsplit_sep_spec p h t : rsplit_sep p = Some (h, t) → p = h +:+ t.
Proof.
  revert h t. induction p as [|c p IH]; intros h t; [done|]. simpl.
  destruct (rsplit_sep p) as [[h' t']|].
  - intros [= <- <-]. rewrite append_cons. f_equal. by apply IH.
  - case_bool_decide; [|done]. intros [= <- <-]. by subst.
Qed.

Lemma rstrip_sep_length h :
  (String.length (rstrip_sep h) ≤ String.length h)%nat.
Proof.
  induction h as [|c h IH]; [done|]. simpl.
  destruct (rstrip_sep h); [case_bool_decide|]; simpl in *; lia.
Qed.

Lemma os_path_split_shorter p h t :
  os_path_split p = (h, t) →
  (String.length h ≤ String.length p)%nat
  ∧ (t ≠ "" → (String.length h < String.length p)%nat).
Proof.
  unfold os_path_split. destruct (rsplit_sep p) as [[h0 t0]|] eqn:Hs.
  - apply rsplit_sep_spec in Hs as ->. intros [= <- <-].
    rewrite length_app. pose proof (rstrip_sep_length h0).
    assert (t0 ≠ "" → (0 < String.length t0)%nat)
      by (destruct t0; simpl; [done|lia]).
    case_bool_decide; split; try lia; intros Ht%H0; lia.
  - intros [= <- <-]. simpl. split; [lia|]. destruct p; simpl; [done|lia].
Qed.

Lemma makedirs_fuel_enough (k k' : nat) name w :
  (String.length name ≤ k)%nat → (String.length name ≤ k')%nat →
  makedirs_fuel k name w = makedirs_fuel k' name w.
Proof.
  revert k' name w. induction k as [|k IH]; intros k' name w Hn Hm;
    rewrite !makedirs_fuel_unfold;
    destruct (os_path_split name) as [h t] eqn:Hs;
    pose proof (os_path_split_shorter _ _ _ Hs) as [Hle Hlt];
    destruct (if bool_decide (t = "") then os_path_split h else (h, t))
      as [h' t'] eqn:Hs';
    assert (t' ≠ "" → (String.length h' < String.length name)%nat) as Hshort
      by (intros Ht'; case_bool_decide as Ht;
          [pose proof (os_path_split_shorter _ _ _ Hs') as [_ Hx];
           specialize (Hx Ht'); lia
          |injection Hs' as <- <-; auto]).
  - destruct (bool_decide (t' = "")) eqn:Et; [by rewrite andb_false_r|].
    apply bool_decide_eq_false in Et. specialize (Hshort Et). lia.
  - destruct (bool_decide (t' = "")) eqn:Et; [by rewrite andb_false_r|].
    apply bool_decide_eq_false in Et. specialize (Hshort Et).
    destruct k' as [|k']; [lia|].
    by rewrite (IH k') by lia.
Qed.

(** *** Paths that lead down from a directory *)

Lemma os_mkdir_plain path w :
  path ≠ "" → Str.endswith_sep path = false →
  os_mkdir path w =
    match namei (w_cwd w) (w_root w) path with
    | inl e => (Raised (OSError e path), w)
    | inr l =>
        match FS.lookup l (w_root w), FS.unsnoc l with
        | None, Some (d, n) =>
            (Returned tt, set_root (FS.put d n (Dir ∅) (w_root w)) w)
        | _, _ => (Raised (OSError EEXIST path), w)
        end
    end.
Proof.
  intros Hp Hend. unfold os_mkdir. rewrite rstrip_sep_id by done.
  by rewrite !bool_decide_eq_false_2.
Qed.

Lemma os_path_join_empty n : Str.contains "/" n = false → os_path_join "" n = n.
Proof. intros H. unfold os_path_join. by rewrite no_sep_startswith. Qed.

Lemma valid_name_nonempty n : valid_name n = true → n ≠ "".
Proof. by intros H ->. Qed.

Lemma descend_snoc base names n :
  descend base (names ++ [n]) = os_path_join (descend base names) n.
Proof. unfold descend. by rewrite foldl_snoc. Qed.

Lemma join_plain out n :
  valid_name n = true →
  os_path_join out n ≠ "" ∧ Str.endswith_sep (os_path_join out n) = false.
Proof.
  intros Hn. pose proof (valid_name_no_sep _ Hn) as Hsep.
  pose proof (valid_name_nonempty _ Hn) as Hne.
  unfold os_path_join. rewrite no_sep_startswith by done.
  destruct (bool_decide (out = "") || Str.endswith_sep out).
  - split; [by intros [? ?]%append_eq_nil|by apply endswith_sep_app_no_sep].
  - split; [by intros [? ?]%append_eq_nil|].
    rewrite <- append_assoc. by apply endswith_sep_app_no_sep.
Qed.

Lemma join_length out n :
  valid_name n = true →
  (String.length out < String.length (os_path_join out n))%nat.
Proof.
  intros Hn. pose proof (valid_name_no_sep _ Hn) as Hsep.
  pose proof (valid_name_nonempty _ Hn) as Hne.
  assert (0 < String.length n)%nat by (destruct n; simpl; [done|lia]).
  unfold os_path_join. rewrite no_sep_startswith by done.
  destruct (bool_decide (out = "") || Str.endswith_sep out);
    rewrite !length_app; lia.
Qed.

Lemma descend_length base names :
  Forall (λ m, valid_name m = true) names →
  (length names ≤ String.length (descend base names))%nat.
Proof.
  induction names as [|n names IH] using rev_ind; [simpl; lia|].
  intros [Hv Hn%Forall_inv]%Forall_app.
  rewrite descend_snoc, List.length_app. simpl.
  pose proof (join_length (descend base names) n Hn). specialize (IH Hv). lia.
Qed.

Lemma descend_plain base names :
  names ≠ [] → Forall (λ m, valid_name m = true) names →
  descend base names ≠ ""
  ∧ Str.endswith_sep (descend base names) = false.
Proof.
  destruct names as [|n names _] using rev_ind; [done|].
  intros _ [_ Hn%Forall_inv]%Forall_app.
  rewrite descend_snoc. by apply join_plain.
Qed.

Lemma os_path_split_plain out n :
  out ≠ "" → Str.endswith_sep out = false → Str.contains "/" n = false →
  os_path_split (os_path_join out n) = (out, n).
Proof.
  intros Hout Hend Hn.
  destruct (os_path_split_join out Hout) as (dirname & _ & _ & _ & Hid & Hsplit).
  by rewrite Hsplit, (Hid Hend).
Qed.

Lemma resolve_first base n w D :
  base_directory base w = Some D →
  FS.is_dir (FS.lookup D (w_root w)) = true → valid_name n = true →
  resolve (w_cwd w) (w_root w) (os_path_join base n) = Some (D ++ [n]).
Proof.
  unfold base_directory. intros HD Hdir Hn.
  pose proof (valid_name_no_sep _ Hn) as Hsep.
  case_bool_decide as Hb; [|by apply resolve_join].
  subst base. injection HD as <-. rewrite os_path_join_empty by done.
  apply resolve_Some. unfold namei.
  rewrite bool_decide_eq_false_2 by by apply valid_name_nonempty.
  rewrite no_sep_startswith, walk_no_sep by done.
  by rewrite append_nil_l, step_component_dir, next_location_valid.
Qed.


Lemma stat_join_None out n w :
  out ≠ "" → Str.contains "/" n = false →
  FS.is_dir (stat out w) = false → stat (os_path_join out n) w = None.
Proof.
  intros Hout Hn Hd. unfold stat in *.
  rewrite resolve_join_None; [done..|].
  by destruct (resolve (w_cwd w) (w_root w) out).
Qed.

(** Below a first name that is no directory there is nothing. *)
Lemma stat_descend base n rest w D es :
  base_directory base w = Some D →
  FS.lookup D (w_root w) = Some (Dir es) →
  FS.is_dir (es !! n) = false →
  Forall (λ m, valid_name m = true) (n :: rest) →
  stat (descend base (n :: rest)) w = if rest is [] then es !! n else None.
Proof.
  intros HD Hes Hn. induction rest as [|m rest IH] using rev_ind; intros Hvalid.
  - apply Forall_inv in Hvalid. unfold stat, descend. simpl.
    rewrite (resolve_first _ _ _ D) by (try done; by rewrite Hes). simpl.
    by apply lookup_entry.
  - rewrite app_comm_cons in Hvalid.
    apply Forall_app in Hvalid as [Hvalid Hm%Forall_inv].
    rewrite app_comm_cons, descend_snoc.
    destruct (descend_plain base (n :: rest)) as [Hne Hend]; [done..|].
    rewrite stat_join_None; [by destruct rest|done|by apply valid_name_no_sep|].
    rewrite (IH Hvalid). by destruct rest.
Qed.

(** For a name right below an existing directory nothing is made on the
    way. *)
Lemma makedirs_first base n w D es fuel :
  base_directory base w = Some D →
  FS.lookup D (w_root w) = Some (Dir es) → valid_name n = true →
  makedirs_fuel fuel (os_path_join base n) w = os_mkdir (os_path_join base n) w.
Proof.
  intros HD Hes Hn. pose proof (valid_name_no_sep _ Hn) as Hsep.
  pose proof (valid_name_nonempty _ Hn) as Hne.
  rewrite makedirs_fuel_unfold. unfold base_directory in HD.
  case_bool_decide as Hb.
  - subst base. rewrite os_path_join_empty, os_path_split_name by done.
    by rewrite (bool_decide_eq_false_2 (n = "")).
  - destruct (os_path_split_join base Hb) as (dirname & Hd & Hres & _ & _ & Hsplit).
    rewrite Hsplit by done. rewrite (bool_decide_eq_false_2 (n = "")) by done.
    assert (os_path_exists dirname w = true) as ->.
    { unfold os_path_exists, stat.
      rewrite (same_directory _ _ _ _ D (Hres _ _) HD) by by rewrite Hes.
      simpl. rewrite Hes. by apply bool_decide_eq_true_2. }
    by rewrite andb_false_r.
Qed.

Lemma makedirs_recursion out n w fuel :
  out ≠ "" → Str.endswith_sep out = false → valid_name n = true →
  makedirs_fuel (S fuel) (os_path_join out n) w =
    if os_path_exists out w then os_mkdir (os_path_join out n) w
    else
      match makedirs_fuel fuel out w with
      | (Returned _, w') | (Raised (OSError EEXIST _), w') =>
          os_mkdir (os_path_join out n) w'
      | (o, w') => (o, w')
      end.
Proof.
  intros Hout Hend Hn. pose proof (valid_name_no_sep _ Hn) as Hsep.
  rewrite makedirs_fuel_unfold, os_path_split_plain by done.
  pose proof (valid_name_nonempty _ Hn).
  assert (n ≠ ".") by (by intros ->).
  cbv beta iota. case_bool_decide; [done|]. cbv beta iota.
  repeat case_bool_decide; try done. simpl.
  by destruct (os_path_exists out w).
Qed.


(** The first name is a regular file: nothing is made. *)
Lemma makedirs_fuel_file base n rest w D es d :
  base_directory base w = Some D →
  FS.lookup D (w_root w) = Some (Dir es) → es !! n = Some (File d) →
  Forall (λ m, valid_name m = true) (n :: rest) →
  ∀ fuel, (length rest ≤ fuel)%nat →
    makedirs_fuel fuel (descend base (n :: rest)) w
    = (Raised (OSError (if rest is [] then EEXIST else ENOTDIR)
                 (descend base (n :: take 1 rest))), w).
Proof.
  intros HD Hes Hn. induction rest as [|m rest IH] using rev_ind;
    intros Hvalid fuel Hfuel.
  - apply Forall_inv in Hvalid. unfold descend. simpl.
    rewrite (makedirs_first _ _ _ D es) by done.
    destruct (join_plain base n Hvalid) as [Hne Hend].
    rewrite os_mkdir_plain by done.
    pose proof (resolve_first base n w D HD) as Hr.
    rewrite Hes in Hr. apply resolve_Some in Hr; [|done..]. rewrite Hr.
    by rewrite (lookup_entry _ _ _ es), Hn.
  - rewrite app_comm_cons in Hvalid.
    apply Forall_app in Hvalid as [Hvalid Hm%Forall_inv].
    rewrite List.length_app in Hfuel. simpl in Hfuel.
    destruct fuel as [|fuel]; [lia|].
    rewrite app_comm_cons, descend_snoc.
    destruct (descend_plain base (n :: rest)) as [Hne Hend]; [done..|].
    rewrite makedirs_recursion by done.
    pose proof (stat_descend base n rest w D es HD Hes) as Hstat.
    rewrite Hn in Hstat. specialize (Hstat eq_refl Hvalid).
    destruct (join_plain (descend base (n :: rest)) m Hm) as [Hne' Hend'].
    unfold os_path_exists. rewrite Hstat.
    destruct rest as [|k rest].
    + rewrite bool_decide_eq_true_2 by by eexists.
      rewrite os_mkdir_plain by done.
      rewrite namei_join by (try done; by apply valid_name_no_sep).
      apply Forall_inv in Hvalid.
      pose proof (resolve_first base n w D HD) as Hr.
      rewrite Hes in Hr. apply resolve_Some in Hr; [|done..].
      unfold descend in *. simpl in *. rewrite Hr. simpl.
      by rewrite (lookup_entry _ _ _ es), Hn.
    + rewrite bool_decide_eq_false_2 by by intros [? ?].
      rewrite IH by (try done; simpl in *; lia). done.
Qed.


Lemma ensure_output_dir_absent path w :
  os_path_isdir path w = false → ensure_output_dir path w = os_makedirs path w.
Proof.
  intros H. unfold ensure_output_dir, bind, get_world. by rewrite H.
Qed.





Lemma os_makedirs_file base n rest w D es d :
  base_directory base w = Some D →
  FS.lookup D (w_root w) = Some (Dir es) → es !! n = Some (File d) →
  Forall (λ m, valid_name m = true) (n :: rest) →
  os_makedirs (descend base (n :: rest)) w
  = (Raised (OSError (if rest is [] then EEXIST else ENOTDIR)
               (descend base (n :: take 1 rest))), w).
Proof.
  intros HD Hes Hn Hvalid. unfold os_makedirs.
  apply (makedirs_fuel_file _ _ _ _ D es d); [done..|].
  pose proof (descend_length base (n :: rest) Hvalid). simpl in *. lia.
Qed.

Lemma os_path_isdir_descend base n rest w D es :
  base_directory base w = Some D →
  FS.lookup D (w_root w) = Some (Dir es) → FS.is_dir (es !! n) = false →
  Forall (λ m, valid_name m = true) (n :: rest) →
  os_path_isdir (descend base (n :: rest)) w = false.
Proof.
  intros HD Hes Hn Hvalid. unfold os_path_isdir.
  rewrite (stat_descend _ _ _ _ D es) by done. by destruct rest.
Qed.

End MakeDirs.







(** ** Finalize *)

Section Finalize.

Variable shell : string → node → node * string * Z.
Variable glob_magic_dirs : string → world → list string.


(** A regular file named [assembly.fasta] in the output directory is
    renamed to the final name, in place, when the final name is not the
    name of a directory: the entries of the output directory lose the
    first name and bind the second to the file; nothing else changes. *)
Lemma finalize_moves_file c w D es d :
  resolve (w_cwd w) (w_root w) (output_dir c) = Some D →
  Str.contains "/" (assembly_name c) = false →
  FS.lookup D (w_root w) = Some (Dir es) →
  es !! "assembly.fasta" = Some (File d) →
  FS.is_dir (es !! (assembly_name c +:+ ".fasta")) = false →
  finalize c w =
    (Returned tt,
     set_root
       (FS.alter_at
          (FS.on_entries (λ es, <[assembly_name c +:+ ".fasta" := File d]>
                                  (delete "assembly.fasta" es)))
          D (w_root w)) w).
Proof.
  intros HD Hname Hes Hsrc Hdst.
  pose proof (valid_name_fasta _ Hname) as Hvalid.
  assert (FS.is_dir (FS.lookup D (w_root w)) = true) as HDdir by by rewrite Hes.
  pose proof (resolve_join _ _ _ _ _ HD HDdir Hvalid) as Hd.
  pose proof (resolve_join _ _ _ "assembly.fasta" _ HD HDdir eq_refl) as Hs.
  unfold finalize, shutil_move.
  assert (os_path_isdir (os_path_join (output_dir c) (assembly_name c +:+ ".fasta")) w
          = false) as ->.
  { unfold os_path_isdir, stat. rewrite Hd. simpl.
    by rewrite (lookup_entry _ _ _ es). }
  apply resolve_Some in Hd, Hs. simpl. rewrite Hs, Hd.
  rewrite (lookup_entry _ _ _ es), Hsrc by done.
  unfold os_rename. rewrite (lookup_entry _ _ _ es), Hsrc by done.
  case_bool_decide as Heq.
  - apply (inj (λ l, D ++ l)) in Heq. injection Heq as Heq.
    do 2 f_equal. symmetry. eapply alter_at_id; [done|]. simpl. f_equal.
    rewrite <- Heq, insert_delete_eq. by apply insert_id.
  - rewrite !unsnoc_snoc, Hes. simpl.
    rewrite is_prefix_snoc_ne by congruence.
    rewrite (lookup_entry _ _ _ es) by done.
    rewrite put_drop.
    destruct (es !! (assembly_name c +:+ ".fasta")) as [[?|?]|]; done.
Qed.

(** [main] is the run through the assemble stage, followed by the
    finalize step, the cleanup and the closing message. *)
Lemma main_split c w :
  main shell glob_magic_dirs c w =
    match through_assemble shell c w with
    | (Returned _, w1) =>
        (finalize c ;; clean_or_keep glob_magic_dirs c ;; report_done c) w1
    | (SysExit s, w1) => (SysExit s, w1)
    | (Raised e, w1) => (Raised e, w1)
    end.
Proof.
  unfold main, through_assemble, bind.
  destruct (validate c w) as [[[]|s|e] w0]; try done;
    destruct (ensure_output_dir (output_dir c) w0) as [[[]|s'|e'] w0']; try done;
    by destruct (run_stages shell c w0') as [[[]|s''|e''] w0''].
Qed.

Lemma main_after_assemble c w w1 :
  through_assemble shell c w = (Returned tt, w1) →
  main shell glob_magic_dirs c w =
    (finalize c ;; clean_or_keep glob_magic_dirs c ;; report_done c) w1.
Proof. intros H. by rewrite main_split, H. Qed.

End Finalize.




(** ** [glob] in the output directory *)

Section Glob.

Variable glob_magic_dirs : string → world → list string.

Lemma has_magic_app s1 s2 : has_magic (s1 +:+ s2) = has_magic s1 || has_magic s2.
Proof.
  unfold has_magic. rewrite !contains_app.
  destruct (Str.contains "*" s1), (Str.contains "?" s1), (Str.contains "[" s1),
    (Str.contains "*" s2), (Str.contains "?" s2); done.
Qed.

Lemma has_magic_join out b : has_magic b = true → has_magic (os_path_join out b) = true.
Proof.
  intros Hb. unfold os_path_join.
  repeat case_match; rewrite ?has_magic_app, ?Hb, ?orb_true_r; done.
Qed.

Lemma listdir_entries D t es :
  FS.lookup D t = Some (Dir es) →
  listdir D t = filter (λ n, valid_name n = true) (map_to_list es).*1.
Proof. intros H. unfold listdir. by rewrite H. Qed.

(** In an output directory whose path has no wildcard, a pattern for
    entry names finds the entries that match, each joined to one and the
    same name of the directory. *)
Lemma glob_glob_entries out w D es :
  resolve (w_cwd w) (w_root w) out = Some D →
  FS.lookup D (w_root w) = Some (Dir es) →
  has_magic out = false →
  ∃ dirname,
    dirname ≠ ""
    ∧ resolve (w_cwd w) (w_root w) dirname = Some D
    ∧ ∀ pat e,
        Str.contains "/" pat = false →
        has_magic pat = true →
        glob_glob glob_magic_dirs (os_path_join out pat) (emit e w) =
          (Returned (map (os_path_join dirname) (matching_names pat es)),
           emit e w).
Proof.
  intros HD Hes Hmagic.
  pose proof (resolve_Some_nonempty _ _ _ _ HD) as Hout.
  destruct (os_path_split_join out Hout)
    as (dirname & Hne & Hres & Hm & _ & Hsplit).
  assert (resolve (w_cwd w) (w_root w) dirname = Some D) as Hdir
    by (apply (same_directory _ _ _ out); [done..|by rewrite Hes]).
  exists dirname. split; [done|]. split; [done|].
  intros pat e Hsep Hpat.
  unfold glob_glob. rewrite Hsplit, has_magic_join by done. simpl.
  rewrite bool_decide_eq_false_2 by done.
  rewrite (Hm Hmagic), andb_false_r, Hpat. simpl. rewrite app_nil_r.
  do 3 f_equal. unfold glob1, matching_names.
  rewrite bool_decide_eq_false_2 by done. simpl.
  rewrite Hdir. by rewrite (listdir_entries _ _ es).
Qed.

End Glob.

(** ** The removal loop *)

Section RemovalLoop.

Implicit Types (D : loc) (es : gmap string node) (L : list string).

Lemma lookup_delete_all L es k :
  delete_all L es !! k = if decide (k ∈ L) then None else es !! k.
Proof.
  unfold delete_all. revert es. induction L as [|n L IH]; intros es.
  { case_decide as H; [by apply elem_of_nil in H|done]. }
  cbn [foldl]. rewrite IH.
  destruct (decide (k ∈ n :: L)) as [Hin|Hnin], (decide (k ∈ L)) as [HL|HnL];
    try done.
  - apply elem_of_cons in Hin as [->|?]; [apply lookup_delete_eq|done].
  - exfalso. apply Hnin. by right.
  - apply lookup_delete_ne. intros ->. apply Hnin. by left.
Qed.

Lemma os_remove_entry dirname n w D es :
  valid_name n = true →
  resolve (w_cwd w) (w_root w) dirname = Some D →
  FS.lookup D (w_root w) = Some (Dir es) →
  os_remove (os_path_join dirname n) w =
    match es !! n with
    | Some (File _) => (Returned tt, set_root (FS.drop D n (w_root w)) w)
    | Some (Dir _) => (Raised (OSError EISDIR (os_path_join dirname n)), w)
    | None => (Raised (OSError ENOENT (os_path_join dirname n)), w)
    end.
Proof.
  intros Hn HD Hes. unfold os_remove.
  assert (namei (w_cwd w) (w_root w) (os_path_join dirname n) = inr (D ++ [n]))
    as -> by (apply resolve_Some, resolve_join; [done|by rewrite Hes|done]).
  rewrite (lookup_entry _ _ _ es), unsnoc_snoc by done.
  by destruct (es !! n) as [[?|?]|].
Qed.

(** Removing a regular file leaves every path where it led. *)
Lemma resolve_drop_file path w D es n l :
  FS.lookup D (w_root w) = Some (Dir es) → FS.is_dir (es !! n) = false →
  resolve (w_cwd w) (w_root w) path = Some l →
  resolve (w_cwd w) (FS.drop D n (w_root w)) path = Some l.
Proof.
  intros Hes Hn <-. apply resolve_ext. by apply (is_dir_drop _ _ _ es).
Qed.

Lemma lookup_drop D n t es :
  FS.lookup D t = Some (Dir es) →
  FS.lookup D (FS.drop D n t) = Some (Dir (delete n es)).
Proof. intros H. unfold FS.drop. by rewrite lookup_alter_at, H. Qed.

(** When every name in the list is a regular file of the directory, the
    loop removes them all and touches nothing else. *)
Lemma remove_loop_files dirname D L :
  Forall (λ n, valid_name n = true) L → NoDup L →
  ∀ w es,
    resolve (w_cwd w) (w_root w) dirname = Some D →
    FS.lookup D (w_root w) = Some (Dir es) →
    Forall (λ n, FS.is_file (es !! n) = true) L →
    for_each (map (os_path_join dirname) L) os_remove w =
      (Returned tt,
       set_root (FS.alter_at (FS.on_entries (delete_all L)) D (w_root w)) w).
Proof.
  intros Hvalid Hnd. induction L as [|n L IH]; intros w es HD Hes Hfiles.
  { simpl. unfold ret. f_equal. destruct w as [cwd t con inv]. unfold set_root.
    simpl. f_equal. symmetry. eapply alter_at_id; [exact Hes|done]. }
  apply Forall_cons in Hvalid as [Hn Hvalid].
  apply NoDup_cons in Hnd as [HnL Hnd].
  apply Forall_cons in Hfiles as [Hfile Hfiles].
  simpl. unfold bind.
  rewrite (os_remove_entry dirname n w D es) by done.
  destruct (es !! n) as [[d|?]|] eqn:Hlook; try done.
  rewrite (IH Hvalid Hnd _ (delete n es)); simpl; try done.
  - unfold set_root. simpl. do 2 f_equal. unfold FS.drop.
    rewrite alter_at_compose. apply alter_at_ext. intros [?|?]; done.
  - apply (resolve_drop_file _ _ _ es); [done| |done]. by rewrite Hlook.
  - by apply lookup_drop.
  - apply Forall_forall. intros m Hm. rewrite Forall_forall in Hfiles.
    rewrite lookup_delete_ne; [by apply Hfiles|]. by intros ->.
Qed.

(** When every name is an entry of the directory and one of them is a
    directory, the loop raises on the way. *)
Lemma remove_loop_dir dirname D L :
  Forall (λ n, valid_name n = true) L → NoDup L →
  ∀ w es,
    resolve (w_cwd w) (w_root w) dirname = Some D →
    FS.lookup D (w_root w) = Some (Dir es) →
    Forall (λ n, is_Some (es !! n)) L →
    Exists (λ n, FS.is_dir (es !! n) = true) L →
    ∃ p w', for_each (map (os_path_join dirname) L) os_remove w =
              (Raised (OSError EISDIR p), w').
Proof.
  intros Hvalid Hnd. induction L as [|n L IH]; intros w es HD Hes Hin Hex.
  { by apply Exists_nil in Hex. }
  apply Forall_cons in Hvalid as [Hn Hvalid].
  apply NoDup_cons in Hnd as [HnL Hnd].
  apply Forall_cons in Hin as [[x Hx] Hin].
  simpl. unfold bind.
  rewrite (os_remove_entry dirname n w D es), Hx by done.
  destruct x as [d|es']; [|by eauto].
  apply Exists_cons in Hex as [Hex|Hex]; [by rewrite Hx in Hex|].
  apply (IH Hvalid Hnd _ (delete n es)); simpl; try done.
  - apply (resolve_drop_file _ _ _ es); [done| |done]. by rewrite Hx.
  - by apply lookup_drop.
  - apply Forall_forall. intros m Hm. rewrite Forall_forall in Hin.
    rewrite lookup_delete_ne; [by apply Hin|]. by intros ->.
  - apply Exists_exists in Hex as (m & Hm & Hd).
    apply Exists_exists. exists m. split; [done|].
    rewrite lookup_delete_ne; [done|]. by intros ->.
Qed.

End RemovalLoop.

(** ** The two patterns *)

Section Patterns.

Implicit Types (s n lit suf : string).

(** A pattern without wildcards matches itself only. *)
Lemma match_pattern_literal lit s :
  Str.contains "*" lit = false → Str.contains "?" lit = false →
  match_pattern lit s = bool_decide (s = lit).
Proof.
  revert s. induction lit as [|p lit IH]; intros s; [done|]. simpl.
  intros [Hp1 Hl1]%orb_false_elim [Hp2 Hl2]%orb_false_elim.
  apply bool_decide_eq_false in Hp1, Hp2.
  rewrite !bool_decide_eq_false_2 by done.
  destruct s as [|c s].
  - by rewrite bool_decide_eq_false_2.
  - rewrite IH by done. rewrite <- bool_decide_and.
    apply bool_decide_ext. split; [by intros [-> ->]|by intros [= -> ->]].
Qed.

(** A star followed by literal text matches what ends with the text. *)
Lemma fnmatch_star lit n :
  Str.contains "*" lit = false → Str.contains "?" lit = false →
  fnmatch n (String "*" lit) = Str.endswith n lit.
Proof.
  intros H1 H2. unfold fnmatch. simpl.
  induction n as [|c n IH]; simpl.
  - by rewrite match_pattern_literal, orb_false_r.
  - by rewrite match_pattern_literal, IH.
Qed.

Lemma fnmatch_gfa n : fnmatch n "*.gfa" = Str.endswith n ".gfa".
Proof. by apply fnmatch_star. Qed.

Lemma fnmatch_fastq_gz n : fnmatch n "*.fastq.gz" = Str.endswith n ".fastq.gz".
Proof. by apply fnmatch_star. Qed.

Lemma endswith_app s suf : Str.endswith (s +:+ suf) suf = true.
Proof.
  induction s as [|c s IH].
  - rewrite append_nil_l. destruct suf; simpl; [done|].
    by rewrite bool_decide_eq_true_2.
  - rewrite append_cons. simpl. by rewrite IH, orb_true_r.
Qed.

Lemma endswith_split s suf :
  Str.endswith s suf = true → ∃ p, s = p +:+ suf.
Proof.
  induction s as [|c s IH]; simpl.
  - rewrite orb_false_r. intros <-%bool_decide_eq_true. by exists "".
  - intros [<-%bool_decide_eq_true|H]%orb_prop; [by exists ""|].
    destruct (IH H) as [p ->]. by exists (String c p).
Qed.

(** In front of a tail at least as long as the suffix, nothing matters. *)
Lemma endswith_app_long s (t : string) suf :
  (String.length suf ≤ String.length t)%nat →
  Str.endswith (s +:+ t) suf = Str.endswith t suf.
Proof.
  intros Hlen. induction s as [|c s IH]; [done|].
  rewrite append_cons. simpl. rewrite IH.
  rewrite bool_decide_eq_false_2; [done|].
  intros Heq. apply (f_equal String.length) in Heq. simpl in Heq.
  rewrite length_app in Heq. lia.
Qed.

Lemma patterns_exclusive n :
  fnmatch n "*.gfa" = true → fnmatch n "*.fastq.gz" = true → False.
Proof.
  rewrite fnmatch_gfa, fnmatch_fastq_gz.
  intros Hg [p ->]%endswith_split.
  rewrite endswith_app_long in Hg by (simpl; lia). done.
Qed.

Lemma final_name_not_doomed name : doomed (name +:+ ".fasta") = false.
Proof.
  unfold doomed. rewrite fnmatch_gfa, fnmatch_fastq_gz.
  rewrite endswith_app_long by (simpl; lia).
  destruct (Str.endswith (name +:+ ".fasta") ".fastq.gz") eqn:Hz.
  - apply endswith_split in Hz as [p Hp].
    pose proof (endswith_app name ".fasta") as He.
    rewrite Hp, endswith_app_long in He by (simpl; lia). done.
  - simpl. by rewrite andb_false_r.
Qed.

Lemma final_name_not_pilon name : name +:+ ".fasta" ≠ "pilon_polish".
Proof.
  intros Heq. pose proof (endswith_app name ".fasta") as He.
  by rewrite Heq in He.
Qed.

End Patterns.

(** ** The files to remove *)

Section FilesToRemove.

Implicit Types (es : gmap string node) (n pat : string).

Lemma elem_of_matching_names pat es n :
  ishidden pat = false →
  n ∈ matching_names pat es ↔
    fnmatch n pat = true ∧ ishidden n = false ∧ valid_name n = true
    ∧ is_Some (es !! n).
Proof.
  intros Hpat. unfold matching_names. rewrite Hpat. simpl.
  rewrite !list_elem_of_filter, list_elem_of_fmap, negb_true_iff.
  split.
  - intros (Hm & Hh & Hv & [k x] & -> & Hin).
    apply elem_of_map_to_list in Hin. simpl in *. by eauto.
  - intros (Hm & Hh & Hv & x & Hx).
    repeat split; try done. exists (n, x). split; [done|].
    by apply elem_of_map_to_list.
Qed.

Lemma matching_names_NoDup pat es : NoDup (matching_names pat es).
Proof.
  unfold matching_names. do 3 apply NoDup_filter.
  apply NoDup_fst_map_to_list.
Qed.

Lemma elem_of_files_to_remove es n :
  n ∈ matching_names "*.gfa" es ++ matching_names "*.fastq.gz" es ↔
    doomed n = true ∧ is_Some (es !! n).
Proof.
  rewrite elem_of_app, !elem_of_matching_names by done.
  unfold doomed. rewrite !andb_true_iff, orb_true_iff, negb_true_iff.
  tauto.
Qed.

Lemma files_to_remove_NoDup es :
  NoDup (matching_names "*.gfa" es ++ matching_names "*.fastq.gz" es).
Proof.
  apply NoDup_app. split; [apply matching_names_NoDup|].
  split; [|apply matching_names_NoDup].
  intros n [Hg _]%elem_of_matching_names [Hz _]%elem_of_matching_names; try done.
  by eapply patterns_exclusive.
Qed.

Lemma files_to_remove_valid es :
  Forall (λ n, valid_name n = true)
    (matching_names "*.gfa" es ++ matching_names "*.fastq.gz" es).
Proof.
  apply Forall_forall. intros n [Hd _]%elem_of_files_to_remove.
  unfold doomed in Hd. by apply andb_prop in Hd as [[Hv _]%andb_prop _].
Qed.

Lemma files_to_remove_present es :
  Forall (λ n, is_Some (es !! n))
    (matching_names "*.gfa" es ++ matching_names "*.fastq.gz" es).
Proof.
  apply Forall_forall. by intros n [_ Hs]%elem_of_files_to_remove.
Qed.

(** Removing the files to remove leaves the entries that no pattern
    picks. *)
Lemma delete_all_files_to_remove es :
  delete_all (matching_names "*.gfa" es ++ matching_names "*.fastq.gz" es) es
  = swept es.
Proof.
  apply map_eq. intros k. rewrite lookup_delete_all. unfold swept.
  destruct (es !! k) as [x|] eqn:Hk.
  - destruct (doomed k) eqn:Hd.
    + rewrite decide_True by (apply elem_of_files_to_remove; eauto).
      symmetry. apply map_lookup_filter_None. right. intros y _. simpl. congruence.
    + rewrite decide_False
        by (intros [? _]%elem_of_files_to_remove; congruence).
      symmetry. by apply map_lookup_filter_Some.
  - case_decide; symmetry; apply map_lookup_filter_None; by left.
Qed.

Lemma lookup_swept es k :
  swept es !! k = if doomed k then None else es !! k.
Proof.
  unfold swept. destruct (es !! k) as [x|] eqn:Hk, (doomed k) eqn:Hd.
  - apply map_lookup_filter_None. right. intros y _. simpl. congruence.
  - by apply map_lookup_filter_Some.
  - apply map_lookup_filter_None. by left.
  - apply map_lookup_filter_None. by left.
Qed.

Lemma lookup_cleaned es k :
  cleaned es !! k =
    if doomed k || bool_decide (k = "pilon_polish") then None else es !! k.
Proof.
  unfold cleaned. case_bool_decide as Hk.
  - subst k. rewrite orb_true_r. apply lookup_delete_eq.
  - rewrite lookup_delete_ne by done. rewrite orb_false_r. apply lookup_swept.
Qed.

End FilesToRemove.

(** ** The cleanup *)

Section Cleanup.

Variable glob_magic_dirs : string → world → list string.

Implicit Types (D : loc) (es : gmap string node) (c : config) (w : world).

Lemma shutil_rmtree_entry out n w D es :
  valid_name n = true →
  resolve (w_cwd w) (w_root w) out = Some D →
  FS.lookup D (w_root w) = Some (Dir es) →
  shutil_rmtree (os_path_join out n) w =
    match es !! n with
    | Some (Dir _) => (Returned tt, set_root (FS.drop D n (w_root w)) w)
    | Some (File _) => (Raised (OSError ENOTDIR (os_path_join out n)), w)
    | None => (Raised (OSError ENOENT (os_path_join out n)), w)
    end.
Proof.
  intros Hn HD Hes. unfold shutil_rmtree.
  assert (namei (w_cwd w) (w_root w) (os_path_join out n) = inr (D ++ [n]))
    as -> by (apply resolve_Some, resolve_join; [done|by rewrite Hes|done]).
  rewrite (lookup_entry _ _ _ es), unsnoc_snoc by done.
  by destruct (es !! n) as [[?|?]|].
Qed.

(** The state in which the recursive delete starts, when no pattern
    picks a directory: the picked entries are gone, everything else is as
    it was. *)
(** The sweep leaves every path where it led, when no pattern picks a
    directory. *)
Lemma resolve_swept path cwd t D es :
  FS.lookup D t = Some (Dir es) →
  (∀ n, doomed n = true → FS.is_dir (es !! n) = false) →
  resolve cwd (FS.alter_at (FS.on_entries swept) D t) path = resolve cwd t path.
Proof.
  intros Hes Hfiles. apply resolve_ext.
  apply (is_dir_on_entries _ _ _ es); [done|]. intros k.
  rewrite lookup_swept. destruct (doomed k) eqn:Hk; [right|by left].
  split; [done|by apply Hfiles].
Qed.

Lemma sweep_then_rmtree c w D es :
  keep_files c = false →
  resolve (w_cwd w) (w_root w) (output_dir c) = Some D →
  has_magic (output_dir c) = false →
  FS.lookup D (w_root w) = Some (Dir es) →
  (∀ n, doomed n = true → FS.is_dir (es !! n) = false) →
  clean_or_keep glob_magic_dirs c w =
    shutil_rmtree (os_path_join (output_dir c) "pilon_polish")
      (set_root (FS.alter_at (FS.on_entries swept) D (w_root w))
         (emit (Logged INFO "Cleaning up Unicycler output files...") w)).
Proof.
  intros Hkeep HD Hmagic Hes Hfiles.
  destruct (glob_glob_entries glob_magic_dirs _ _ _ es HD Hes Hmagic)
    as (dirname & Hne & Hres & Hglob).
  unfold clean_or_keep. rewrite Hkeep. simpl.
  unfold bind at 1. unfold logging_info, modify.
  unfold bind at 1. rewrite Hglob by done.
  unfold bind at 1. rewrite Hglob by done.
  unfold bind at 1. rewrite <- map_app.
  rewrite (remove_loop_files dirname D _ (files_to_remove_valid es)
             (files_to_remove_NoDup es) _ es); try done.
  - simpl. do 2 f_equal. eapply alter_at_ext_lookup; [done|]. simpl.
    by rewrite delete_all_files_to_remove.
  - apply Forall_forall. intros n [Hd [x Hx]]%elem_of_files_to_remove.
    specialize (Hfiles n Hd). rewrite Hx in *. by destruct x.
Qed.

(** The loop raises when a pattern picks a directory. *)
Lemma sweep_hits_directory c w D es n :
  keep_files c = false →
  resolve (w_cwd w) (w_root w) (output_dir c) = Some D →
  has_magic (output_dir c) = false →
  FS.lookup D (w_root w) = Some (Dir es) →
  doomed n = true → FS.is_dir (es !! n) = true →
  ∃ p w', clean_or_keep glob_magic_dirs c w = (Raised (OSError EISDIR p), w').
Proof.
  intros Hkeep HD Hmagic Hes Hd Hdir.
  destruct (glob_glob_entries glob_magic_dirs _ _ _ es HD Hes Hmagic)
    as (dirname & Hne & Hres & Hglob).
  unfold clean_or_keep. rewrite Hkeep. simpl.
  unfold bind at 1. unfold logging_info, modify.
  unfold bind at 1. rewrite Hglob by done.
  unfold bind at 1. rewrite Hglob by done.
  unfold bind at 1. rewrite <- map_app.
  destruct (remove_loop_dir dirname D _ (files_to_remove_valid es)
              (files_to_remove_NoDup es)
              (emit (Logged INFO "Cleaning up Unicycler output files...") w) es)
    as (p & w' & ->); try done; [apply files_to_remove_present| |by eauto].
  apply Exists_exists. exists n. split; [|done].
  apply elem_of_files_to_remove. split; [done|].
  by destruct (es !! n).
Qed.

End Cleanup.

(** C10, amended.  With the keep-files flag off, in an output directory
    whose path has no wildcard and in which no pattern picks a
    directory, the cleanup removes every regular file whose name [*.gfa]
    or [*.fastq.gz] picks.  The entries are those the directory has when
    the cleanup starts, whoever put them there: nothing in the statement
    depends on where an entry came from.  Entries that no pattern picks,
    other than the polishing directory, are as they were. *)
Theorem cleanup_deletes_every_match glob_magic_dirs (c : config) (w : world)
    (D : loc) (es : gmap string node) (n d : string) :
  keep_files c = false →
  resolve (w_cwd w) (w_root w) (output_dir c) = Some D →
  has_magic (output_dir c) = false →
  FS.lookup D (w_root w) = Some (Dir es) →
  (∀ m, doomed m = true → FS.is_dir (es !! m) = false) →
  es !! n = Some (File d) →
  doomed n = true →
  ∃ o w',
    clean_or_keep glob_magic_dirs c w = (o, w')
    ∧ FS.lookup (D ++ [n]) (w_root w') = None
    ∧ (∀ k, doomed k = false → k ≠ "pilon_polish" →
            FS.lookup (D ++ [k]) (w_root w') = es !! k).
Proof.
  intros Hkeep HD Hmagic Hes Hfiles Hn Hd.
  rewrite (sweep_then_rmtree _ c w D es) by done.
  set (w1 := set_root _ _).
  assert (FS.lookup D (w_root w1) = Some (Dir (swept es))) as Hes1
    by by apply lookup_on_entries.
  assert (resolve (w_cwd w1) (w_root w1) (output_dir c) = Some D) as HD1
    by (unfold w1; simpl; by rewrite (resolve_swept _ _ _ _ es)).
  rewrite (shutil_rmtree_entry _ _ w1 D (swept es)) by done.
  assert (∀ t, FS.lookup D t = Some (Dir (swept es)) ∨
               FS.lookup D t = Some (Dir (cleaned es)) →
               FS.lookup (D ++ [n]) t = None
               ∧ ∀ k, doomed k = false → k ≠ "pilon_polish" →
                      FS.lookup (D ++ [k]) t = es !! k) as Hboth.
  { intros t [Ht|Ht]; rewrite (lookup_entry _ _ _ _ Ht).
    - rewrite lookup_swept, Hd. split; [done|]. intros k Hk _.
      by rewrite (lookup_entry _ _ _ _ Ht), lookup_swept, Hk.
    - rewrite lookup_cleaned, Hd. split; [done|]. intros k Hk Hpp.
      rewrite (lookup_entry _ _ _ _ Ht), lookup_cleaned, Hk.
      by rewrite bool_decide_eq_false_2. }
  destruct (swept es !! "pilon_polish") as [[?|?]|];
    eexists _, _; (split; [reflexivity|]); apply Hboth; eauto.
  right. simpl. by apply lookup_drop.
Qed.

(** The condition on directories can be checked entry by entry. *)
Lemma no_doomed_directory_by_entries (es : gmap string node) :
  map_Forall (λ k x, doomed k = true → FS.is_dir (Some x) = false) es →
  ∀ m, doomed m = true → FS.is_dir (es !! m) = false.
Proof.
  intros Hall m Hm. destruct (es !! m) as [x|] eqn:Hx; [|done].
  by apply (Hall m x).
Qed.

Lemma cleanup_deletes_every_match_witness :
  ∃ o w',
    clean_or_keep Demo.no_magic_dirs (Demo.cfg None false) Demo.start_used = (o, w')
    ∧ FS.lookup (Demo.out ++ ["r1.fastq.gz"]) (w_root w') = None
    ∧ (∀ k, doomed k = false → k ≠ "pilon_polish" →
            FS.lookup (Demo.out ++ [k]) (w_root w') = Demo.used_out !! k).
Proof.
  apply (cleanup_deletes_every_match Demo.no_magic_dirs (Demo.cfg None false)
           Demo.start_used Demo.out Demo.used_out "r1.fastq.gz" "forward reads");
    try (by vm_compute).
  apply no_doomed_directory_by_entries.
  apply (bool_decide_unpack _). by vm_compute.
Defined.

(** C10 as worded fails where a pattern picks a directory.  In an
    output directory that holds a directory [a.gfa] and a regular file
    [b.fastq.gz], the removal loop comes to [a.gfa] first, [os.remove]
    raises [IsADirectoryError], and the cleanup ends there: the file
    that [*.fastq.gz] picks is still in place. *)
Lemma cleanup_stops_at_directory :
  ∃ w',
    clean_or_keep Demo.no_magic_dirs (Demo.cfg None false)
      (Demo.start (<["out" := Dir {[ "a.gfa" := Dir ∅;
                                     "b.fastq.gz" := File "reads" ]}]>
                     Demo.reads))
    = (Raised (OSError EISDIR "out/a.gfa"), w')
    ∧ doomed "b.fastq.gz" = true
    ∧ FS.lookup (Demo.out ++ ["b.fastq.gz"]) (w_root w') = Some (File "reads").
Proof. eexists. by vm_compute. Qed.

(** ** A run without a polishing directory *)

Section AfterFinalize.

Implicit Types (es : gmap string node) (name d : string).

(** The entries of the output directory once [assembly.fasta] has its
    final name. *)
Lemma lookup_renamed es name d k :
  (<[name +:+ ".fasta" := File d]> (delete "assembly.fasta" es)) !! k =
    if bool_decide (k = name +:+ ".fasta") then Some (File d)
    else if bool_decide (k = "assembly.fasta") then None
    else es !! k.
Proof.
  case_bool_decide as Hk; [subst; apply lookup_insert_eq|].
  rewrite lookup_insert_ne by done.
  case_bool_decide as Hk'; [subst; apply lookup_delete_eq|].
  by apply lookup_delete_ne.
Qed.

Lemma renamed_no_doomed_directory es name d :
  (∀ m, doomed m = true → FS.is_dir (es !! m) = false) →
  ∀ m, doomed m = true →
       FS.is_dir ((<[name +:+ ".fasta" := File d]>
                     (delete "assembly.fasta" es)) !! m) = false.
Proof.
  intros H m Hm. rewrite lookup_renamed.
  repeat case_bool_decide; try done. by apply H.
Qed.

(** The rename puts a regular file where no directory was: every path
    leads where it led. *)
Lemma resolve_renamed path cwd t D es name d :
  FS.lookup D t = Some (Dir es) →
  es !! "assembly.fasta" = Some (File d) →
  FS.is_dir (es !! (name +:+ ".fasta")) = false →
  resolve cwd
    (FS.alter_at
       (FS.on_entries (λ es, <[name +:+ ".fasta" := File d]>
                               (delete "assembly.fasta" es))) D t) path
  = resolve cwd t path.
Proof.
  intros Hes Hsrc Hdst. apply resolve_ext.
  apply (is_dir_on_entries _ _ _ es); [done|]. intros k.
  rewrite lookup_renamed. case_bool_decide as Hk; [subst; by right|].
  case_bool_decide as Hk'; [subst; right; by rewrite Hsrc|by left].
Qed.

End AfterFinalize.

(** C9, amended.  Take a run with the keep-files flag off that gets as
    far as the recursive delete: after the assemble stage the output
    directory (its path without wildcards) holds a regular file
    [assembly.fasta], the assembly name is a base name that names no
    directory, and no pattern picks a directory.  If the output
    directory then has no subdirectory [pilon_polish], [main] ends with
    an exception that nothing catches.  In the state it leaves, the
    final artifact is there under its final name, every entry the
    patterns pick is gone, and the last thing on the terminal is the
    message that the cleanup starts: the closing message was never
    logged. *)
Theorem missing_polish_dir_aborts shell glob_magic_dirs (c : config)
    (w w1 : world) (D : loc) (es : gmap string node) (d : string) :
  keep_files c = false →
  through_assemble shell c w = (Returned tt, w1) →
  resolve (w_cwd w1) (w_root w1) (output_dir c) = Some D →
  has_magic (output_dir c) = false →
  Str.contains "/" (assembly_name c) = false →
  FS.lookup D (w_root w1) = Some (Dir es) →
  FS.is_dir (es !! "pilon_polish") = false →
  es !! "assembly.fasta" = Some (File d) →
  FS.is_dir (es !! (assembly_name c +:+ ".fasta")) = false →
  (∀ m, doomed m = true → FS.is_dir (es !! m) = false) →
  ∃ e w',
    main shell glob_magic_dirs c w = (Raised e, w')
    ∧ FS.lookup (D ++ [assembly_name c +:+ ".fasta"]) (w_root w') = Some (File d)
    ∧ (∀ m, doomed m = true → FS.lookup (D ++ [m]) (w_root w') = None)
    ∧ w_console w' =
        w_console w1 ++ [Logged INFO "Cleaning up Unicycler output files..."].
Proof.
  intros Hkeep Hrun HD Hmagic Hname Hes Hpp Hsrc Hdst Hfiles.
  rewrite (main_after_assemble _ _ _ _ _ Hrun). unfold bind at 1.
  rewrite (finalize_moves_file c w1 D es d) by done.
  set (es2 := <[assembly_name c +:+ ".fasta" := File d]>
                (delete "assembly.fasta" es)).
  set (w2 := set_root _ w1).
  assert (FS.lookup D (w_root w2) = Some (Dir es2)) as Hes2.
  { exact (lookup_on_entries D _ _ es Hes). }
  assert (resolve (w_cwd w2) (w_root w2) (output_dir c) = Some D) as HD2.
  { unfold w2. simpl. by rewrite (resolve_renamed _ _ _ _ es). }
  pose proof (renamed_no_doomed_directory es (assembly_name c) d Hfiles)
    as Hfiles2.
  unfold bind at 1.
  rewrite (sweep_then_rmtree _ c w2 D es2) by done.
  set (w3 := set_root _ _).
  assert (FS.lookup D (w_root w3) = Some (Dir (swept es2))) as Hes3.
  { exact (lookup_on_entries D _ _ es2 Hes2). }
  assert (resolve (w_cwd w3) (w_root w3) (output_dir c) = Some D) as HD3.
  { unfold w3. simpl. by rewrite (resolve_swept _ _ _ _ es2). }
  rewrite (shutil_rmtree_entry _ _ w3 D (swept es2)) by done.
  assert (FS.is_dir (swept es2 !! "pilon_polish") = false) as Hpp3.
  { rewrite lookup_swept. change (doomed "pilon_polish") with false.
    cbv iota. unfold es2. rewrite lookup_renamed.
    rewrite bool_decide_eq_false_2
      by (intros Heq; by apply (final_name_not_pilon (assembly_name c))).
    by rewrite bool_decide_eq_false_2. }
  assert (FS.lookup (D ++ [assembly_name c +:+ ".fasta"]) (w_root w3)
          = Some (File d)) as Hart.
  { rewrite (lookup_entry _ _ _ _ Hes3), lookup_swept, final_name_not_doomed.
    unfold es2. apply lookup_insert_eq. }
  assert (∀ m, doomed m = true → FS.lookup (D ++ [m]) (w_root w3) = None)
    as Hgone.
  { intros m Hm. by rewrite (lookup_entry _ _ _ _ Hes3), lookup_swept, Hm. }
  destruct (swept es2 !! "pilon_polish") as [[?|?]|]; try done;
    eexists _, w3; (split; [reflexivity|]); done.
Qed.

Lemma missing_polish_dir_aborts_witness :
  ∃ e w',
    main Demo.tools_without_polish Demo.no_magic_dirs (Demo.cfg None false)
      (Demo.start Demo.reads) = (Raised e, w')
    ∧ FS.lookup (Demo.out ++ [assembly_name (Demo.cfg None false) +:+ ".fasta"])
        (w_root w') = Some (File ">contig")
    ∧ (∀ m, doomed m = true → FS.lookup (Demo.out ++ [m]) (w_root w') = None)
    ∧ w_console w' =
        w_console (snd (through_assemble Demo.tools_without_polish
                          (Demo.cfg None false) (Demo.start Demo.reads)))
        ++ [Logged INFO "Cleaning up Unicycler output files..."].
Proof.
  apply (missing_polish_dir_aborts Demo.tools_without_polish Demo.no_magic_dirs
           (Demo.cfg None false) (Demo.start Demo.reads)
           (snd (through_assemble Demo.tools_without_polish
                   (Demo.cfg None false) (Demo.start Demo.reads)))
           Demo.out
           (Demo.out_entries
              (snd (through_assemble Demo.tools_without_polish
                      (Demo.cfg None false) (Demo.start Demo.reads))))
           ">contig");
    try (by vm_compute).
  apply no_doomed_directory_by_entries.
  apply (bool_decide_unpack _). by vm_compute.
Defined.

(** The run of the witness, evaluated: the exception is the missing
    polishing directory, and the output directory holds the artifact
    alone. *)
(** C9 as worded fails where the assemble stage leaves no
    [assembly.fasta].  On a machine without the tools the run has the
    keep-files flag off and no [pilon_polish] in the output directory
    after the assemble stage, yet [main] ends at the move, before the
    cleanup: no final artifact exists, and the message that the cleanup
    starts was never logged. *)
Lemma move_fails_before_cleanup :
  let w1 := snd (through_assemble Demo.absent_tools (Demo.cfg None false)
                   (Demo.start Demo.reads)) in
  keep_files (Demo.cfg None false) = false
  ∧ through_assemble Demo.absent_tools (Demo.cfg None false)
      (Demo.start Demo.reads) = (Returned tt, w1)
  ∧ os_path_isdir "out" w1 = true
  ∧ os_path_isdir "out/pilon_polish" w1 = false
  ∧ main Demo.absent_tools Demo.no_magic_dirs (Demo.cfg None false)
      (Demo.start Demo.reads)
    = (Raised (OSError ENOENT "out/assembly.fasta"), w1)
  ∧ os_path_exists "out/test.fasta" w1 = false
  ∧ w_console w1 =
      [Logged INFO "Trimming Illumina reads...";
       Printed "sh: command not found";
       Logged INFO "Correcting Illumina reads...";
       Printed "sh: command not found";
       Logged INFO "Assembling using Unicycler. This will take quite a while...";
       Printed "sh: command not found"].
Proof. by vm_compute. Qed.

Example run_without_polish :
  let r := main Demo.tools_without_polish Demo.no_magic_dirs
             (Demo.cfg None false) (Demo.start Demo.reads) in
  fst r = Raised (OSError ENOENT "out/pilon_polish")
  ∧ Demo.out_names (snd r) = ["test.fasta"]
  ∧ last (w_console (snd r))
    = Some (Logged INFO "Cleaning up Unicycler output files...").
Proof. by vm_compute. Qed.

(** ** The output directory after a successful run *)

(** C2, as stated, fails: whatever else ends in [.fasta] stays.  A run
    into an output directory that already holds [reference.fasta]
    succeeds and leaves two [.fasta] files there (and removes the copy of
    the forward reads and the old graph that were there before). *)
Lemma second_fasta_survives :
  let r := main Demo.tools Demo.no_magic_dirs (Demo.cfg None false)
             Demo.start_used in
  fst r = Returned tt
  ∧ Demo.out_names (snd r) = ["reference.fasta"; "test.fasta"]
  ∧ length (filter (λ n, Str.endswith n ".fasta" = true)
              (Demo.out_names (snd r))) ≠ 1.
Proof. by vm_compute. Qed.

Section SuccessfulRun.

Variable shell : string → node → node * string * Z.
Variable glob_magic_dirs : string → world → list string.

(** A cleanup that returns has found no directory under a name the
    patterns pick, and has found the polishing directory. *)
Lemma clean_or_keep_returns c w D es w' :
  keep_files c = false →
  resolve (w_cwd w) (w_root w) (output_dir c) = Some D →
  has_magic (output_dir c) = false →
  FS.lookup D (w_root w) = Some (Dir es) →
  clean_or_keep glob_magic_dirs c w = (Returned tt, w') →
  w' = set_root (FS.alter_at (FS.on_entries (λ _, cleaned es)) D (w_root w))
         (emit (Logged INFO "Cleaning up Unicycler output files...") w).
Proof.
  intros Hkeep HD Hmagic Hes Hret.
  destruct (decide (map_Forall
              (λ k x, doomed k = true → FS.is_dir (Some x) = false) es))
    as [Hall|Hnot].
  - pose proof (no_doomed_directory_by_entries _ Hall) as Hfiles.
    rewrite (sweep_then_rmtree _ c w D es) in Hret by done.
    rewrite (shutil_rmtree_entry _ _ _ D (swept es)) in Hret;
      [|done|simpl; by rewrite (resolve_swept _ _ _ _ es)
       |by apply lookup_on_entries].
    destruct (swept es !! "pilon_polish") as [[?|?]|]; try done.
    injection Hret as <-. unfold set_root. simpl. f_equal.
    unfold FS.drop. rewrite alter_at_compose.
    eapply alter_at_ext_lookup; [exact Hes|done].
  - apply map_not_Forall in Hnot as (k & x & Hk & Hx); [|apply _].
    destruct (doomed k) eqn:Hd; [|by destruct Hx].
    destruct (sweep_hits_directory glob_magic_dirs c w D es k)
      as (p & w'' & Hraise); try done.
    + rewrite Hk. destruct x; [|done]. by destruct Hx.
    + by rewrite Hraise in Hret.
Qed.

End SuccessfulRun.

(** C2, amended.  Take a successful run in which, after the assemble
    stage, the output directory (its path without wildcards) holds a
    regular file [assembly.fasta], the assembly name being a base name
    that names no directory.  With the keep-files flag off, the cleanup
    has removed exactly the entries of the output directory that
    [*.gfa] or [*.fastq.gz] pick (names that start with a dot are not
    picked) and the entry [pilon_polish]; every other entry, any other
    [.fasta] file included, is as the rename left it, and the renamed
    artifact is among them.  With the flag on, nothing has been removed.
    Outside the output directory nothing has changed in either case. *)
Theorem cleanup_after_success shell glob_magic_dirs (c : config)
    (w w1 w' : world) (D : loc) (es : gmap string node) (d : string) :
  through_assemble shell c w = (Returned tt, w1) →
  resolve (w_cwd w1) (w_root w1) (output_dir c) = Some D →
  has_magic (output_dir c) = false →
  Str.contains "/" (assembly_name c) = false →
  FS.lookup D (w_root w1) = Some (Dir es) →
  es !! "assembly.fasta" = Some (File d) →
  FS.is_dir (es !! (assembly_name c +:+ ".fasta")) = false →
  main shell glob_magic_dirs c w = (Returned tt, w') →
  w_root w' =
    FS.alter_at
      (FS.on_entries (λ _,
         (if keep_files c then id else cleaned)
           (<[assembly_name c +:+ ".fasta" := File d]>
              (delete "assembly.fasta" es))))
      D (w_root w1)
  ∧ FS.lookup (D ++ [assembly_name c +:+ ".fasta"]) (w_root w') = Some (File d)
  ∧ ∀ k,
      FS.lookup (D ++ [k]) (w_root w') =
        if negb (keep_files c) && (doomed k || bool_decide (k = "pilon_polish"))
        then None
        else (<[assembly_name c +:+ ".fasta" := File d]>
                (delete "assembly.fasta" es)) !! k.
Proof.
  intros Hrun HD Hmagic Hname Hes Hsrc Hdst Hmain.
  rewrite (main_after_assemble _ _ _ _ _ Hrun) in Hmain.
  unfold bind at 1 in Hmain.
  rewrite (finalize_moves_file c w1 D es d) in Hmain by done.
  set (es2 := <[assembly_name c +:+ ".fasta" := File d]>
                (delete "assembly.fasta" es)) in *.
  set (w2 := set_root _ w1) in Hmain.
  assert (FS.lookup D (w_root w2) = Some (Dir es2)) as Hes2.
  { exact (lookup_on_entries D _ _ es Hes). }
  assert (resolve (w_cwd w2) (w_root w2) (output_dir c) = Some D) as HD2.
  { unfold w2. simpl. by rewrite (resolve_renamed _ _ _ _ es). }
  assert (w_root w' =
          FS.alter_at
            (FS.on_entries (λ _, (if keep_files c then id else cleaned) es2))
            D (w_root w1)) as Hroot.
  { unfold bind at 1 in Hmain.
    destruct (keep_files c) eqn:Hkeep.
    - unfold clean_or_keep in Hmain. rewrite Hkeep in Hmain. simpl in Hmain.
      injection Hmain as <-. simpl.
      eapply alter_at_ext_lookup; [exact Hes|done].
    - destruct (clean_or_keep glob_magic_dirs c w2) as [[[]|?|?] w3] eqn:Hclean;
        try done.
      apply (clean_or_keep_returns _ c w2 D es2) in Hclean; try done.
      injection Hmain as <-. subst w3. simpl.
      rewrite alter_at_compose.
      eapply alter_at_ext_lookup; [exact Hes|done]. }
  assert (FS.lookup D (w_root w') =
          Some (Dir ((if keep_files c then id else cleaned) es2))) as Hes'.
  { rewrite Hroot. exact (lookup_on_entries D _ _ es Hes). }
  split; [exact Hroot|]. split.
  - rewrite (lookup_entry _ _ _ _ Hes').
    destruct (keep_files c); simpl.
    + apply lookup_insert_eq.
    + rewrite lookup_cleaned, final_name_not_doomed. simpl.
      rewrite bool_decide_eq_false_2 by apply final_name_not_pilon.
      apply lookup_insert_eq.
  - intros k. rewrite (lookup_entry _ _ _ _ Hes').
    destruct (keep_files c); simpl; [done|apply lookup_cleaned].
Qed.

Lemma cleanup_after_success_witness :
  w_root (snd (main Demo.tools Demo.no_magic_dirs (Demo.cfg None false)
                 Demo.start_used)) =
    FS.alter_at
      (FS.on_entries (λ _,
         (if keep_files (Demo.cfg None false) then id else cleaned)
           (<[assembly_name (Demo.cfg None false) +:+ ".fasta" := File ">contig"]>
              (delete "assembly.fasta"
                 (Demo.out_entries
                    (snd (through_assemble Demo.tools (Demo.cfg None false)
                            Demo.start_used)))))))
      Demo.out
      (w_root (snd (through_assemble Demo.tools (Demo.cfg None false)
                      Demo.start_used)))
  ∧ FS.lookup (Demo.out ++ [assembly_name (Demo.cfg None false) +:+ ".fasta"])
      (w_root (snd (main Demo.tools Demo.no_magic_dirs (Demo.cfg None false)
                      Demo.start_used))) = Some (File ">contig")
  ∧ ∀ k,
      FS.lookup (Demo.out ++ [k])
        (w_root (snd (main Demo.tools Demo.no_magic_dirs (Demo.cfg None false)
                        Demo.start_used))) =
        if negb (keep_files (Demo.cfg None false))
           && (doomed k || bool_decide (k = "pilon_polish"))
        then None
        else (<[assembly_name (Demo.cfg None false) +:+ ".fasta" := File ">contig"]>
                (delete "assembly.fasta"
                   (Demo.out_entries
                      (snd (through_assemble Demo.tools (Demo.cfg None false)
                              Demo.start_used))))) !! k.
Proof.
  apply (cleanup_after_success Demo.tools Demo.no_magic_dirs
           (Demo.cfg None false) Demo.start_used
           (snd (through_assemble Demo.tools (Demo.cfg None false)
                   Demo.start_used))
           (snd (main Demo.tools Demo.no_magic_dirs (Demo.cfg None false)
                   Demo.start_used))
           Demo.out
           (Demo.out_entries
              (snd (through_assemble Demo.tools (Demo.cfg None false)
                      Demo.start_used)))
           ">contig");
    by vm_compute.
Defined.

(** ** The scenarios of the specification, evaluated *)

(** Forward reads [r1.fastq.gz], reverse reads [r2.fastq.gz], long reads
    [pb.fastq.gz], output directory [out], name [test], four threads, no
    log file: the run succeeds, hands the three command lines to the
    shell in stage order, and leaves [out/test.fasta] alone in the
    output directory. *)
Example end_to_end :
  let r := main Demo.tools Demo.no_magic_dirs (Demo.cfg None false)
             (Demo.start Demo.reads) in
  fst r = Returned tt
  ∧ Demo.out_names (snd r) = ["test.fasta"]
  ∧ Demo.file_data ["work"; "out"; "test.fasta"] (snd r) = Some ">contig"
  ∧ w_invoked (snd r) = stage_commands (Demo.cfg None false)
  ∧ last (w_console (snd r))
    = Some (Logged INFO
              "Hybrid Assembly complete. Assembly file is out/test.fasta").
Proof. by vm_compute. Qed.

(** The same run with the keep-files flag: every intermediate file is
    still there, next to the artifact. *)
Example end_to_end_keep_files :
  let r := main Demo.tools Demo.no_magic_dirs (Demo.cfg None true)
             (Demo.start Demo.reads) in
  fst r = Returned tt
  ∧ Demo.out_names (snd r) =
      ["assembly.gfa"; "pilon_polish"; "test.fasta";
       "test_corrected_R1.fastq.gz"; "test_corrected_R2.fastq.gz";
       "test_trimmed_R1.fastq.gz"; "test_trimmed_R2.fastq.gz"].
Proof. by vm_compute. Qed.

(** Without the tools, every command fails, every failure is ignored,
    and the run ends at the move of a file that is not there. *)
Example tools_not_installed :
  let r := main Demo.absent_tools Demo.no_magic_dirs (Demo.cfg None false)
             (Demo.start Demo.reads) in
  fst r = Raised (OSError ENOENT "out/assembly.fasta")
  ∧ w_invoked (snd r) = stage_commands (Demo.cfg None false)
  ∧ Demo.out_names (snd r) = [].
Proof. by vm_compute. Qed.

(** A directory under a name that a pattern picks stops the cleanup at
    [os.remove]. *)
Example directory_named_like_a_graph :
  fst (clean_or_keep Demo.no_magic_dirs (Demo.cfg None false)
         (Demo.start (<["out" := Dir {[ "old.gfa" := Dir ∅ ]}]> Demo.reads)))
  = Raised (OSError EISDIR "out/old.gfa").
Proof. by vm_compute. Qed.

(** * Further properties *)

(** ** Steps that run no command *)

Section RunsNothing.

Lemma runs_nothing_ret {A} (a : A) : runs_nothing (ret a).
Proof.
  intros w o w' [= <- <-]. repeat split; try done.
  exists []. by rewrite app_nil_r.
Qed.

Lemma runs_nothing_bind {A B} (m : M A) (k : A → M B) :
  runs_nothing m → (∀ a, runs_nothing (k a)) → runs_nothing (bind m k).
Proof.
  intros Hm Hk w o w'. unfold bind.
  destruct (m w) as [[a|s|e] w1] eqn:Hmw;
    destruct (Hm _ _ _ Hmw) as (Hc & Hi & (evs & He & Hl) & Hs).
  - intros Hkw. destruct (Hk a _ _ _ Hkw) as (Hc' & Hi' & (evs' & He' & Hl') & Hs').
    repeat split; try congruence.
    exists (evs ++ evs'). split; [|by apply Forall_app].
    by rewrite He', He, app_assoc.
  - by destruct (Hs s).
  - intros [= <- <-]. repeat split; try done. by exists evs.
Qed.

(** A step that at most replaces the file system runs nothing. *)
Lemma runs_nothing_fs {A} (m : M A) :
  (∀ w, ∃ o w', m w = (o, w')
                ∧ (w' = w ∨ ∃ t, w' = set_root t w)
                ∧ ∀ s, o ≠ SysExit s) →
  runs_nothing m.
Proof.
  intros H w o w' Hm. destruct (H w) as (o1 & w1 & Hm1 & Hw & Hs).
  rewrite Hm in Hm1. injection Hm1 as <- <-.
  assert (w_cwd w' = w_cwd w ∧ w_invoked w' = w_invoked w
          ∧ w_console w' = w_console w) as (? & ? & Hcon)
    by (destruct Hw as [->|[t ->]]; done).
  repeat split; try done. exists []. by rewrite app_nil_r.
Qed.

Lemma runs_nothing_logging lv msg : runs_nothing (modify (emit (Logged lv msg))).
Proof.
  intros w o w' [= <- <-]. repeat split; try done.
  exists [Logged lv msg]. split; [done|]. by repeat constructor.
Qed.

Lemma fs_only_runs_nothing {A} (m : M A) : fs_only m → runs_nothing m.
Proof.
  intros H w o w' Hm. destruct (H _ _ _ Hm) as (Hc & Hcon & Hi & Hs).
  repeat split; try done. exists []. by rewrite app_nil_r.
Qed.

Lemma fs_only_os_mkdir path : fs_only (os_mkdir path).
Proof.
  intros w o w'. unfold os_mkdir. repeat case_match; by intros [= <- <-].
Qed.

Lemma fs_only_makedirs_fuel fuel name : fs_only (makedirs_fuel fuel name).
Proof.
  revert name. induction fuel as [|fuel IH]; intros name w o w';
    rewrite makedirs_fuel_unfold;
    destruct (os_path_split name) as [h t];
    destruct (if bool_decide (t = "") then os_path_split h else (h, t))
      as [h' t'];
    destruct (_ && _ && _); try apply fs_only_os_mkdir.
  destruct (makedirs_fuel fuel h' w) as [o1 w1] eqn:H1.
  apply IH in H1 as (Hc & Hcon & Hi & Hs).
  repeat case_match; subst; intros Hrun;
    try (injection Hrun as <- <-; by repeat split);
    apply fs_only_os_mkdir in Hrun as (? & ? & ? & ?);
    repeat split; congruence.
Qed.

Lemma fs_only_os_makedirs path : fs_only (os_makedirs path).
Proof. apply fs_only_makedirs_fuel. Qed.

Lemma runs_nothing_os_makedirs path : runs_nothing (os_makedirs path).
Proof. apply fs_only_runs_nothing, fs_only_os_makedirs. Qed.

Lemma runs_nothing_os_remove path : runs_nothing (os_remove path).
Proof.
  apply runs_nothing_fs. intros w. unfold os_remove.
  repeat case_match; eauto 10.
Qed.

Lemma runs_nothing_shutil_rmtree path : runs_nothing (shutil_rmtree path).
Proof.
  apply runs_nothing_fs. intros w. unfold shutil_rmtree.
  repeat case_match; eauto 10.
Qed.

Lemma fs_only_move_by_copy src dst real_dst s x e :
  fs_only (move_by_copy src dst real_dst s x e).
Proof.
  intros w o w'. unfold move_by_copy.
  destruct x as [d|es]; [by intros [= <- <-]|].
  destruct (FS.unsnoc s) as [[sd sn]|]; [|by intros [= <- <-]].
  case_match; [by intros [= <- <-]|].
  destruct (os_makedirs real_dst w) as [o1 w1] eqn:H1.
  apply fs_only_os_makedirs in H1 as (Hc & Hcon & Hi & Hs).
  repeat case_match; subst; intros [= <- <-]; by repeat split.
Qed.

Lemma fs_only_shutil_move src dst : fs_only (shutil_move src dst).
Proof.
  intros w o w'. unfold shutil_move.
  repeat case_match; subst; intros Hrun;
    try (injection Hrun as <- <-; by repeat split);
    by apply fs_only_move_by_copy in Hrun.
Qed.

Lemma runs_nothing_shutil_move src dst : runs_nothing (shutil_move src dst).
Proof. apply fs_only_runs_nothing, fs_only_shutil_move. Qed.

Lemma runs_nothing_glob_glob gmd pathname : runs_nothing (glob_glob gmd pathname).
Proof.
  apply runs_nothing_fs. intros w. unfold glob_glob.
  destruct (os_path_split pathname). eauto 10.
Qed.

Lemma runs_nothing_for_each {A} (items : list A) (body : A → M unit) :
  (∀ x, runs_nothing (body x)) → runs_nothing (for_each items body).
Proof.
  intros H. induction items as [|x items IH]; simpl.
  - apply runs_nothing_ret.
  - apply runs_nothing_bind; [apply H|by intros _].
Qed.

Lemma runs_nothing_ensure_output_dir path : runs_nothing (ensure_output_dir path).
Proof.
  unfold ensure_output_dir. apply runs_nothing_bind.
  - apply runs_nothing_fs. intros w. unfold get_world. eauto 10.
  - intros w0. case_match; [apply runs_nothing_os_makedirs|apply runs_nothing_ret].
Qed.

Lemma runs_nothing_finalize c : runs_nothing (finalize c).
Proof. apply runs_nothing_shutil_move. Qed.

Lemma runs_nothing_clean_or_keep gmd c : runs_nothing (clean_or_keep gmd c).
Proof.
  unfold clean_or_keep. case_match; [|apply runs_nothing_ret].
  apply runs_nothing_bind; [apply runs_nothing_logging|intros _].
  apply runs_nothing_bind; [apply runs_nothing_glob_glob|intros gfa].
  apply runs_nothing_bind; [apply runs_nothing_glob_glob|intros fastq].
  apply runs_nothing_bind; [|intros _; apply runs_nothing_shutil_rmtree].
  apply runs_nothing_for_each, runs_nothing_os_remove.
Qed.

Lemma runs_nothing_report_done c : runs_nothing (report_done c).
Proof. apply runs_nothing_logging. Qed.

(** Everything [main] does after the assemble stage. *)
Lemma runs_nothing_after_assemble gmd c :
  runs_nothing (finalize c ;; clean_or_keep gmd c ;; report_done c).
Proof.
  apply runs_nothing_bind; [apply runs_nothing_finalize|intros _].
  apply runs_nothing_bind; [apply runs_nothing_clean_or_keep|intros _].
  apply runs_nothing_report_done.
Qed.

End RunsNothing.

(** ** What a run runs *)

Section Trace.

Variable shell : string → node → node * string * Z.
Variable glob_magic_dirs : string → world → list string.

(** One call of [run_cmd]: the command is handed to the shell once, or
    not at all when the log file cannot be opened; with a log file
    nothing reaches the terminal. *)
Lemma run_cmd_trace cmd log w o w' :
  run_cmd shell cmd log w = (o, w') →
  w_cwd w' = w_cwd w
  ∧ (∀ s, o ≠ SysExit s)
  ∧ ((o = Returned tt ∧ w_invoked w' = w_invoked w ++ [cmd])
     ∨ ((∃ e, o = Raised e) ∧ w_invoked w' = w_invoked w))
  ∧ (is_Some log → w_console w' = w_console w).
Proof.
  destruct log as [l|]; unfold run_cmd, bind.
  - destruct (open_append_cases l w) as [(f & w1 & -> & Hi & Hcon & Hc)|[e ->]].
    + unfold file_write. case_bool_decide; simpl;
        unfold subprocess_call; simpl;
        destruct (shell cmd _) as [[t out] st]; simpl;
        intros [= <- <-]; simpl; rewrite Hi, Hc, Hcon;
        repeat split; try done; by left.
    + intros [= <- <-]. repeat split; try done. right. eauto.
  - unfold subprocess_call. destruct (shell cmd (w_root w)) as [[t out] st].
    simpl. intros [= <- <-]. simpl. repeat split; try done.
    all: try (by left). all: by intros [? ?].
Qed.

(** The three stages: the commands handed to the shell are the first [k]
    of the three command lines of the run, all three if the stages
    return; with a log file, only log records reach the terminal. *)
Lemma run_stages_trace c w o w' :
  run_stages shell c w = (o, w') →
  w_cwd w' = w_cwd w
  ∧ (∀ s, o ≠ SysExit s)
  ∧ (∃ k, w_invoked w' = w_invoked w ++ take k (stage_commands c)
          ∧ (o = Returned tt → k = 3))
  ∧ (is_Some (logfile c) →
     ∃ evs, w_console w' = w_console w ++ evs
            ∧ Forall (λ e, is_logged e = true) evs).
Proof.
  unfold run_stages, trim_reads, correct_reads, assemble.
  unfold bind, logging_info, modify. cbv beta iota zeta.
  destruct (run_cmd shell (trim_cmd _ _ _ _ _) (logfile c) _)
    as [o1 w1] eqn:H1.
  apply run_cmd_trace in H1 as (Hc1 & Hs1 & Hi1 & Hcon1). simpl in Hc1, Hi1, Hcon1.
  destruct o1 as [[]|s|e]; [|by destruct (Hs1 s)|].
  2:{ intros [= <- <-]. destruct Hi1 as [[? _]|[_ Hi1]]; [done|].
      repeat split; try done.
      - exists 0. by rewrite Hi1, app_nil_r.
      - intros Hl. exists [Logged INFO "Trimming Illumina reads..."].
        rewrite (Hcon1 Hl). split; [done|]. by repeat constructor. }
  destruct Hi1 as [[_ Hi1]|[[? ?] _]]; [|done].
  destruct (run_cmd shell (correct_cmd _ _ _ _ _) (logfile c) _)
    as [o2 w2] eqn:H2.
  apply run_cmd_trace in H2 as (Hc2 & Hs2 & Hi2 & Hcon2). simpl in Hc2, Hi2, Hcon2.
  destruct o2 as [[]|s|e]; [|by destruct (Hs2 s)|].
  2:{ intros [= <- <-]. destruct Hi2 as [[? _]|[_ Hi2]]; [done|].
      repeat split; try done; [congruence| |].
      - exists 1. by rewrite Hi2; simpl; rewrite Hi1.
      - intros Hl. exists [Logged INFO "Trimming Illumina reads...";
                           Logged INFO "Correcting Illumina reads..."].
        rewrite (Hcon2 Hl). simpl. rewrite (Hcon1 Hl). simpl.
        rewrite <- app_assoc. split; [done|]. by repeat constructor. }
  destruct Hi2 as [[_ Hi2]|[[? ?] _]]; [|done].
  intros H3.
  apply run_cmd_trace in H3 as (Hc3 & Hs3 & Hi3 & Hcon3). simpl in Hc3, Hi3, Hcon3.
  split; [congruence|]. split; [done|]. split.
  - destruct Hi3 as [[-> Hi3]|[[e ->] Hi3]].
    + exists 3. split; [|done]. rewrite Hi3. simpl. rewrite Hi2. simpl.
      rewrite Hi1. simpl. by rewrite <- !app_assoc.
    + exists 2. split; [|done]. rewrite Hi3. simpl. rewrite Hi2. simpl.
      rewrite Hi1. simpl. by rewrite <- !app_assoc.
  - intros Hl.
    exists [Logged INFO "Trimming Illumina reads...";
            Logged INFO "Correcting Illumina reads...";
            Logged INFO "Assembling using Unicycler. This will take quite a while..."].
    rewrite (Hcon3 Hl). simpl. rewrite (Hcon2 Hl). simpl.
    rewrite (Hcon1 Hl). simpl. rewrite <- !app_assoc.
    split; [done|]. by repeat constructor.
Qed.

End Trace.

Section MainTrace.

Variable shell : string → node → node * string * Z.
Variable glob_magic_dirs : string → world → list string.

Lemma world_eq (w w' : world) :
  w_cwd w' = w_cwd w → w_root w' = w_root w →
  w_console w' = w_console w → w_invoked w' = w_invoked w → w' = w.
Proof. destruct w, w'; simpl; by intros -> -> -> ->. Qed.

Lemma Forall_logged_errors (paths : list string) :
  Forall (λ e, is_logged e = true)
    (map (λ p, Logged ERROR (missing_file_message p)) paths).
Proof. induction paths; by constructor. Qed.

(** Everything the later properties need to know about a run of [main],
    in one place. *)
Lemma main_trace c w o w' :
  main shell glob_magic_dirs c w = (o, w') →
  w_cwd w' = w_cwd w
  ∧ (∀ s, o = SysExit s →
          s = 1%Z ∧ missing_inputs c w ≠ []
          ∧ w_root w' = w_root w ∧ w_invoked w' = w_invoked w)
  ∧ (∃ k, w_invoked w' = w_invoked w ++ take k (stage_commands c)
          ∧ (o = Returned tt → k = 3))
  ∧ (is_Some (logfile c) →
     ∃ evs, w_console w' = w_console w ++ evs
            ∧ Forall (λ e, is_logged e = true) evs).
Proof.
  unfold main. unfold bind at 1.
  destruct (validate_spec c w) as (w0 & -> & Hc0 & Hr0 & Hi0 & Hcon0).
  case_bool_decide as Hmiss.
  2:{ intros [= <- <-]. split; [exact Hc0|]. split.
      { intros s [= <-]. auto. }
      split.
      - exists 0. rewrite take_0, app_nil_r. by split.
      - intros _. eexists. split; [exact Hcon0|apply Forall_logged_errors]. }
  rewrite Hmiss in Hcon0. simpl in Hcon0. rewrite app_nil_r in Hcon0.
  unfold bind at 1.
  destruct (ensure_output_dir (output_dir c) w0) as [o1 w1] eqn:H1.
  destruct (runs_nothing_ensure_output_dir _ _ _ _ H1)
    as (Hc1 & Hi1 & (evs1 & Hcon1 & Hl1) & Hs1).
  destruct o1 as [[]|s|e]; [|by destruct (Hs1 s)|].
  2:{ intros [= <- <-]. split; [by rewrite Hc1|]. split; [done|]. split.
      - exists 0. rewrite take_0, app_nil_r. split; [by rewrite Hi1|done].
      - intros _. exists evs1. by rewrite Hcon1, Hcon0. }
  unfold bind at 1.
  destruct (run_stages shell c w1) as [o2 w2] eqn:H2.
  destruct (run_stages_trace _ _ _ _ _ H2)
    as (Hc2 & Hs2 & (k & Hi2 & Hk) & Hcon2).
  destruct o2 as [[]|s|e]; [|by destruct (Hs2 s)|].
  2:{ intros [= <- <-]. split; [by rewrite Hc2, Hc1|]. split; [done|]. split.
      - exists k. split; [|done]. by rewrite Hi2, Hi1, Hi0.
      - intros Hl. destruct (Hcon2 Hl) as (evs2 & Hcon2' & Hl2).
        exists (evs1 ++ evs2). split; [|by apply Forall_app].
        by rewrite Hcon2', Hcon1, Hcon0, app_assoc. }
  intros H3.
  destruct (runs_nothing_after_assemble glob_magic_dirs c _ _ _ H3)
    as (Hc3 & Hi3 & (evs3 & Hcon3 & Hl3) & Hs3).
  split; [by rewrite Hc3, Hc2, Hc1|].
  split; [by intros s ->; destruct (Hs3 s)|]. split.
  - exists k. split; [|by intros _; apply Hk].
    by rewrite Hi3, Hi2, Hi1, Hi0.
  - intros Hl. destruct (Hcon2 Hl) as (evs2 & Hcon2' & Hl2).
    exists (evs1 ++ evs2 ++ evs3). split; [|by rewrite !Forall_app].
    by rewrite Hcon3, Hcon2', Hcon1, Hcon0, !app_assoc.
Qed.

End MainTrace.

(** ** What a run of [main] can and cannot do *)

Lemma validate_returns (c : config) (w : world) :
  missing_inputs c w = [] → validate c w = (Returned tt, w).
Proof.
  intros H. destruct (validate_spec c w) as (w0 & Hv & Hc & Hr & Hi & Hcon).
  rewrite H in Hcon. simpl in Hcon. rewrite app_nil_r in Hcon.
  rewrite Hv, bool_decide_eq_true_2 by done. f_equal. by apply world_eq.
Qed.

(** X1.  The checks of [main] return without a word exactly when the
    three input paths all name regular files: then nothing is logged and
    the world after the checks is the world before them.  In every other
    case the checks do not return. *)
Theorem validate_passes_silently (c : config) (w : world) :
  (missing_inputs c w = [] → validate c w = (Returned tt, w))
  ∧ (∀ w', validate c w = (Returned tt, w') → missing_inputs c w = []).
Proof.
  split; [apply validate_returns|].
  destruct (validate_spec c w) as (w0 & Hv & _).
  intros w' H. rewrite Hv in H. by case_bool_decide.
Qed.

(** X2.  [main] ends by [sys.exit] nowhere but at the gate behind the
    three checks: if a run exits, the status is 1, one of the inputs is
    missing, the file system is untouched and no command was handed to
    the shell. *)
Theorem main_exits_only_at_gate shell glob_magic_dirs
    (c : config) (w : world) (s : Z) (w' : world) :
  main shell glob_magic_dirs c w = (SysExit s, w') →
  s = 1%Z ∧ missing_inputs c w ≠ []
  ∧ w_root w' = w_root w ∧ w_invoked w' = w_invoked w.
Proof.
  intros H. destruct (main_trace _ _ _ _ _ _ H) as (_ & Hexit & _).
  by apply Hexit.
Qed.

Lemma main_exits_only_at_gate_witness :
  1%Z = 1%Z
  ∧ missing_inputs (Demo.cfg None false)
      (Demo.start (delete "pb.fastq.gz" Demo.reads)) ≠ []
  ∧ w_root (main Demo.tools Demo.no_magic_dirs (Demo.cfg None false)
              (Demo.start (delete "pb.fastq.gz" Demo.reads))).2
    = w_root (Demo.start (delete "pb.fastq.gz" Demo.reads))
  ∧ w_invoked (main Demo.tools Demo.no_magic_dirs (Demo.cfg None false)
                 (Demo.start (delete "pb.fastq.gz" Demo.reads))).2
    = w_invoked (Demo.start (delete "pb.fastq.gz" Demo.reads)).
Proof.
  apply (main_exits_only_at_gate Demo.tools Demo.no_magic_dirs
           (Demo.cfg None false)
           (Demo.start (delete "pb.fastq.gz" Demo.reads)) 1).
  by vm_compute.
Defined.

(** X3.  Whatever the inputs and however a run of [main] ends, the
    working directory is the one it started in, and the command lines
    handed to the shell are the first [k] of the three stage commands, in
    stage order, and nothing else: no step outside the three stages runs
    a command.  A run that returns has run all three. *)
Theorem main_runs_only_stage_commands shell glob_magic_dirs
    (c : config) (w : world) :
  w_cwd (main shell glob_magic_dirs c w).2 = w_cwd w
  ∧ ∃ k, w_invoked (main shell glob_magic_dirs c w).2
         = w_invoked w ++ take k (stage_commands c)
         ∧ ((main shell glob_magic_dirs c w).1 = Returned tt → k = 3).
Proof.
  destruct (main shell glob_magic_dirs c w) as [o w'] eqn:H.
  destruct (main_trace _ _ _ _ _ _ H) as (Hc & _ & Hk & _). by split.
Qed.

(** X4.  The command line always passes a log file to [main]: the one
    given with [-l], or the default name.  So in a run started from the
    command line the output of the tools never reaches the terminal.
    What the script adds to the terminal are records of the logger and,
    when the run ends with an exception that nothing catches, the
    traceback of that exception after them; nothing else. *)
Theorem cli_terminal_gets_log_records_only shell glob_magic_dirs
    (cpu_count : Z) (now : datetime) (a : arguments) (w : world) :
  is_Some (logfile (config_of_arguments cpu_count now a))
  ∧ ∃ evs,
      w_console (script shell glob_magic_dirs cpu_count now a w).2
      = w_console w ++ evs
        ++ match (main shell glob_magic_dirs
                    (config_of_arguments cpu_count now a) w).1 with
           | Raised e => [Traceback e]
           | _ => []
           end
      ∧ Forall (λ e, is_logged e = true) evs.
Proof.
  split; [by eexists|]. unfold script.
  destruct (main shell glob_magic_dirs _ w) as [o w'] eqn:H.
  destruct (main_trace _ _ _ _ _ _ H) as (_ & _ & _ & Hcon).
  destruct Hcon as (evs & Hevs & Hlogged); [by eexists|].
  exists evs. split; [|done].
  destruct o as [[]|st|e]; simpl; rewrite Hevs, ?app_nil_r, <- ?app_assoc; done.
Qed.

(** A run from the command line that ends with an exception: the
    terminal gets the record of the first stage and the traceback. *)
Example traceback_on_terminal :
  script Demo.tools Demo.no_magic_dirs 4
    (DateTime 2026 11 4 16 5 9)
    (Arguments "pb.fastq.gz" "r1.fastq.gz" "r2.fastq.gz" "out" None None
       (Some "out") false)
    (Demo.start Demo.reads)
  = (1%Z,
     emit (Traceback (OSError EISDIR "out"))
       (emit (Logged INFO "Trimming Illumina reads...")
          (ensure_output_dir "out" (Demo.start Demo.reads)).2)).
Proof. by vm_compute. Qed.

(** ** The default log file name *)

Section LogFileName.

Local Open Scope Z_scope.

Lemma digit_inj (a b : Z) : digit a = digit b → a mod 10 = b mod 10.
Proof.
  unfold digit. intros H. apply (f_equal nat_of_ascii) in H.
  pose proof (Z.mod_pos_bound a 10) as Ha.
  pose proof (Z.mod_pos_bound b 10) as Hb.
  rewrite !nat_ascii_embedding in H by lia. lia.
Qed.

Lemma two_digits_inj (a b : Z) :
  0 ≤ a < 100 → 0 ≤ b < 100 → two_digits a = two_digits b → a = b.
Proof.
  intros Ha Hb [= H1%digit_inj H0%digit_inj].
  pose proof (Z.div_mod a 10). pose proof (Z.div_mod b 10).
  rewrite (Z.mod_small (a / 10)) in H1
    by (split; [apply Z.div_pos|apply Z.div_lt_upper_bound]; lia).
  rewrite (Z.mod_small (b / 10)) in H1
    by (split; [apply Z.div_pos|apply Z.div_lt_upper_bound]; lia).
  lia.
Qed.

Lemma four_digits_inj (a b : Z) :
  0 ≤ a < 10000 → 0 ≤ b < 10000 → four_digits a = four_digits b → a = b.
Proof.
  intros Ha Hb [= H3%digit_inj H2%digit_inj H1%digit_inj H0%digit_inj].
  assert (∀ n, n / 100 = n / 10 / 10) as E100
    by (intros n; by rewrite Z.div_div by lia).
  assert (∀ n, n / 1000 = n / 10 / 10 / 10) as E1000
    by (intros n; by rewrite !Z.div_div by lia).
  rewrite !E100 in H2. rewrite !E1000 in H3.
  pose proof (Z.div_mod a 10). pose proof (Z.div_mod b 10).
  pose proof (Z.div_mod (a / 10) 10). pose proof (Z.div_mod (b / 10) 10).
  pose proof (Z.div_mod (a / 10 / 10) 10).
  pose proof (Z.div_mod (b / 10 / 10) 10).
  assert (0 ≤ a / 10 / 10 / 10 < 10).
  { split; [by repeat apply Z.div_pos; lia|].
    repeat apply Z.div_lt_upper_bound; lia. }
  assert (0 ≤ b / 10 / 10 / 10 < 10).
  { split; [by repeat apply Z.div_pos; lia|].
    repeat apply Z.div_lt_upper_bound; lia. }
  rewrite !(Z.mod_small (_ / 10 / 10 / 10)) in H3 by done.
  lia.
Qed.

End LogFileName.

(** X5.  The default log file name is made of the year, the month, the
    day, the hour, the month once more and the second: the format string
    has [%m] where the minutes were meant.  So the minute leaves no trace
    in the name: two starts get the same default log file exactly when
    they agree on the year, month, day, hour and second, at whatever
    minutes. *)
Theorem default_logfile_same_name (t1 t2 : datetime) :
  valid_datetime t1 → valid_datetime t2 →
  default_logfile t1 = default_logfile t2
  ↔ dt_year t1 = dt_year t2 ∧ dt_month t1 = dt_month t2
    ∧ dt_day t1 = dt_day t2 ∧ dt_hour t1 = dt_hour t2
    ∧ dt_second t1 = dt_second t2.
Proof.
  destruct t1 as [y1 m1 d1 h1 n1 s1], t2 as [y2 m2 d2 h2 n2 s2].
  unfold valid_datetime. simpl.
  intros (Hy1 & Hm1 & Hd1 & Hh1 & _ & Hs1) (Hy2 & Hm2 & Hd2 & Hh2 & _ & Hs2).
  split.
  - unfold default_logfile, strftime_logfile. simpl.
    intros H.
    assert (four_digits y1 = four_digits y2 ∧ two_digits m1 = two_digits m2
            ∧ two_digits d1 = two_digits d2 ∧ two_digits h1 = two_digits h2
            ∧ two_digits s1 = two_digits s2) as (Ey & Em & Ed & Eh & Es).
    { cbv [four_digits two_digits String.append] in *.
      injection H as ? ? ? ? ? ? ? ? ? ? ? ? ? ?. repeat split; congruence. }
    repeat split;
      first [apply four_digits_inj; (done || lia)
            |apply two_digits_inj; (done || lia)].
  - by intros (-> & -> & -> & -> & ->).
Qed.

Lemma default_logfile_same_name_witness :
  default_logfile (DateTime 2026 11 4 16 5 9)
  = default_logfile (DateTime 2026 11 4 16 47 9)
  ↔ dt_year (DateTime 2026 11 4 16 5 9) = dt_year (DateTime 2026 11 4 16 47 9)
    ∧ dt_month (DateTime 2026 11 4 16 5 9) = dt_month (DateTime 2026 11 4 16 47 9)
    ∧ dt_day (DateTime 2026 11 4 16 5 9) = dt_day (DateTime 2026 11 4 16 47 9)
    ∧ dt_hour (DateTime 2026 11 4 16 5 9) = dt_hour (DateTime 2026 11 4 16 47 9)
    ∧ dt_second (DateTime 2026 11 4 16 5 9)
      = dt_second (DateTime 2026 11 4 16 47 9).
Proof.
  apply (default_logfile_same_name
           (DateTime 2026 11 4 16 5 9) (DateTime 2026 11 4 16 47 9));
    unfold valid_datetime; simpl; lia.
Defined.

(** The name on the fourth of November 2026 at 16:05:09, with the month
    between the hour and the second. *)
Example default_logfile_example :
  default_logfile (DateTime 2026 11 4 16 5 9) = "20261104-161109_log.txt".
Proof. reflexivity. Qed.

(** ** Failures of the process runner *)

Section RunnerFailures.

Variable shell : string → node → node * string * Z.

Lemma open_append_directory p w :
  os_path_isdir p w = true → open_append p w = (Raised (OSError EISDIR p), w).
Proof.
  unfold os_path_isdir, stat, open_append. intros Hdir.
  destruct (resolve (w_cwd w) (w_root w) p) as [l|] eqn:Hl; [|done].
  simpl in Hdir. apply resolve_Some in Hl.
  destruct (Str.endswith_sep p) eqn:Hend.
  - case_bool_decide as Hr; [by destruct (namei _ _ (rstrip_sep p))|].
    pose proof (namei_rstrip_sep (w_root w) (w_cwd w) p Hr) as Heq.
    rewrite Hl, (step_component_dir _ _ _ Hdir) in Heq.
    by destruct (namei (w_cwd w) (w_root w) (rstrip_sep p)).
  - rewrite Hl. by destruct (FS.lookup l (w_root w)) as [[?|?]|].
Qed.

(** A failure of [open] changes nothing. *)
Lemma open_append_raises p w x w' :
  open_append p w = (Raised x, w') → w' = w.
Proof.
  destruct (open_append_cases p w) as [(f & w1 & -> & _)|[e ->]]; [done|].
  by intros [= _ <-].
Qed.

End RunnerFailures.

(** X6.  A log file that cannot be opened stops the run before the
    first command.  With the inputs in place and the output directory
    ensured, if [open] raises for the log path, [main] announces the
    trimming and ends with that very exception: no command has been
    handed to the shell, and the file system is as the step that ensures
    the output directory left it.  A log path in a directory that does
    not exist is such a path. *)
Theorem unopenable_log_stops_run shell glob_magic_dirs
    (c : config) (w w1 w2 : world) (p : string) (x : exn) :
  missing_inputs c w = [] →
  ensure_output_dir (output_dir c) w = (Returned tt, w1) →
  logfile c = Some p →
  open_append p w1 = (Raised x, w2) →
  main shell glob_magic_dirs c w
  = (Raised x, emit (Logged INFO "Trimming Illumina reads...") w1)
  ∧ w_invoked w1 = w_invoked w
  ∧ w2 = w1.
Proof.
  intros Hmiss Hens Hlog Hopen.
  pose proof (open_append_raises _ _ _ _ Hopen) as ->.
  split; [|split; [|done]].
  - unfold main. unfold bind at 1. rewrite validate_returns by done.
    unfold bind at 1. rewrite Hens.
    unfold bind at 1.
    assert (run_stages shell c w1
            = (Raised x, emit (Logged INFO "Trimming Illumina reads...") w1))
      as ->; [|done].
    unfold run_stages. unfold bind at 1. unfold logging_info at 1, modify.
    unfold bind at 1. unfold trim_reads, run_cmd. rewrite Hlog.
    unfold bind at 1.
    assert (open_append p (emit (Logged INFO "Trimming Illumina reads...") w1)
            = (Raised x, emit (Logged INFO "Trimming Illumina reads...") w1))
      as ->; [|done].
    revert Hopen. unfold open_append. simpl.
    repeat case_match; intros [= <-]; done.
  - by destruct (runs_nothing_ensure_output_dir _ _ _ _ Hens) as (_ & -> & _).
Qed.

Lemma unopenable_log_stops_run_witness :
  main Demo.tools Demo.no_magic_dirs (Demo.cfg (Some "nowhere/log.txt") false)
    (Demo.start Demo.reads)
  = (Raised (OSError ENOENT "nowhere/log.txt"),
     emit (Logged INFO "Trimming Illumina reads...")
       (ensure_output_dir "out" (Demo.start Demo.reads)).2)
  ∧ w_invoked (ensure_output_dir "out" (Demo.start Demo.reads)).2
    = w_invoked (Demo.start Demo.reads)
  ∧ (ensure_output_dir "out" (Demo.start Demo.reads)).2
    = (ensure_output_dir "out" (Demo.start Demo.reads)).2.
Proof.
  apply (unopenable_log_stops_run Demo.tools Demo.no_magic_dirs
           (Demo.cfg (Some "nowhere/log.txt") false) (Demo.start Demo.reads)
           (ensure_output_dir "out" (Demo.start Demo.reads)).2
           (ensure_output_dir "out" (Demo.start Demo.reads)).2
           "nowhere/log.txt" (OSError ENOENT "nowhere/log.txt"));
    by vm_compute.
Defined.

(** X7.  A log file path that names a directory stops the run at the
    first stage.  With the inputs in place and the output directory
    ensured, [main] announces the trimming and then ends with
    [IsADirectoryError] for the log path: no command has been handed to
    the shell, and besides the output directory nothing was made. *)
Theorem log_path_is_directory_aborts shell glob_magic_dirs
    (c : config) (w w1 : world) (p : string) :
  missing_inputs c w = [] →
  ensure_output_dir (output_dir c) w = (Returned tt, w1) →
  logfile c = Some p →
  os_path_isdir p w1 = true →
  main shell glob_magic_dirs c w
  = (Raised (OSError EISDIR p),
     emit (Logged INFO "Trimming Illumina reads...") w1)
  ∧ w_invoked w1 = w_invoked w.
Proof.
  intros Hmiss Hens Hlog Hdir. split.
  - unfold main. unfold bind at 1. rewrite validate_returns by done.
    unfold bind at 1. rewrite Hens.
    unfold bind at 1.
    assert (run_stages shell c w1
            = (Raised (OSError EISDIR p),
               emit (Logged INFO "Trimming Illumina reads...") w1)) as ->; [|done].
    unfold run_stages. unfold bind at 1. unfold logging_info at 1, modify.
    unfold bind at 1. unfold trim_reads, run_cmd. rewrite Hlog.
    unfold bind at 1. by rewrite open_append_directory.
  - by destruct (runs_nothing_ensure_output_dir _ _ _ _ Hens) as (_ & -> & _).
Qed.

Lemma log_path_is_directory_aborts_witness :
  main Demo.tools Demo.no_magic_dirs (Demo.cfg (Some "out") false)
    (Demo.start Demo.reads)
  = (Raised (OSError EISDIR "out"),
     emit (Logged INFO "Trimming Illumina reads...")
       (ensure_output_dir "out" (Demo.start Demo.reads)).2)
  ∧ w_invoked (ensure_output_dir "out" (Demo.start Demo.reads)).2
    = w_invoked (Demo.start Demo.reads).
Proof.
  apply (log_path_is_directory_aborts Demo.tools Demo.no_magic_dirs
           (Demo.cfg (Some "out") false) (Demo.start Demo.reads)
           (ensure_output_dir "out" (Demo.start Demo.reads)).2 "out");
    by vm_compute.
Defined.

(** ** What a call of [run_cmd] leaves in the log *)

(** X8.  With a log file that exists and a command line shorter than a
    chunk of the file object, [run_cmd] returns, and the log then holds
    what it held when the command had run, then the output of the
    command, then the command line: the call appends and truncates
    nothing, and the line written first comes last.  Nothing is put on
    the terminal. *)
Theorem log_gets_output_then_command shell
    (cmd path : string) (w : world) (l : loc) (d0 : string)
    (t : node) (out : string) (st : Z) (d1 : string) :
  resolve (w_cwd w) (w_root w) path = Some l →
  FS.lookup l (w_root w) = Some (File d0) →
  (N.of_nat (String.length cmd) < chunk_size)%N →
  shell cmd (w_root w) = (t, out, st) →
  FS.lookup l t = Some (File d1) →
  ∃ w', run_cmd shell cmd (Some path) w = (Returned tt, w')
        ∧ FS.lookup l (w_root w') = Some (File (d1 +:+ out +:+ cmd))
        ∧ w_console w' = w_console w.
Proof.
  intros Hl H0 Hlen Hsh H1.
  destruct (run_cmd_log_order shell cmd path w l d0 t out st d1)
    as (w' & Hrun & Hlog); try done.
  exists w'. split; [done|]. split; [done|].
  destruct (run_cmd_trace shell _ _ _ _ _ Hrun) as (_ & _ & _ & Hcon).
  apply Hcon. by eexists.
Qed.

Lemma log_gets_output_then_command_witness :
  ∃ w', run_cmd Demo.tools "tadpole.sh in=a" (Some "r1.fastq.gz")
          (Demo.start Demo.reads) = (Returned tt, w')
        ∧ FS.lookup ["work"; "r1.fastq.gz"] (w_root w')
          = Some (File ("forward reads" +:+ "tadpole: done."
                        +:+ "tadpole.sh in=a"))
        ∧ w_console w' = w_console (Demo.start Demo.reads).
Proof.
  apply (log_gets_output_then_command Demo.tools "tadpole.sh in=a"
           "r1.fastq.gz" (Demo.start Demo.reads) ["work"; "r1.fastq.gz"]
           "forward reads"
           (Demo.tools "tadpole.sh in=a" (w_root (Demo.start Demo.reads))).1.1
           "tadpole: done." 0 "forward reads");
    by vm_compute.
Defined.

(** X9.  A log file that does not exist is created, provided the
    directory it is to be in exists: [run_cmd] returns, and the new file
    holds what the command itself may have put there, the output of the
    command and the command line.  The file is there when the command
    runs: the shell sees the file system with the empty log in it. *)
Theorem log_created_when_missing shell
    (cmd path : string) (w : world) (d : loc) (n : string)
    (t : node) (out : string) (st : Z) (d1 : string) :
  resolve (w_cwd w) (w_root w) path = Some (d ++ [n]) →
  FS.lookup (d ++ [n]) (w_root w) = None →
  FS.is_dir (FS.lookup d (w_root w)) = true →
  (N.of_nat (String.length cmd) < chunk_size)%N →
  shell cmd (FS.put d n (File "") (w_root w)) = (t, out, st) →
  FS.lookup (d ++ [n]) t = Some (File d1) →
  ∃ w', run_cmd shell cmd (Some path) w = (Returned tt, w')
        ∧ FS.lookup (d ++ [n]) (w_root w') = Some (File (d1 +:+ out +:+ cmd)).
Proof.
  intros Hl H0 Hdir Hlen Hsh H1.
  unfold run_cmd, bind, open_append.
  destruct (Str.endswith_sep path) eqn:Hend.
  { pose proof (resolve_endswith_sep _ _ _ _ Hend Hl) as Hd.
    by rewrite H0 in Hd. }
  apply resolve_Some in Hl. rewrite Hl, H0, unsnoc_snoc.
  unfold file_write. simpl. rewrite bool_decide_eq_true_2 by done.
  unfold subprocess_call. simpl. rewrite Hsh. simpl.
  eexists. split; [reflexivity|]. simpl.
  erewrite lookup_fd_write by (by apply lookup_fd_write).
  by rewrite append_assoc.
Qed.

Lemma log_created_when_missing_witness :
  ∃ w', run_cmd Demo.absent_tools "bbduk.sh in=a" (Some "log.txt")
          (Demo.start Demo.reads) = (Returned tt, w')
        ∧ FS.lookup (["work"] ++ ["log.txt"]) (w_root w')
          = Some (File ("" +:+ "sh: command not found" +:+ "bbduk.sh in=a")).
Proof.
  apply (log_created_when_missing Demo.absent_tools "bbduk.sh in=a" "log.txt"
           (Demo.start Demo.reads) ["work"] "log.txt"
           (FS.put ["work"] "log.txt" (File "") (w_root (Demo.start Demo.reads)))
           "sh: command not found" 127 "");
    by vm_compute.
Defined.

(** ** An output path that cannot be used *)

(** X10.  When the output path leads from an existing directory to a
    regular file, or on through one, [main] stops right behind the
    checks: making the directory raises ([FileExistsError] for a file
    under the very name, [NotADirectoryError] for a file on the way, with
    the path up to the name behind the file), no command has been handed
    to the shell, nothing was logged and nothing has changed. *)
Theorem unusable_output_path_aborts shell glob_magic_dirs
    (c : config) (w : world) (base n : string) (rest : list string)
    (D : loc) (es : gmap string node) (d : string) :
  missing_inputs c w = [] →
  base_directory base w = Some D →
  FS.lookup D (w_root w) = Some (Dir es) →
  es !! n = Some (File d) →
  Forall (λ m, valid_name m = true) (n :: rest) →
  output_dir c = descend base (n :: rest) →
  main shell glob_magic_dirs c w
  = (Raised (OSError (if rest is [] then EEXIST else ENOTDIR)
               (descend base (n :: take 1 rest))), w).
Proof.
  intros Hmiss HD Hes Hn Hvalid Hout.
  unfold main. unfold bind at 1. rewrite validate_returns by done.
  unfold bind at 1. rewrite Hout.
  rewrite ensure_output_dir_absent
    by (apply (os_path_isdir_descend _ _ _ _ D es); try done; by rewrite Hn).
  by rewrite (os_makedirs_file _ _ _ _ D es d).
Qed.

Lemma unusable_output_path_aborts_witness :
  main Demo.tools Demo.no_magic_dirs
    (with_output_dir "r1.fastq.gz/out/deep" (Demo.cfg None false))
    (Demo.start Demo.reads)
  = (Raised (OSError ENOTDIR
               (descend "" ("r1.fastq.gz" :: take 1 ["out"; "deep"]))),
     Demo.start Demo.reads).
Proof.
  apply (unusable_output_path_aborts Demo.tools Demo.no_magic_dirs
           (with_output_dir "r1.fastq.gz/out/deep" (Demo.cfg None false))
           (Demo.start Demo.reads) "" "r1.fastq.gz" ["out"; "deep"]
           ["work"] Demo.reads "forward reads");
    try by vm_compute.
  by repeat constructor.
Defined.

(** The two cases, evaluated: a file under the very name, and a file on
    the way. *)
Example output_path_is_a_file :
  (main Demo.tools Demo.no_magic_dirs
     (with_output_dir "r1.fastq.gz" (Demo.cfg None false))
     (Demo.start Demo.reads)).1
  = Raised (OSError EEXIST "r1.fastq.gz")
  ∧ (main Demo.tools Demo.no_magic_dirs
       (with_output_dir "r1.fastq.gz/out/deep" (Demo.cfg None false))
       (Demo.start Demo.reads)).1
    = Raised (OSError ENOTDIR "r1.fastq.gz/out").
Proof. by vm_compute. Qed.

(** ** Where the derived paths lead *)

Section WhereThePathsLead.



Lemma os_path_join_trailing_sep (o b : string) :
  o ≠ "" → Str.endswith_sep o = false →
  os_path_join (o +:+ "/") b = os_path_join o b.
Proof.
  intros Ho Hend. unfold os_path_join.
  rewrite endswith_sep_snoc, Hend, orb_true_r.
  rewrite (bool_decide_eq_false_2 (o = "")) by done. simpl.
  by rewrite append_assoc.
Qed.

Lemma os_path_join_absolute (o b : string) :
  Str.startswith_sep b = true → os_path_join o b = b.
Proof. intros H. unfold os_path_join. by rewrite H. Qed.

End WhereThePathsLead.

(** X11.  An assembly name that starts with a separator takes every
    derived path out of the output directory: the four intermediate read
    paths and the destination of the final move are the name with its
    ending, whatever the output directory is, and the closing message
    names that path. *)
Theorem absolute_name_escapes_output_dir (c : config) :
  Str.startswith_sep (assembly_name c) = true →
  derived_paths c = map (λ suffix, assembly_name c +:+ suffix) derived_suffixes
  ∧ finalize c
    = shutil_move (os_path_join (output_dir c) "assembly.fasta")
                  (assembly_name c +:+ ".fasta")
  ∧ report_done c
    = logging_info ("Hybrid Assembly complete. Assembly file is "
                    +:+ (assembly_name c +:+ ".fasta")).
Proof.
  intros Habs.
  assert (∀ suffix, os_path_join (output_dir c) (assembly_name c +:+ suffix)
                    = assembly_name c +:+ suffix) as Hjoin.
  { intros suffix. apply os_path_join_absolute.
    rewrite startswith_sep_app; [done|]. by destruct (assembly_name c). }
  unfold derived_paths, trimmed_forward, trimmed_reverse, corrected_forward,
    corrected_reverse, finalize, report_done.
  by rewrite !Hjoin.
Qed.

Lemma absolute_name_escapes_output_dir_witness :
  derived_paths (Config "r1.fastq.gz" "r2.fastq.gz" "pb.fastq.gz" "out"
                   "/tmp/x" 4 None false)
  = map (λ suffix, "/tmp/x" +:+ suffix) derived_suffixes
  ∧ finalize (Config "r1.fastq.gz" "r2.fastq.gz" "pb.fastq.gz" "out"
                "/tmp/x" 4 None false)
    = shutil_move (os_path_join "out" "assembly.fasta") ("/tmp/x" +:+ ".fasta")
  ∧ report_done (Config "r1.fastq.gz" "r2.fastq.gz" "pb.fastq.gz" "out"
                   "/tmp/x" 4 None false)
    = logging_info ("Hybrid Assembly complete. Assembly file is "
                    +:+ ("/tmp/x" +:+ ".fasta")).
Proof.
  apply (absolute_name_escapes_output_dir
           (Config "r1.fastq.gz" "r2.fastq.gz" "pb.fastq.gz" "out"
              "/tmp/x" 4 None false)).
  reflexivity.
Defined.



(** X13.  Whether the output directory is given with a separator at its
    end or without one makes no difference to the paths [main] derives
    from it: the same four intermediate read paths, the same final move,
    the same cleanup and the same closing message. *)
Theorem trailing_separator_same_paths glob_magic_dirs (c : config) (o : string) :
  o ≠ "" → Str.endswith_sep o = false →
  derived_paths (with_output_dir (o +:+ "/") c)
  = derived_paths (with_output_dir o c)
  ∧ finalize (with_output_dir (o +:+ "/") c) = finalize (with_output_dir o c)
  ∧ clean_or_keep glob_magic_dirs (with_output_dir (o +:+ "/") c)
    = clean_or_keep glob_magic_dirs (with_output_dir o c)
  ∧ report_done (with_output_dir (o +:+ "/") c)
    = report_done (with_output_dir o c).
Proof.
  intros Ho Hend.
  unfold derived_paths, trimmed_forward, trimmed_reverse, corrected_forward,
    corrected_reverse, finalize, clean_or_keep, report_done. simpl.
  by rewrite !os_path_join_trailing_sep.
Qed.

Lemma trailing_separator_same_paths_witness :
  derived_paths (with_output_dir ("out" +:+ "/") (Demo.cfg None false))
  = derived_paths (with_output_dir "out" (Demo.cfg None false))
  ∧ finalize (with_output_dir ("out" +:+ "/") (Demo.cfg None false))
    = finalize (with_output_dir "out" (Demo.cfg None false))
  ∧ clean_or_keep Demo.no_magic_dirs
      (with_output_dir ("out" +:+ "/") (Demo.cfg None false))
    = clean_or_keep Demo.no_magic_dirs (with_output_dir "out" (Demo.cfg None false))
  ∧ report_done (with_output_dir ("out" +:+ "/") (Demo.cfg None false))
    = report_done (with_output_dir "out" (Demo.cfg None false)).
Proof.
  apply (trailing_separator_same_paths Demo.no_magic_dirs
           (Demo.cfg None false) "out"); done.
Defined.

(** ** The command lines *)

Section CommandLines.

Lemma app_space_inj (a a' s s' : string) :
  Str.contains " " a = false → Str.contains " " a' = false →
  a +:+ String " " s = a' +:+ String " " s' → a = a' ∧ s = s'.
Proof.
  revert a'. induction a as [|c a IH]; intros [|c' a'] Ha Ha'.
  - rewrite !append_nil_l. by intros [= ->].
  - rewrite append_nil_l, append_cons. intros [= <- _]. done.
  - rewrite append_nil_l, append_cons. intros [= -> _]. done.
  - rewrite !append_cons. intros [= -> H].
    simpl in Ha, Ha'.
    apply orb_false_elim in Ha as [_ Ha]. apply orb_false_elim in Ha' as [_ Ha'].
    by destruct (IH a' Ha Ha' H) as [-> ->].
Qed.

End CommandLines.

(** Reads one argument off the front of two equal command lines: the
    literal text in front of it, then the argument up to the next
    blank. *)
Ltac read_argument H :=
  repeat (injection H as H);
  apply app_space_inj in H as [-> H]; [|done..].

(** X14.  The adapters paste their arguments into the command line as
    they are, with nothing around them: a path with a blank in it is read
    by the shell as more than one word, and different arguments can give
    one and the same command line. *)
Theorem unquoted_arguments_run_together (a b r x y : string) (t : Z) :
  trim_cmd (a +:+ " in2=" +:+ b) r x y t
  = trim_cmd a (b +:+ " in2=" +:+ r) x y t
  ∧ correct_cmd (a +:+ " in2=" +:+ b) r x y t
    = correct_cmd a (b +:+ " in2=" +:+ r) x y t
  ∧ assemble_cmd (a +:+ " -2 " +:+ b) r x y t
    = assemble_cmd a (b +:+ " -2 " +:+ r) x y t.
Proof.
  unfold trim_cmd, correct_cmd, assemble_cmd.
  by rewrite !append_assoc.
Qed.

(** X15.  As long as no argument has a blank in it, a command line
    determines the arguments it was made from: the four paths and the
    number of threads can be read back from each of the three command
    lines. *)
Theorem spaceless_arguments_recoverable
    (a b c d a' b' c' d' : string) (t t' : Z) :
  Forall (λ s, Str.contains " " s = false) [a; b; c; d; a'; b'; c'; d'] →
  (trim_cmd a b c d t = trim_cmd a' b' c' d' t' →
   (a, b, c, d, t) = (a', b', c', d', t'))
  ∧ (correct_cmd a b c d t = correct_cmd a' b' c' d' t' →
     (a, b, c, d, t) = (a', b', c', d', t'))
  ∧ (assemble_cmd a b c d t = assemble_cmd a' b' c' d' t' →
     (a, b, c, d, t) = (a', b', c', d', t')).
Proof.
  rewrite !Forall_cons.
  intros (Ha & Hb & Hc & Hd & Ha' & Hb' & Hc' & Hd' & _).
  unfold trim_cmd, correct_cmd, assemble_cmd.
  repeat split; intros H;
    rewrite !append_cons, !append_nil_l in H;
    do 4 read_argument H;
    repeat (injection H as H);
    by apply (inj pretty) in H as ->.
Qed.

Lemma spaceless_arguments_recoverable_witness :
  (trim_cmd "r1.fq" "r2.fq" "t1.fq" "t2.fq" 4
   = trim_cmd "r1.fq" "r2.fq" "t1.fq" "t2.fq" 4 →
   ("r1.fq", "r2.fq", "t1.fq", "t2.fq", 4%Z)
   = ("r1.fq", "r2.fq", "t1.fq", "t2.fq", 4%Z))
  ∧ (correct_cmd "r1.fq" "r2.fq" "t1.fq" "t2.fq" 4
     = correct_cmd "r1.fq" "r2.fq" "t1.fq" "t2.fq" 4 →
     ("r1.fq", "r2.fq", "t1.fq", "t2.fq", 4%Z)
     = ("r1.fq", "r2.fq", "t1.fq", "t2.fq", 4%Z))
  ∧ (assemble_cmd "r1.fq" "r2.fq" "t1.fq" "t2.fq" 4
     = assemble_cmd "r1.fq" "r2.fq" "t1.fq" "t2.fq" 4 →
     ("r1.fq", "r2.fq", "t1.fq", "t2.fq", 4%Z)
     = ("r1.fq", "r2.fq", "t1.fq", "t2.fq", 4%Z)).
Proof.
  apply (spaceless_arguments_recoverable
           "r1.fq" "r2.fq" "t1.fq" "t2.fq" "r1.fq" "r2.fq" "t1.fq" "t2.fq" 4 4).
  repeat constructor.
Defined.

(** ** What the cleanup leaves alone *)

Section CleanupSpares.

Variable glob_magic_dirs : string → world → list string.

Implicit Types (D : loc) (es : gmap string node) (L : list string).

Lemma set_root_alter_id D es (g : gmap string node → gmap string node) w :
  FS.lookup D (w_root w) = Some (Dir es) → g es = es →
  set_root (FS.alter_at (FS.on_entries g) D (w_root w)) w = w.
Proof.
  intros Hes Hg. destruct w as [cwd t con inv]. unfold set_root. simpl in *.
  f_equal. eapply alter_at_id; [exact Hes|]. simpl. by rewrite Hg.
Qed.

(** However the loop over the files to remove ends, it has removed some
    of the listed entries of the directory and changed nothing else. *)
Lemma remove_loop_any dirname D L :
  Forall (λ n, valid_name n = true) L →
  ∀ w es,
    resolve (w_cwd w) (w_root w) dirname = Some D →
    FS.lookup D (w_root w) = Some (Dir es) →
    ∃ o L',
      L' ⊆ L
      ∧ Forall (λ n, FS.is_dir (es !! n) = false) L'
      ∧ for_each (map (os_path_join dirname) L) os_remove w
        = (o, set_root (FS.alter_at (FS.on_entries (delete_all L')) D (w_root w)) w).
Proof.
  intros Hvalid. induction L as [|n L IH]; intros w es HD Hes.
  { exists (Returned tt), []. split; [done|]. split; [done|]. simpl. unfold ret.
    by rewrite (set_root_alter_id D es). }
  apply Forall_cons in Hvalid as [Hn Hvalid].
  simpl. unfold bind.
  rewrite (os_remove_entry dirname n w D es) by done.
  destruct (es !! n) as [[d|?]|] eqn:Hlook.
  - destruct (IH Hvalid (set_root (FS.drop D n (w_root w)) w) (delete n es))
      as (o & L' & Hsub & Hfiles & ->);
      [simpl; apply (resolve_drop_file _ _ _ es); [done|by rewrite Hlook|done]
      |by apply lookup_drop|].
    exists o, (n :: L'). split; [by apply list_subseteq_skip|]. split.
    + constructor; [by rewrite Hlook|].
      apply Forall_forall. intros m Hm. rewrite Forall_forall in Hfiles.
      specialize (Hfiles m Hm). destruct (decide (n = m)) as [<-|Hne].
      * by rewrite Hlook.
      * by rewrite lookup_delete_ne in Hfiles.
    + unfold set_root. simpl. do 2 f_equal. unfold FS.drop.
      rewrite alter_at_compose. apply alter_at_ext. intros [?|?]; done.
  - eexists _, []. split; [apply list_subseteq_nil|]. split; [done|].
    by rewrite (set_root_alter_id D es).
  - eexists _, []. split; [apply list_subseteq_nil|]. split; [done|].
    by rewrite (set_root_alter_id D es).
Qed.

(** However the cleanup ends, the file system it leaves is the one it
    found with some entries of the output directory removed, none of
    them an entry that the cleanup is not after. *)
Lemma clean_or_keep_root c w D es :
  resolve (w_cwd w) (w_root w) (output_dir c) = Some D →
  has_magic (output_dir c) = false →
  FS.lookup D (w_root w) = Some (Dir es) →
  ∃ g : gmap string node → gmap string node,
    w_root (clean_or_keep glob_magic_dirs c w).2
    = FS.alter_at (FS.on_entries g) D (w_root w)
    ∧ ∀ k, doomed k = false → k ≠ "pilon_polish" → g es !! k = es !! k.
Proof.
  intros HD Hmagic Hes.
  destruct (keep_files c) eqn:Hkeep.
  { exists id. split; [|done].
    unfold clean_or_keep. rewrite Hkeep. simpl.
    symmetry. by eapply alter_at_id. }
  destruct (glob_glob_entries glob_magic_dirs _ _ _ es HD Hes Hmagic)
    as (dirname & Hne & Hres & Hglob).
  unfold clean_or_keep. rewrite Hkeep. simpl.
  unfold bind at 1. unfold logging_info, modify.
  unfold bind at 1. rewrite Hglob by done.
  unfold bind at 1. rewrite Hglob by done.
  unfold bind at 1. rewrite <- map_app.
  destruct (remove_loop_any dirname D _ (files_to_remove_valid es)
              (emit (Logged INFO "Cleaning up Unicycler output files...") w) es)
    as (o & L' & Hsub & Hfiles & ->); [done..|].
  assert (∀ k, doomed k = false → delete_all L' es !! k = es !! k) as Hspared.
  { intros k Hk. rewrite lookup_delete_all. case_decide as Hin; [|done].
    apply Hsub, elem_of_files_to_remove in Hin as [Hd _]. congruence. }
  set (w2 := set_root _ _).
  assert (FS.lookup D (w_root w2) = Some (Dir (delete_all L' es))) as Hes2.
  { exact (lookup_on_entries D _ _ es Hes). }
  assert (resolve (w_cwd w2) (w_root w2) (output_dir c) = Some D) as HD2.
  { unfold w2. simpl. rewrite <- HD. apply resolve_ext.
    apply (is_dir_on_entries _ _ _ es); [done|]. intros k.
    rewrite lookup_delete_all. case_decide as Hin; [right|by left].
    split; [done|]. rewrite Forall_forall in Hfiles. by apply Hfiles. }
  destruct o as [[]|s|e];
    [|exists (delete_all L'); split; [done|by intros k Hk _; apply Hspared]..].
  rewrite (shutil_rmtree_entry _ _ w2 D (delete_all L' es)) by done.
  destruct (delete_all L' es !! "pilon_polish") as [[?|?]|];
    [exists (delete_all L'); split; [done|by intros k Hk _; apply Hspared]|
    |exists (delete_all L'); split; [done|by intros k Hk _; apply Hspared]].
  exists (delete "pilon_polish" ∘ delete_all L'). split.
  - simpl. unfold FS.drop. rewrite alter_at_compose.
    apply alter_at_ext. intros [?|?]; done.
  - intros k Hk Hpp. simpl. rewrite lookup_delete_ne by done. by apply Hspared.
Qed.

End CleanupSpares.

(** X16.  However the cleanup ends, with an exception on the way as
    well as with a return, it has touched nothing but entries of the
    output directory that [*.gfa] or [*.fastq.gz] pick and the entry
    [pilon_polish]: every other entry of the output directory is as it
    was, with all that is below it, and so is everything that is neither
    in the output directory nor on the way to it.  (The path of the
    output directory is taken to have no wildcard.) *)
Theorem cleanup_spares_the_rest glob_magic_dirs (c : config) (w : world)
    (D : loc) (es : gmap string node) :
  resolve (w_cwd w) (w_root w) (output_dir c) = Some D →
  has_magic (output_dir c) = false →
  FS.lookup D (w_root w) = Some (Dir es) →
  (∀ k, doomed k = false → k ≠ "pilon_polish" →
        FS.lookup (D ++ [k]) (w_root (clean_or_keep glob_magic_dirs c w).2)
        = es !! k)
  ∧ (∀ q, FS.is_prefix D q = false → FS.is_prefix q D = false →
          FS.lookup q (w_root (clean_or_keep glob_magic_dirs c w).2)
          = FS.lookup q (w_root w)).
Proof.
  intros HD Hmagic Hes.
  destruct (clean_or_keep_root glob_magic_dirs c w D es HD Hmagic Hes)
    as (g & -> & Hg).
  split.
  - intros k Hk Hpp.
    rewrite (lookup_entry D k _ (g es)); [by apply Hg|].
    exact (lookup_on_entries D g _ es Hes).
  - intros q H1 H2. by apply lookup_alter_at_off.
Qed.

Lemma cleanup_spares_the_rest_witness :
  (∀ k, doomed k = false → k ≠ "pilon_polish" →
        FS.lookup (Demo.out ++ [k])
          (w_root (clean_or_keep Demo.no_magic_dirs (Demo.cfg None false)
                     (Demo.start (<["out" := Dir {[ "old.gfa" := Dir ∅;
                                                     "notes.txt" := File "keep" ]}]>
                                    Demo.reads))).2)
        = ({[ "old.gfa" := Dir ∅; "notes.txt" := File "keep" ]}
             : gmap string node) !! k)
  ∧ (∀ q, FS.is_prefix Demo.out q = false → FS.is_prefix q Demo.out = false →
          FS.lookup q
            (w_root (clean_or_keep Demo.no_magic_dirs (Demo.cfg None false)
                       (Demo.start (<["out" := Dir {[ "old.gfa" := Dir ∅;
                                                       "notes.txt" := File "keep" ]}]>
                                      Demo.reads))).2)
          = FS.lookup q
              (w_root (Demo.start (<["out" := Dir {[ "old.gfa" := Dir ∅;
                                                      "notes.txt" := File "keep" ]}]>
                                     Demo.reads)))).
Proof.
  apply (cleanup_spares_the_rest Demo.no_magic_dirs (Demo.cfg None false)
           (Demo.start (<["out" := Dir {[ "old.gfa" := Dir ∅;
                                           "notes.txt" := File "keep" ]}]>
                          Demo.reads))
           Demo.out {[ "old.gfa" := Dir ∅; "notes.txt" := File "keep" ]});
    by vm_compute.
Defined.

(** ** When a run succeeds *)

(** X17.  What it takes for [main] to return once the assemble stage is
    over: the output directory (its path without wildcards) holds a
    regular file [assembly.fasta], the assembly name is a base name that
    names no directory and, unless the files are kept, the output
    directory has a subdirectory [pilon_polish] and no directory under a
    name that [*.gfa] or [*.fastq.gz] pick.  Then [main] returns, the
    assembly is there under its final name, and the terminal has
    received the message that the cleanup starts (unless the files are
    kept) and, last, the closing message with the final path. *)
Theorem run_succeeds shell glob_magic_dirs (c : config)
    (w w1 : world) (D : loc) (es : gmap string node) (d : string) :
  through_assemble shell c w = (Returned tt, w1) →
  resolve (w_cwd w1) (w_root w1) (output_dir c) = Some D →
  has_magic (output_dir c) = false →
  Str.contains "/" (assembly_name c) = false →
  FS.lookup D (w_root w1) = Some (Dir es) →
  es !! "assembly.fasta" = Some (File d) →
  FS.is_dir (es !! (assembly_name c +:+ ".fasta")) = false →
  (keep_files c = false → FS.is_dir (es !! "pilon_polish") = true) →
  (keep_files c = false → ∀ m, doomed m = true → FS.is_dir (es !! m) = false) →
  ∃ w',
    main shell glob_magic_dirs c w = (Returned tt, w')
    ∧ FS.lookup (D ++ [assembly_name c +:+ ".fasta"]) (w_root w') = Some (File d)
    ∧ w_console w' =
        w_console w1
        ++ (if keep_files c then []
            else [Logged INFO "Cleaning up Unicycler output files..."])
        ++ [Logged INFO
              ("Hybrid Assembly complete. Assembly file is "
               +:+ os_path_join (output_dir c) (assembly_name c +:+ ".fasta"))].
Proof.
  intros Hrun HD Hmagic Hname Hes Hsrc Hdst Hpp Hfiles.
  rewrite (main_after_assemble _ _ _ _ _ Hrun). unfold bind at 1.
  rewrite (finalize_moves_file c w1 D es d) by done.
  set (es2 := <[assembly_name c +:+ ".fasta" := File d]>
                (delete "assembly.fasta" es)).
  set (w2 := set_root _ w1).
  assert (FS.lookup D (w_root w2) = Some (Dir es2)) as Hes2.
  { exact (lookup_on_entries D _ _ es Hes). }
  assert (resolve (w_cwd w2) (w_root w2) (output_dir c) = Some D) as HD2.
  { unfold w2. simpl. by rewrite (resolve_renamed _ _ _ _ es). }
  unfold bind at 1. destruct (keep_files c) eqn:Hkeep.
  - unfold clean_or_keep. rewrite Hkeep. simpl.
    unfold report_done, logging_info, modify.
    eexists. split; [reflexivity|]. split; [|done]. simpl.
    rewrite (lookup_entry _ _ _ _ Hes2). apply lookup_insert_eq.
  - pose proof (renamed_no_doomed_directory es (assembly_name c) d
                  (Hfiles eq_refl)) as Hfiles2.
    rewrite (sweep_then_rmtree _ c w2 D es2) by done.
    set (w3 := set_root _ _).
    assert (FS.lookup D (w_root w3) = Some (Dir (swept es2))) as Hes3.
    { exact (lookup_on_entries D _ _ es2 Hes2). }
    assert (resolve (w_cwd w3) (w_root w3) (output_dir c) = Some D) as HD3.
    { unfold w3. simpl. by rewrite (resolve_swept _ _ _ _ es2). }
    rewrite (shutil_rmtree_entry _ _ w3 D (swept es2)) by done.
    assert (FS.is_dir (swept es2 !! "pilon_polish") = true) as Hpp3.
    { rewrite lookup_swept. change (doomed "pilon_polish") with false.
      cbv iota. unfold es2. rewrite lookup_renamed.
      rewrite bool_decide_eq_false_2
        by (intros Heq; by apply (final_name_not_pilon (assembly_name c))).
      rewrite bool_decide_eq_false_2 by done. by apply Hpp. }
    destruct (swept es2 !! "pilon_polish") as [[?|?]|]; try done.
    unfold report_done, logging_info, modify.
    eexists. split; [reflexivity|]. split.
    + simpl. rewrite (lookup_entry D _ _ (delete "pilon_polish" (swept es2)))
        by by apply lookup_drop.
      rewrite lookup_delete_ne by apply not_eq_sym, final_name_not_pilon.
      rewrite lookup_swept, final_name_not_doomed. apply lookup_insert_eq.
    + simpl. by rewrite <- app_assoc.
Qed.

Lemma run_succeeds_witness :
  ∃ w',
    main Demo.tools Demo.no_magic_dirs (Demo.cfg None false) Demo.start_used
    = (Returned tt, w')
    ∧ FS.lookup (Demo.out ++ [assembly_name (Demo.cfg None false) +:+ ".fasta"])
        (w_root w') = Some (File ">contig")
    ∧ w_console w' =
        w_console (through_assemble Demo.tools (Demo.cfg None false)
                     Demo.start_used).2
        ++ (if keep_files (Demo.cfg None false) then []
            else [Logged INFO "Cleaning up Unicycler output files..."])
        ++ [Logged INFO
              ("Hybrid Assembly complete. Assembly file is "
               +:+ os_path_join (output_dir (Demo.cfg None false))
                     (assembly_name (Demo.cfg None false) +:+ ".fasta"))].
Proof.
  apply (run_succeeds Demo.tools Demo.no_magic_dirs (Demo.cfg None false)
           Demo.start_used
           (through_assemble Demo.tools (Demo.cfg None false) Demo.start_used).2
           Demo.out
           (Demo.out_entries
              (through_assemble Demo.tools (Demo.cfg None false)
                 Demo.start_used).2)
           ">contig");
    try (by vm_compute).
  intros _. apply no_doomed_directory_by_entries.
  apply (bool_decide_unpack _). by vm_compute.
Defined.
